(** * sepa_app: the bulk ingestion pipeline of [app/services/importador.py]

    A shallow embedding of the importer (row validation, merchant upsert,
    staged bulk load, compaction, orchestration) and of the cron entry point
    [scripts/descargar_e_importar.py], followed by the properties of the
    specification that were checked against it; then the readers of the
    tables, the search of [app/models/buscador.py] and the key check and
    product endpoint of [app/api.py], with properties of their own.

    Conventions of the embedding.
    - Text is a [string] whose characters are the code points 0..255; the
      predicates below ([isspace], [lower], the digits) are Python's on that
      range.  Cells never hold code point 0.
    - A Python [int] is a [Z].  A Python [float] is kept as the exact value
      of the literal it was parsed from ([pyfloat]); rounding to binary64 is
      not represented.  It is the identity on literals of at most 15
      significant digits within the range of doubles.  The limit on the
      number of digits [int()] accepts in recent interpreters is not
      represented either.
    - A csv file is given by the records [csv.reader] yields for it; a
      file that stops decoding part of the way is given by the records
      yielded before the error.
    - A table is the list of its rows in heap order.
    - A raised exception is an [Exc] result; a connection carries the
      committed tables, the tables of the open transaction and the flag of
      an aborted transaction.
    - The server accepts the statements of the importer as far as its
      own rules go (an aborted transaction, an [INTEGER] or [NUMERIC]
      out of range): the role of the connection may create, truncate and
      index the tables and set [session_replication_role], the sequence
      behind [productos.id] is not exhausted and the indexed texts fit an
      index entry.
    - Of what is printed only the phase banners, the two error lines of
      [procesar_zip_sepa] and the closing summary are kept.  Of the scratch
      directories only the removal that ends the run is represented, by
      whether it raises; the download itself is not represented. *)

From Stdlib Require Import ZArith Ascii String List Bool Lia.
From stdpp Require Import base tactics option list gmap strings sorting lexico pretty.

Local Open Scope string_scope.
Local Open Scope Z_scope.

(** ** Python text primitives *)

Module Py.

Definition ord (c : ascii) : Z := Z.of_N (N_of_ascii c).

Definition entre (a b n : Z) : bool := (a <=? n) && (n <=? b).

(** [str.isspace] on one character: used by [str.strip]. *)
Definition isspace (c : ascii) : bool :=
  let n := ord c in
  entre 9 13 n || entre 28 32 n || (n =? 133) || (n =? 160).

(** The blanks skipped by [int()] and [float()]: characters below 127 are
    tested with the C predicate (tab to carriage return, and space), the
    others are first mapped to a space when [isspace] holds. *)
Definition isspace_c (c : ascii) : bool :=
  let n := ord c in
  entre 9 13 n || (n =? 32) || (n =? 133) || (n =? 160).

Fixpoint lstrip_con (p : ascii -> bool) (s : string) : string :=
  match s with
  | String c s' => if p c then lstrip_con p s' else s
  | EmptyString => EmptyString
  end.

Definition strip_con (p : ascii -> bool) (s : string) : string :=
  String.rev (lstrip_con p (String.rev (lstrip_con p s))).

(** [s.strip()] *)
Definition strip (s : string) : string := strip_con isspace s.

Definition digito (c : ascii) : option Z :=
  let n := ord c in
  if entre 48 57 n then Some (n - 48) else None.

Definition es_digito (c : ascii) : bool := bool_decide (is_Some (digito c)).

(** Digits of a decimal literal after its first digit: single underscores
    are allowed between digits only. *)
Fixpoint int_cuerpo (acc : Z) (tras_guion : bool) (s : string) : option Z :=
  match s with
  | EmptyString => if tras_guion then None else Some acc
  | String c s' =>
      match digito c with
      | Some d => int_cuerpo (10 * acc + d) false s'
      | None =>
          if bool_decide (c = "_"%char) && negb tras_guion
          then int_cuerpo acc true s'
          else None
      end
  end.

Definition int_sin_signo (s : string) : option Z :=
  match s with
  | String c s' =>
      match digito c with
      | Some d => int_cuerpo d false s'
      | None => None
      end
  | EmptyString => None
  end.

(** [int(s)] in base 10; [None] stands for [ValueError]. *)
Definition int (s : string) : option Z :=
  match strip_con isspace_c s with
  | String "+" s' => int_sin_signo s'
  | String "-" s' => Z.opp <$> int_sin_signo s'
  | s' => int_sin_signo s'
  end.

(** The value of [float(s)]. *)
Inductive pyfloat : Type :=
  | Finito (mantisa : Z) (exp10 : Z)   (* mantisa * 10 ^ exp10 *)
  | Infinito (negativo : bool)
  | NoNumero.

(** [float()] first checks the underscores of the literal (each one between
    two digits) and drops them. *)
Fixpoint quitar_guiones (prev : option ascii) (s : string) : option string :=
  match s with
  | EmptyString =>
      if bool_decide (prev = Some "_"%char) then None else Some EmptyString
  | String c s' =>
      if bool_decide (c = "_"%char) then
        match prev with
        | Some p => if es_digito p then quitar_guiones (Some c) s' else None
        | None => None
        end
      else if bool_decide (prev = Some "_"%char) && negb (es_digito c) then None
      else String c <$> quitar_guiones (Some c) s'
  end.

(** Reads a run of digits: the accumulated value, how many were read, and
    the rest of the text. *)
Fixpoint leer_digitos (acc : Z) (n : Z) (s : string) : Z * Z * string :=
  match s with
  | String c s' =>
      match digito c with
      | Some d => leer_digitos (10 * acc + d) (n + 1) s'
      | None => (acc, n, s)
      end
  | EmptyString => (acc, n, s)
  end.

Definition leer_signo (s : string) : bool * string :=
  match s with
  | String "-" s' => (true, s')
  | String "+" s' => (false, s')
  | _ => (false, s)
  end.

(** ASCII lower case, as the C parser compares [inf] and [nan]. *)
Definition lower_ascii (c : ascii) : ascii :=
  let n := ord c in
  if entre 65 90 n then ascii_of_N (Z.to_N (n + 32)) else c.

Fixpoint map_str (f : ascii -> ascii) (s : string) : string :=
  match s with
  | String c s' => String (f c) (map_str f s')
  | EmptyString => EmptyString
  end.

(** The exponent part, if any; what follows it must be the end. *)
Definition leer_exponente (s : string) : option Z :=
  match s with
  | EmptyString => Some 0
  | String c s' =>
      if bool_decide (c = "e"%char) || bool_decide (c = "E"%char) then
        let '(neg, s'') := leer_signo s' in
        let '(e, n, resto) := leer_digitos 0 0 s'' in
        if (0 <? n) && bool_decide (resto = EmptyString)
        then Some (if neg then - e else e)
        else None
      else None
  end.

Definition float_decimal (neg : bool) (s : string) : option pyfloat :=
  let '(i, ni, s1) := leer_digitos 0 0 s in
  let '(m, nf, s2) :=
    match s1 with
    | String "." s1' =>
        let '(m, nf, s2) := leer_digitos i 0 s1' in (m, nf, s2)
    | _ => (i, 0, s1)
    end in
  if 0 <? ni + nf then
    e ← leer_exponente s2;
    Some (Finito (if neg then - m else m) (e - nf))
  else None.

Definition float_sin_guiones (s : string) : option pyfloat :=
  let '(neg, s') := leer_signo s in
  let l := map_str lower_ascii s' in
  if bool_decide (l = "inf") || bool_decide (l = "infinity") then Some (Infinito neg)
  else if bool_decide (l = "nan") then Some NoNumero
  else float_decimal neg s'.

(** [float(s)]; [None] stands for [ValueError]. *)
Definition float (s : string) : option pyfloat :=
  quitar_guiones None (strip_con isspace_c s) ≫= float_sin_guiones.

(** [s.lower()] on the code points below 256. *)
Definition lower_char (c : ascii) : ascii :=
  let n := ord c in
  if entre 65 90 n || (entre 192 222 n && negb (n =? 215))
  then ascii_of_N (Z.to_N (n + 32)) else c.

Definition lower (s : string) : string := map_str lower_char s.

(** [s.replace(c, '')] for a one-character [c]. *)
Fixpoint quitar_char (x : ascii) (s : string) : string :=
  match s with
  | String c s' => if bool_decide (c = x) then quitar_char x s' else String c (quitar_char x s')
  | EmptyString => EmptyString
  end.

(** [aguja in s] *)
Fixpoint contiene (aguja s : string) : bool :=
  String.prefix aguja s ||
  match s with
  | String _ s' => contiene aguja s'
  | EmptyString => false
  end.

(** [s.endswith(sufijo)] *)
Definition endswith (sufijo s : string) : bool :=
  String.prefix (String.rev sufijo) (String.rev s).

(** Truth value of an optional text: [None] and [''] are false. *)
Definition verdadero (v : option string) : bool :=
  match v with
  | Some s => negb (bool_decide (s = EmptyString))
  | None => false
  end.

End Py.

(** ** Rows of [csv.DictReader] *)

Module Csv.

(** A row is a dict from column name to cell; a cell missing from a short
    record is [None] (the reader's [restval]). *)
Abbreviation fila := (gmap string (option string)).

(** What [open] and the reader give for a file, which is read as the loop
    goes: the records of the file, the header first, or the records that
    were yielded before a decoding error was raised (none when the first
    block of the file cannot be decoded). *)
Inductive archivo : Type :=
  | Ilegible (leidos : list (list string))
  | Legible (registros : list (list string)).

(** [dict(zip(fieldnames, row))] *)
Fixpoint dict_zip (columnas celdas : list string) (d : fila) : fila :=
  match columnas, celdas with
  | k :: columnas', v :: celdas' => dict_zip columnas' celdas' (<[k := Some v]> d)
  | _, _ => d
  end.

(** One row of the reader: the columns left without a cell get [None].
    Extra cells go under the key [None], which no lookup by name reaches. *)
Definition fila_de (columnas celdas : list string) : fila :=
  foldl (fun d k => <[k := None]> d) (dict_zip columnas celdas ∅)
        (drop (length celdas) columnas).

(** [lector.fieldnames]: the first record, [None] for an empty file. *)
Definition fieldnames (registros : list (list string)) : option (list string) :=
  head registros.

(** The rows iterated by [for fila in lector]: blank records are skipped. *)
Definition filas (registros : list (list string)) : list fila :=
  match registros with
  | [] => []
  | columnas :: resto =>
      fila_de columnas <$> filter (fun r => r ≠ []) resto
  end.

(** [fila.get(k)] *)
Definition get (f : fila) (k : string) : option string := f !! k ≫= id.

(** [fila.get(k, '')]: the default only replaces a missing key. *)
Definition get_o (f : fila) (k : string) : option string :=
  match f !! k with
  | Some v => v
  | None => Some EmptyString
  end.

(** [fila.get(k, '').strip() if fila.get(k) else ''] *)
Definition get_strip (f : fila) (k : string) : string :=
  if Py.verdadero (get f k) then Py.strip (default EmptyString (get_o f k))
  else EmptyString.

End Csv.

(** ** The database *)

Module Bd.

(** A value of a [NUMERIC(10,2)] column, in hundredths. *)
Inductive numeric : Type :=
  | Num (centesimos : Z)
  | NaN.

Record fila_comercio : Type := {
  c_id_comercio : Z;
  c_id_bandera : Z;
  comercio_razon_social : option string;
  comercio_bandera_nombre : option string;
  comercio_bandera_url : option string
}.

Record fila_staging : Type := {
  id_comercio : Z;
  id_bandera : Z;
  id_producto : string;
  productos_precio_lista : numeric;
  productos_descripcion : string;
  productos_marca : option string
}.

(** A row of [productos]: the serial [id] and the six data columns. *)
Record fila_producto : Type := {
  id : Z;
  columnas : fila_staging
}.

Record tablas : Type := {
  comercios : list fila_comercio;
  productos : list fila_producto;
  productos_staging : list fila_staging;
  indices : list string
}.

(** What the server keeps between connections: the committed tables and the
    sequence behind [productos.id]. *)
Record base_datos : Type := {
  almacenado : tablas;
  secuencia : Z
}.

(** A psycopg2 connection.  The sequence is not transactional. *)
Record conexion : Type := {
  confirmado : tablas;
  actual : tablas;
  abortada : bool;
  productos_id_seq : Z
}.

Inductive excepcion : Type :=
  | ValueError
  | DatabaseError       (* psycopg2.Error *)
  | UnicodeDecodeError
  | BadZipFile
  | OSError.

Inductive res (A : Type) : Type :=
  | Ok (a : A)
  | Exc (e : excepcion).
Arguments Ok {A} a.
Arguments Exc {A} e.

(** Code that uses the connection and may raise. *)
Definition accion (A : Type) : Type := conexion -> res A * conexion.

Definition ret {A} (a : A) : accion A := fun c => (Ok a, c).

Definition raise {A} (e : excepcion) : accion A := fun c => (Exc e, c).

Definition bind {A B} (m : accion A) (k : A -> accion B) : accion B :=
  fun c =>
    match m c with
    | (Ok a, c') => k a c'
    | (Exc e, c') => (Exc e, c')
    end.

(** [try: m except Exception: h] *)
Definition try_except {A} (m : accion A) (h : excepcion -> accion A) : accion A :=
  fun c =>
    match m c with
    | (Ok a, c') => (Ok a, c')
    | (Exc e, c') => h e c'
    end.

Declare Scope accion_scope.
Delimit Scope accion_scope with accion.
Notation "x <- m ;; k" := (bind m (fun x => k))
  (at level 100, m at next level, right associativity) : accion_scope.
Notation "m ;;; k" := (bind m (fun _ => k))
  (at level 100, right associativity) : accion_scope.

(** A statement: from the tables and the sequence to the new tables, the
    new sequence and the row count, or an error. *)
Definition sentencia : Type := tablas -> Z -> res (tablas * Z * Z).

(** [cursor.execute]: a statement on an aborted transaction is refused; a
    failing statement aborts the transaction. *)
Definition execute (q : sentencia) : accion Z :=
  fun c =>
    if abortada c then (Exc DatabaseError, c)
    else
      match q (actual c) (productos_id_seq c) with
      | Ok (t, s, n) =>
          (Ok n, {| confirmado := confirmado c; actual := t;
                    abortada := false; productos_id_seq := s |})
      | Exc e =>
          (Exc e, {| confirmado := confirmado c; actual := actual c;
                     abortada := true; productos_id_seq := productos_id_seq c |})
      end.

(** [conn.commit()]: the server answers a commit of an aborted transaction
    with a rollback. *)
Definition commit : accion unit :=
  fun c =>
    let t := if abortada c then confirmado c else actual c in
    (Ok tt, {| confirmado := t; actual := t; abortada := false;
               productos_id_seq := productos_id_seq c |}).

(** [conn.rollback()] *)
Definition rollback : accion unit :=
  fun c =>
    (Ok tt, {| confirmado := confirmado c; actual := confirmado c;
               abortada := false; productos_id_seq := productos_id_seq c |}).

Definition connect (bd : base_datos) : conexion :=
  {| confirmado := almacenado bd; actual := almacenado bd;
     abortada := false; productos_id_seq := secuencia bd |}.

(** [conn.close()], or the end of the process: what was not committed is
    lost. *)
Definition close (c : conexion) : base_datos :=
  {| almacenado := confirmado c; secuencia := productos_id_seq c |}.

Definition en_int4 (n : Z) : bool := (- 2 ^ 31 <=? n) && (n <? 2 ^ 31).

(** *** Statements of the importer *)

(** [CREATE TABLE IF NOT EXISTS], [SET session_replication_role]: no table
    changes.  (The role of the connection may set the parameter; with the
    value [replica] the foreign key of [productos] is not enforced.) *)
Definition sin_efecto : sentencia := fun t s => Ok (t, s, -1).

(** [DROP TABLE IF EXISTS productos_staging CASCADE; CREATE TABLE productos_staging] *)
Definition recrear_staging : sentencia :=
  fun t s =>
    Ok ({| comercios := comercios t; productos := productos t;
           productos_staging := []; indices := indices t |}, s, -1).

(** [TRUNCATE TABLE productos CASCADE] *)
Definition truncate_productos : sentencia :=
  fun t s =>
    Ok ({| comercios := comercios t; productos := [];
           productos_staging := productos_staging t; indices := indices t |}, s, -1).

(** [TRUNCATE TABLE comercios CASCADE]: [productos] references [comercios]
    and is truncated with it. *)
Definition truncate_comercios : sentencia :=
  fun t s =>
    Ok ({| comercios := []; productos := [];
           productos_staging := productos_staging t; indices := indices t |}, s, -1).

(** [TRUNCATE TABLE productos_staging] *)
Definition truncate_staging : sentencia :=
  fun t s =>
    Ok ({| comercios := comercios t; productos := productos t;
           productos_staging := []; indices := indices t |}, s, -1).

Definition clave_comercio (r : fila_comercio) : Z * Z :=
  (c_id_comercio r, c_id_bandera r).

(** [ON CONFLICT (id_comercio, id_bandera) DO UPDATE SET] the three other
    columns: the row of that key takes the new values. *)
Fixpoint upsert (r : fila_comercio) (t : list fila_comercio) : list fila_comercio :=
  match t with
  | [] => [r]
  | x :: t' =>
      if bool_decide (clave_comercio x = clave_comercio r)
      then r :: t'
      else x :: upsert r t'
  end.

(** [INSERT INTO comercios ... ON CONFLICT ... DO UPDATE]; both ids are
    [INTEGER] columns. *)
Definition insert_comercio (r : fila_comercio) : sentencia :=
  fun t s =>
    if en_int4 (c_id_comercio r) && en_int4 (c_id_bandera r) then
      Ok ({| comercios := upsert r (comercios t); productos := productos t;
             productos_staging := productos_staging t; indices := indices t |}, s, 1)
    else Exc DatabaseError.

(** [COPY productos_staging ... FROM STDIN]: all the rows or none. *)
Definition copy_staging (filas : option (list fila_staging)) : sentencia :=
  fun t s =>
    match filas with
    | Some fs =>
        Ok ({| comercios := comercios t; productos := productos t;
               productos_staging := productos_staging t ++ fs;
               indices := indices t |}, s, Z.of_nat (length fs))
    | None => Exc DatabaseError
    end.

(** The key of [DISTINCT ON (id_comercio, id_bandera, id_producto)]. *)
Definition clave (r : fila_staging) : Z * Z * string :=
  (id_comercio r, id_bandera r, id_producto r).

(** The order of [NUMERIC]: [NaN] is above every number. *)
Definition orden_numeric (p : numeric) : bool * Z :=
  match p with
  | Num c => (false, c)
  | NaN => (true, 0)
  end.

Definition codigos (s : string) : list N :=
  N_of_ascii <$> list_ascii_of_string s.

(** [ORDER BY id_comercio, id_bandera, id_producto, productos_precio_lista] *)
Definition clave_orden (r : fila_staging) : (Z * Z * list N) * (bool * Z) :=
  ((id_comercio r, id_bandera r, codigos (id_producto r)),
   orden_numeric (productos_precio_lista r)).

(** [a] may come before [b] in the sorted rows. *)
Definition antes (a b : fila_staging) : Prop :=
  ¬ lexico (clave_orden b) (clave_orden a).

#[global] Instance antes_dec : RelDecision antes.
Proof.
  intros a b. unfold antes.
  destruct (trichotomyT lexico (clave_orden b) (clave_orden a)) as [[H|H]|H].
  - right. intros Hn. exact (Hn H).
  - left. rewrite H. apply irreflexivity, _.
  - left. intros Hn. exact (asymmetry H Hn).
Defined.

Definition order_by (l : list fila_staging) : list fila_staging :=
  merge_sort antes l.
(* Among rows that tie on the four columns the server leaves the order
   open; here it is the one [merge_sort] gives.  Text is compared by code
   point. *)

(** [DISTINCT ON] over sorted rows: a row is kept when its key differs from
    the key of the row before it. *)
Fixpoint distinct_on (previa : option (Z * Z * string)) (l : list fila_staging)
  : list fila_staging :=
  match l with
  | [] => []
  | r :: l' =>
      if bool_decide (previa = Some (clave r))
      then distinct_on previa l'
      else r :: distinct_on (Some (clave r)) l'
  end.

(** The ids given by the sequence to the inserted rows. *)
Fixpoint numerar (s : Z) (l : list fila_staging) : list fila_producto :=
  match l with
  | [] => []
  | r :: l' => {| id := s; columnas := r |} :: numerar (s + 1) l'
  end.

(** [INSERT INTO productos (...) SELECT DISTINCT ON (...) ... FROM
    productos_staging ORDER BY ...] *)
Definition insert_select_distinct : sentencia :=
  fun t s =>
    let nuevas := distinct_on None (order_by (productos_staging t)) in
    let n := Z.of_nat (length nuevas) in
    Ok ({| comercios := comercios t;
           productos := productos t ++ numerar s nuevas;
           productos_staging := productos_staging t;
           indices := indices t |}, s + n, n).

(** [CREATE INDEX IF NOT EXISTS nombre ON productos(...)] *)
Definition create_index (nombre : string) : sentencia :=
  fun t s =>
    Ok ({| comercios := comercios t; productos := productos t;
           productos_staging := productos_staging t;
           indices := if bool_decide (nombre ∈ indices t) then indices t
                      else indices t ++ [nombre] |}, s, -1).

End Bd.

(** ** [app/services/importador.py] *)

Module Importador.
Import Bd.
Local Open Scope accion_scope.

(** [config/settings.py] *)
Definition COMERCIOS_PERMITIDOS : list Z := [9; 12; 15; 10].

(** [n in COMERCIOS_PERMITIDOS] *)
Definition permitido (n : Z) : bool := bool_decide (n ∈ COMERCIOS_PERMITIDOS).

Definition crear_tablas : accion unit :=
  execute sin_efecto ;;;
  execute sin_efecto ;;;
  execute recrear_staging ;;;
  commit.

Definition mover_datos_staging_a_final : accion Z :=
  execute sin_efecto ;;;
  filas_insertadas <- execute insert_select_distinct ;;
  execute sin_efecto ;;;
  execute truncate_staging ;;;
  commit ;;;
  ret filas_insertadas.

Definition crear_indices_productos : accion unit :=
  execute (create_index "idx_codigo_barras") ;;;
  execute (create_index "idx_comercio_bandera") ;;;
  commit.

(** *** Merchant metadata *)

(** The body of the loop of [importar_comercios_desde_csv] up to the
    [INSERT]: the registry row of a metadata row, or [None] when the row is
    skipped, by a [continue] or by the [ValueError] of [int()]. *)
Definition registro_de_fila (f : Csv.fila) : option fila_comercio :=
  if negb (Py.verdadero (Csv.get f "id_comercio"))
     || bool_decide (Py.strip (default EmptyString (Csv.get f "id_comercio")) = EmptyString)
  then None
  else
    id_comercio ← Py.int (default EmptyString (Csv.get f "id_comercio"));
    if negb (permitido id_comercio) then None
    else
      id_bandera ←
        (if Py.verdadero (Csv.get f "id_bandera")
            && Py.verdadero (Py.strip <$> Csv.get f "id_bandera")
         then Py.int (default EmptyString (Csv.get f "id_bandera"))
         else None);
      Some {| c_id_comercio := id_comercio;
              c_id_bandera := id_bandera;
              comercio_razon_social := Csv.get_o f "comercio_razon_social";
              comercio_bandera_nombre := Csv.get_o f "comercio_bandera_nombre";
              comercio_bandera_url := Csv.get_o f "comercio_bandera_url" |}.

(** [for fila in lector: ...] with its counter. *)
Fixpoint bucle_comercios (filas : list Csv.fila) (contador : Z) : accion Z :=
  match filas with
  | [] => ret contador
  | f :: resto =>
      match registro_de_fila f with
      | None => bucle_comercios resto contador
      | Some r =>
          execute (insert_comercio r) ;;;
          bucle_comercios resto (contador + 1)
      end
  end.

Definition importar_comercios_desde_csv (ruta_csv : Csv.archivo) : accion Z :=
  try_except
    (match ruta_csv with
     | Csv.Ilegible leidos =>
         bucle_comercios (Csv.filas leidos) 0 ;;;
         raise UnicodeDecodeError
     | Csv.Legible registros =>
         contador <- bucle_comercios (Csv.filas registros) 0 ;;
         commit ;;;
         ret contador
     end)
    (fun _ => ret 0).
(* The handler neither rolls back nor commits: what was upserted before
   the error stays in the open transaction. *)

(** *** Product listings *)

(** A row written to the clean csv. *)
Record fila_limpia : Type := {
  l_id_comercio : Z;
  l_id_bandera : Z;
  l_id_producto : string;
  l_precio_lista : Py.pyfloat;
  l_descripcion : string;
  l_marca : string
}.

Inductive veredicto : Type :=
  | Rechazada (motivo : string)      (* key of [errores] that is incremented *)
  | Valida (r : fila_limpia).

(** The checks of the loop body of [preparar_csv_para_copy], in order. *)
Definition validar (id_comercio_key : string) (f : Csv.fila) : veredicto :=
  let id_producto := Csv.get_strip f "id_producto" in
  if bool_decide (id_producto = EmptyString) then Rechazada "sin_id_producto"
  else
    let id_comercio_valor := Csv.get_strip f id_comercio_key in
    if bool_decide (id_comercio_valor = EmptyString) then Rechazada "otros"
    else
      match Py.int id_comercio_valor with
      | None => Rechazada "otros"
      | Some id_comercio =>
          if negb (permitido id_comercio) then Rechazada "id_comercio_no_permitido"
          else
            let id_bandera_str := Csv.get_strip f "id_bandera" in
            if bool_decide (id_bandera_str = EmptyString) then Rechazada "sin_id_bandera"
            else
              match Py.int id_bandera_str with
              | None => Rechazada "sin_id_bandera"
              | Some id_bandera =>
                  let precio_str := Csv.get_strip f "productos_precio_lista" in
                  if bool_decide (precio_str = EmptyString) then Rechazada "sin_precio"
                  else
                    match Py.float precio_str with
                    | None => Rechazada "sin_precio"
                    | Some precio_lista =>
                        let descripcion := Csv.get_strip f "productos_descripcion" in
                        if bool_decide (descripcion = EmptyString)
                        then Rechazada "sin_descripcion"
                        else
                          let marca := Csv.get_strip f "productos_marca" in
                          Valida {| l_id_comercio := id_comercio;
                                    l_id_bandera := id_bandera;
                                    l_id_producto := id_producto;
                                    l_precio_lista := precio_lista;
                                    l_descripcion := descripcion;
                                    l_marca := marca |}
                    end
              end
      end.

(** The local variables of [preparar_csv_para_copy] and the rows written
    to the clean file. *)
Record preparado : Type := {
  total_filas : Z;
  filas_validas : Z;
  errores : gmap string Z;
  escrito : list fila_limpia
}.

Definition errores_iniciales : gmap string Z :=
  <["sin_id_producto" := 0]> (<["id_comercio_no_permitido" := 0]>
  (<["sin_id_bandera" := 0]> (<["sin_precio" := 0]>
  (<["sin_descripcion" := 0]> (<["otros" := 0]> ∅))))).

Definition preparado_inicial : preparado :=
  {| total_filas := 0; filas_validas := 0;
     errores := errores_iniciales; escrito := [] |}.

(** [errores[k] += 1] *)
Definition incrementar (k : string) (e : gmap string Z) : gmap string Z :=
  <[k := default 0 (e !! k) + 1]> e.

(** [sum(errores.values())] *)
Definition sum_values (e : gmap string Z) : Z :=
  map_fold (fun _ v acc => v + acc) 0 e.

(** One turn of [for fila in lector]. *)
Definition paso_preparar (id_comercio_key : string) (p : preparado) (f : Csv.fila)
  : preparado :=
  match validar id_comercio_key f with
  | Rechazada motivo =>
      {| total_filas := total_filas p + 1;
         filas_validas := filas_validas p;
         errores := incrementar motivo (errores p);
         escrito := escrito p |}
  | Valida r =>
      {| total_filas := total_filas p + 1;
         filas_validas := filas_validas p + 1;
         errores := errores p;
         escrito := escrito p ++ [r] |}
  end.

(** The first column whose name, in lower case and without spaces,
    contains [id_comercio].  (The byte order mark also removed there is
    outside the characters of the embedding.) *)
Definition buscar_id_comercio_key (columnas : list string) : option string :=
  List.find
    (fun col => Py.contiene "id_comercio" (Py.quitar_char " "%char (Py.lower col)))
    columnas.

Definition preparar_csv_para_copy (ruta_csv_original : Csv.archivo) : res preparado :=
  match ruta_csv_original with
  | Csv.Ilegible _ => Exc UnicodeDecodeError
  | Csv.Legible registros =>
      match Csv.fieldnames registros with
      | None | Some [] => Ok preparado_inicial
      | Some columnas =>
          match buscar_id_comercio_key columnas with
          | None => Ok preparado_inicial
          | Some id_comercio_key =>
              Ok (foldl (paso_preparar id_comercio_key) preparado_inicial
                        (Csv.filas registros))
          end
      end
  end.

(** A price read back by [COPY] into [NUMERIC(10,2)]: the value in
    hundredths, rounded half away from zero. *)
Definition redondear_centesimos (m e : Z) : Z :=
  let k := e + 2 in
  if 0 <=? k then m * 10 ^ k
  else
    let d := 10 ^ (- k) in
    let q := Z.abs m / d in
    let r := Z.abs m mod d in
    Z.sgn m * (if d <=? 2 * r then q + 1 else q).

Definition a_numeric (p : Py.pyfloat) : option numeric :=
  match p with
  | Py.Finito m e =>
      let c := redondear_centesimos m e in
      if Z.abs c <? 10 ^ 10 then Some (Num c) else None
  | Py.Infinito _ => None
  | Py.NoNumero => Some NaN
  end.

(** One line of the clean file as [COPY] reads it into the columns of
    [productos_staging]; an unquoted empty field is [NULL]. *)
Definition a_staging (r : fila_limpia) : option fila_staging :=
  if en_int4 (l_id_comercio r) && en_int4 (l_id_bandera r) then
    precio ← a_numeric (l_precio_lista r);
    Some {| id_comercio := l_id_comercio r;
            id_bandera := l_id_bandera r;
            id_producto := l_id_producto r;
            productos_precio_lista := precio;
            productos_descripcion := l_descripcion r;
            productos_marca :=
              if bool_decide (l_marca r = EmptyString) then None else Some (l_marca r) |}
  else None.

Definition importar_productos_desde_csv (ruta_csv : Csv.archivo) : accion (Z * Z) :=
  try_except
    (match preparar_csv_para_copy ruta_csv with
     | Exc e => raise e
     | Ok p =>
         if filas_validas p =? 0 then ret (0, sum_values (errores p))
         else
           execute (copy_staging (mapM a_staging (escrito p))) ;;;
           commit ;;;
           ret (filas_validas p, sum_values (errores p))
     end)
    (fun _ => rollback ;;; ret (0, 0)).

End Importador.

(** ** The archive and the five phases *)

Module Sepa.
Import Bd Importador.
Local Open Scope accion_scope.

(** What is found in a merchant archive once extracted: the first
    [comercio.csv] and the first [productos.csv] of the tree, if any. *)
Record contenido_zip : Type := {
  comercio_csv : option Csv.archivo;
  productos_csv : option Csv.archivo
}.

#[local] Set Warnings "-register-all".

(** An entry of the extracted outer archive.  A file has the contents it
    yields when opened as a zip, [None] when that raises. *)
Inductive nodo : Type :=
  | Fichero (nombre : string) (zip : option contenido_zip)
  | Carpeta (nombre : string) (hijos : list nodo).

Definition nombre_de (n : nodo) : string :=
  match n with
  | Fichero nombre _ => nombre
  | Carpeta nombre _ => nombre
  end.

(** [zipfile.ZipFile(item).extractall(...)]: a directory cannot be opened. *)
Definition zip_de (n : nodo) : option contenido_zip :=
  match n with
  | Fichero _ z => z
  | Carpeta _ _ => None
  end.

(** [re.compile(r'^\d{4}-\d{2}-\d{2}$').match(item)]; [$] also matches
    before a final newline. *)
Definition fecha_pattern_match (item : string) : bool :=
  match item with
  | String a (String b (String c (String d (String "-" (String e (String f
      (String "-" (String g (String h resto))))))))) =>
      forallb Py.es_digito [a; b; c; d; e; f; g; h]
      && (bool_decide (resto = EmptyString)
          || bool_decide (resto = String (ascii_of_N 10) EmptyString))
  | _ => false
  end.

(** The outer archive as the run finds it: [None] when it cannot be
    extracted, else the entries of the extraction root. *)
Definition zip_externo : Type := option (list nodo).

(** The listing of the dated folder, or of the root when there is none;
    [None] when extraction raised. *)
Definition descomprimir_zip_principal (ruta_zip : zip_externo) : option (list nodo) :=
  raiz ← ruta_zip;
  Some (match List.find
                (fun item =>
                   match item with
                   | Carpeta nombre _ => fecha_pattern_match nombre
                   | Fichero _ _ => false
                   end) raiz with
        | Some (Carpeta _ hijos) => hijos
        | _ => raiz
        end).

Fixpoint quitar_prefijo (p s : string) : option string :=
  match p, s with
  | EmptyString, _ => Some s
  | String a p', String b s' =>
      if bool_decide (a = b) then quitar_prefijo p' s' else None
  | String _ _, EmptyString => None
  end.

(** [int(re.compile(r'comercio-sepa-(\d+)').search(item).group(1))]: the
    number after the leftmost occurrence that is followed by a digit. *)
Fixpoint patron_comercio_search (item : string) : option Z :=
  let aqui :=
    resto ← quitar_prefijo "comercio-sepa-" item;
    let '(v, n, _) := Py.leer_digitos 0 0 resto in
    if 0 <? n then Some v else None in
  match aqui with
  | Some v => Some v
  | None =>
      match item with
      | String _ item' => patron_comercio_search item'
      | EmptyString => None
      end
  end.

(** The test that puts an entry of the folder in [zips_comercios]. *)
Definition es_zip_permitido (item : nodo) : bool :=
  Py.endswith ".zip" (nombre_de item)
  && match patron_comercio_search (nombre_de item) with
     | Some id_comercio_archivo => permitido id_comercio_archivo
     | None => false
     end.

Definition zips_comercios (carpeta_fecha : list nodo) : list nodo :=
  List.filter es_zip_permitido carpeta_fecha.

Definition zips_omitidos (carpeta_fecha : list nodo) : Z :=
  Z.of_nat (length (List.filter
    (fun item => Py.endswith ".zip" (nombre_de item) && negb (es_zip_permitido item))
    carpeta_fecha)).

(** Phase 1 after [crear_tablas]: the three [TRUNCATE]s and the commit. *)
Definition limpiar_tablas : accion unit :=
  execute truncate_productos ;;;
  execute truncate_comercios ;;;
  execute truncate_staging ;;;
  commit.

(** Phase 2, one archive: an archive that cannot be read or has no
    [comercio.csv] is reported and skipped. *)
Definition fase2_zip (zip_comercio : nodo) : accion unit :=
  match zip_de zip_comercio with
  | None => ret tt
  | Some extraido =>
      match comercio_csv extraido with
      | Some ruta_comercio_csv =>
          importar_comercios_desde_csv ruta_comercio_csv ;;; ret tt
      | None => ret tt
      end
  end.

Fixpoint fase2 (zips : list nodo) : accion unit :=
  match zips with
  | [] => ret tt
  | z :: resto => fase2_zip z ;;; fase2 resto
  end.

Record totales : Type := {
  total_productos : Z;
  total_errores : Z;
  total_comercios : Z
}.

(** Phase 3, one archive. *)
Definition fase3_zip (zip_comercio : nodo) (t : totales) : accion totales :=
  match zip_de zip_comercio with
  | None => ret t
  | Some extraido =>
      match productos_csv extraido with
      | Some ruta_productos_csv =>
          r <- importar_productos_desde_csv ruta_productos_csv ;;
          ret {| total_productos := total_productos t + r.1;
                 total_errores := total_errores t + r.2;
                 total_comercios := total_comercios t + 1 |}
      | None => ret t
      end
  end.

Fixpoint fase3 (zips : list nodo) (t : totales) : accion totales :=
  match zips with
  | [] => ret t
  | z :: resto => t' <- fase3_zip z t ;; fase3 resto t'
  end.

(** The two [SELECT COUNT] queries, on [productos] and on [comercios]. *)
Definition contar : accion (Z * Z) :=
  fun c =>
    if abortada c then (Exc DatabaseError, c)
    else (Ok (Z.of_nat (length (productos (actual c))),
              Z.of_nat (length (comercios (actual c)))), c).

(** The lines of the closing summary. *)
Record resumen : Type := {
  zips_procesados : Z;
  comercios_unicos : Z;
  productos_totales : Z;
  errores_totales : Z
}.

(** What [procesar_zip_sepa] prints, as far as the phases go. *)
Inductive mensaje : Type :=
  | FASE_1 | FASE_2 | FASE_3 | FASE_4 | FASE_5
  | Error_no_se_encontro_el_archivo
  | Error_no_se_pudo_descomprimir
  | Importacion_completada (r : resumen).

(** Phases 2 and 3: from the truncated tables to the staged listings. *)
Definition fases_2_3 (zips : list nodo) : accion totales :=
  fase2 zips ;;;
  commit ;;;
  fase3 zips {| total_productos := 0; total_errores := 0; total_comercios := 0 |}.

(** The folder [descomprimir_zip_principal] looks for in the extraction
    root. *)
Definition es_carpeta_fecha (item : nodo) : bool :=
  match item with
  | Carpeta nombre _ => fecha_pattern_match nombre
  | Fichero _ _ => false
  end.

(** Whether [descomprimir_zip_principal] found a dated folder; when it
    did not, the path it returned is the extraction root itself. *)
Definition hay_carpeta_fecha (ruta_zip : zip_externo) : bool :=
  match ruta_zip with
  | Some raiz => existsb es_carpeta_fecha raiz
  | None => false
  end.

(** [shutil.rmtree(temp_extract_dir)] and
    [shutil.rmtree(os.path.dirname(carpeta_fecha))].  The parent of the
    dated folder is the extraction root and is removed.  Without a dated
    folder the parent of [carpeta_fecha] is the directory the system keeps
    temporary files in, which the process cannot remove: the call raises,
    after phase 5 has committed. *)
Definition borrar_temporales (ruta_zip : zip_externo) : accion unit :=
  if hay_carpeta_fecha ruta_zip then ret tt else raise OSError.

(** Phases 4 and 5, the removal of the scratch directories and the final
    counts. *)
Definition fases_4_5 (ruta_zip : zip_externo) (t : totales)
  : accion (list mensaje) :=
  mover_datos_staging_a_final ;;;
  crear_indices_productos ;;;
  borrar_temporales ruta_zip ;;;
  n <- contar ;;
  ret [FASE_1; FASE_2; FASE_3; FASE_4; FASE_5;
       Importacion_completada
         {| zips_procesados := total_comercios t;
            comercios_unicos := n.2;
            productos_totales := n.1;
            errores_totales := total_errores t |}].

(** Phase 1: the tables exist and are empty. *)
Definition fase1 : accion unit :=
  crear_tablas ;;;
  limpiar_tablas.

(** [procesar_zip_sepa] from the connection on. *)
Definition importar (ruta_zip : zip_externo) : accion (list mensaje) :=
  fase1 ;;;
  match descomprimir_zip_principal ruta_zip with
  | None => ret [FASE_1; Error_no_se_pudo_descomprimir]
  | Some carpeta_fecha =>
      t <- fases_2_3 (zips_comercios carpeta_fecha) ;;
      fases_4_5 ruta_zip t
  end.

(** What the run sees outside the archive. *)
Record entorno : Type := {
  servidor_disponible : bool;               (* [psycopg2.connect] succeeds *)
  ruta_zip_principal : option zip_externo;  (* [None]: no file at that path *)
  ruta_alternativa : option zip_externo     (* the same name in the working directory *)
}.

(** How a call ends: it returns, having printed those messages, or it
    raises; in both cases the server keeps what was committed.  The run
    raises when the connection cannot be opened and when the scratch
    directories cannot be removed.  (The statements of the five phases are
    taken to be accepted by the server: the role of the connection may
    create, truncate and index the tables and set
    [session_replication_role].)  What a call printed before it raised is
    not kept. *)
Inductive corrida : Type :=
  | Retorna (impreso : list mensaje) (bd : base_datos)
  | Lanza (e : excepcion) (bd : base_datos).

Definition bd_de (r : corrida) : base_datos :=
  match r with
  | Retorna _ bd => bd
  | Lanza _ bd => bd
  end.

Definition procesar_zip_sepa (e : entorno) (bd : base_datos) : corrida :=
  match (match ruta_zip_principal e with
         | Some z => Some z
         | None => ruta_alternativa e
         end) with
  | None => Retorna [Error_no_se_encontro_el_archivo] bd
  | Some ruta_zip =>
      if servidor_disponible e then
        match importar ruta_zip (connect bd) with
        | (Ok impreso, c) => Retorna impreso (close c)
        | (Exc ex, c) => Lanza ex (close c)
        end
      else Lanza DatabaseError bd
  end.

End Sepa.

(** ** [scripts/descargar_e_importar.py] *)

Module Script.
Import Bd Sepa.

(** The lines of the log that tell how the process went. *)
Inductive linea : Type :=
  | ERROR_la_descarga_fallo
  | ERROR_el_archivo_descargado_no_existe
  | OK_importacion_completada_exitosamente
  | ERROR_en_la_importacion
  | PROCESO_COMPLETADO_EXITOSAMENTE.

Record proceso : Type := {
  exit_status : Z;
  log : list linea;
  impreso_importador : list mensaje;   (* of a call that returned *)
  bd_final : base_datos
}.

(** [main()]: [descargar_archivo_sepa()] returned [descarga], the file it
    leaves is [ruta_zip_principal e]. *)
Definition main (descarga : bool) (e : entorno) (bd : base_datos) : proceso :=
  if negb descarga then
    {| exit_status := 1; log := [ERROR_la_descarga_fallo];
       impreso_importador := []; bd_final := bd |}
  else
    match ruta_zip_principal e with
    | None =>
        {| exit_status := 1; log := [ERROR_el_archivo_descargado_no_existe];
           impreso_importador := []; bd_final := bd |}
    | Some _ =>
        match procesar_zip_sepa e bd with
        | Retorna impreso bd' =>
            {| exit_status := 0;
               log := [OK_importacion_completada_exitosamente;
                       PROCESO_COMPLETADO_EXITOSAMENTE];
               impreso_importador := impreso; bd_final := bd' |}
        | Lanza _ bd' =>
            {| exit_status := 1; log := [ERROR_en_la_importacion];
               impreso_importador := []; bd_final := bd' |}
        end
    end.

End Script.

(** ** The specification's wording of the row contracts *)

Module Spec.
Import Bd Importador.

(** The text of a column, trimmed; a missing cell reads as empty. *)
Definition texto (f : Csv.fila) (col : string) : string :=
  Py.strip (default EmptyString (Csv.get f col)).

Definition en_blanco (f : Csv.fila) (col : string) : bool :=
  bool_decide (texto f col = EmptyString).

(** The six checks on a listing row, in the order of the specification,
    each with the counter of its rejection reason: [missing_product_code],
    [other], [merchant_not_allowed], [sin_id_bandera],
    [missing_or_invalid_price], [missing_description]. *)
Definition comprobaciones (key : string) : list ((Csv.fila -> bool) * string) :=
  [ (fun f => en_blanco f "id_producto", "sin_id_producto");
    (fun f => en_blanco f key || bool_decide (Py.int (texto f key) = None), "otros");
    (fun f => match Py.int (texto f key) with
              | Some n => negb (permitido n)
              | None => false
              end, "id_comercio_no_permitido");
    (fun f => en_blanco f "id_bandera"
              || bool_decide (Py.int (texto f "id_bandera") = None), "sin_id_bandera");
    (fun f => en_blanco f "productos_precio_lista"
              || bool_decide (Py.float (texto f "productos_precio_lista") = None),
     "sin_precio");
    (fun f => en_blanco f "productos_descripcion", "sin_descripcion") ].

(** First failing check wins. *)
Definition primera_falla (key : string) (f : Csv.fila) : option string :=
  snd <$> List.find (fun c => fst c f) (comprobaciones key).

(** The normalized row of a raw row. *)
Definition normalizada (key : string) (f : Csv.fila) (r : fila_limpia) : Prop :=
  Py.int (texto f key) = Some (l_id_comercio r)
  /\ Py.int (texto f "id_bandera") = Some (l_id_bandera r)
  /\ l_id_producto r = texto f "id_producto"
  /\ Py.float (texto f "productos_precio_lista") = Some (l_precio_lista r)
  /\ l_descripcion r = texto f "productos_descripcion"
  /\ l_marca r = texto f "productos_marca".

(** The five checks other than the one on the price pass. *)
Definition pasan_las_otras (key : string) (f : Csv.fila) : bool :=
  forallb (fun c => bool_decide (snd c = "sin_precio") || negb (fst c f))
          (comprobaciones key).

(** [precio_lista >= 0] *)
Definition no_negativo (p : Py.pyfloat) : bool :=
  match p with
  | Py.Finito m _ => 0 <=? m
  | Py.Infinito negativo => negb negativo
  | Py.NoNumero => false
  end.

(** A metadata row that the contract rejects. *)
Definition comercio_rechazado (f : Csv.fila) : Prop :=
  en_blanco f "id_bandera" = true
  \/ Py.int (default EmptyString (Csv.get f "id_bandera")) = None
  \/ en_blanco f "id_comercio" = true
  \/ Py.int (default EmptyString (Csv.get f "id_comercio")) = None
  \/ (exists n, Py.int (default EmptyString (Csv.get f "id_comercio")) = Some n
                /\ n ∉ COMERCIOS_PERMITIDOS).

End Spec.

(** ** Invariants and views used by the proofs *)

Module Inv.
Import Bd Importador.

(** Every row read is counted once, as valid or under one reason. *)
Definition cuenta_exacta (p : preparado) : Prop :=
  total_filas p = filas_validas p + sum_values (errores p)
  /\ filas_validas p = Z.of_nat (length (escrito p)).

(** [PRIMARY KEY (id_comercio, id_bandera)] *)
Definition clave_primaria (t : list fila_comercio) : Prop :=
  NoDup (clave_comercio <$> t).

(** Both ids fit their [INTEGER] columns. *)
Definition en_rango (r : fila_comercio) : bool :=
  en_int4 (c_id_comercio r) && en_int4 (c_id_bandera r).

(** The registry rows of the metadata rows that are not skipped. *)
Definition registros_de (filas : list Csv.fila) : list fila_comercio :=
  omap registro_de_fila filas.

Definition registros_de_archivo (ruta_csv : Csv.archivo) : list fila_comercio :=
  match ruta_csv with
  | Csv.Ilegible leidos => registros_de (Csv.filas leidos)
  | Csv.Legible registros => registros_de (Csv.filas registros)
  end.

(** The last row written for a key. *)
Definition ultimo_registro (k : Z * Z) (rs : list fila_comercio) : option fila_comercio :=
  last (filter (fun x => clave_comercio x = k) rs).

(** The rows of the registry under a key. *)
Definition filas_de_clave (k : Z * Z) (t : list fila_comercio) : list fila_comercio :=
  filter (fun x => clave_comercio x = k) t.

(** The open transaction with another registry. *)
Definition con_comercios (c : conexion) (t : list fila_comercio) : conexion :=
  {| confirmado := confirmado c;
     actual := {| comercios := t; productos := productos (actual c);
                  productos_staging := productos_staging (actual c);
                  indices := indices (actual c) |};
     abortada := false;
     productos_id_seq := productos_id_seq c |}.

(** Nothing is pending on the connection. *)
Definition limpia (c : conexion) : Prop :=
  abortada c = false /\ actual c = confirmado c.

(** The connection once a load into staging is committed: both copies of
    the tables hold the staged rows [st]. *)
Definition con_staging (c : conexion) (st : list fila_staging) : conexion :=
  let t := {| comercios := comercios (actual c); productos := productos (actual c);
              productos_staging := st; indices := indices (actual c) |} in
  {| confirmado := t; actual := t; abortada := false;
     productos_id_seq := productos_id_seq c |}.

(** What a table set holds besides the registry. *)
Definition sin_comercios (t : tablas)
  : list fila_producto * list fila_staging * list string :=
  (productos t, productos_staging t, indices t).

(** Phase 2 only writes the registry. *)
Definition marco (x : list fila_producto * list fila_staging * list string)
  (s : Z) (c : conexion) : Prop :=
  sin_comercios (actual c) = x /\ sin_comercios (confirmado c) = x
  /\ productos_id_seq c = s.

(** The rows that the listing file of an archive adds to staging: those of
    its clean file when the bulk load goes through, none otherwise. *)
Definition filas_cargadas (ruta_csv : Csv.archivo) : list fila_staging :=
  match preparar_csv_para_copy ruta_csv with
  | Ok p => default [] (mapM a_staging (escrito p))
  | Exc _ => []
  end.

(** The order of [NUMERIC] values: [NaN] is the greatest. *)
Definition numeric_le (a b : numeric) : Prop :=
  match a, b with
  | Num x, Num y => x <= y
  | _, NaN => True
  | NaN, Num _ => False
  end.

(** [p] is the minimum of the prices [l]. *)
Definition es_minimo (p : numeric) (l : list numeric) : Prop :=
  p ∈ l /\ forall q, q ∈ l -> numeric_le p q.

(** The staged rows of a key, and the final rows of a key. *)
Definition staging_de_clave (k : Z * Z * string) (l : list fila_staging)
  : list fila_staging :=
  filter (fun r => clave r = k) l.

Definition productos_de_clave (k : Z * Z * string) (l : list fila_producto)
  : list fila_producto :=
  filter (fun p => clave (columnas p) = k) l.

(** The connection after compaction of the staged rows of [c]. *)
Definition compactada (c : conexion) : conexion :=
  let nuevas := distinct_on None (order_by (productos_staging (actual c))) in
  let t := {| comercios := comercios (actual c);
              productos := productos (actual c) ++ numerar (productos_id_seq c) nuevas;
              productos_staging := [];
              indices := indices (actual c) |} in
  {| confirmado := t; actual := t; abortada := false;
     productos_id_seq := productos_id_seq c + Z.of_nat (length nuevas) |}.

(** The part of the sort key that [DISTINCT ON] compares. *)
Definition orden_clave (k : Z * Z * string) : Z * Z * list N :=
  (k.1.1, k.1.2, codigos k.2).

(** No key of [l] sorts before [k]. *)
Definition desde_clave (k : Z * Z * string) (l : list fila_staging) : Prop :=
  Forall (fun r => ¬ lexico (orden_clave (clave r)) (orden_clave k)) l.

End Inv.

Module InvSepa.
Import Bd Importador Sepa Inv.

(** The rows an archive adds to staging in phase 3. *)
Definition filas_de_zip (z : nodo) : list fila_staging :=
  match zip_de z with
  | Some extraido =>
      match productos_csv extraido with
      | Some ruta_productos_csv => filas_cargadas ruta_productos_csv
      | None => []
      end
  | None => []
  end.

Definition carga_de (zips : list nodo) : list fila_staging :=
  concat (filas_de_zip <$> zips).

(** The connection when phase 1 ends. *)
Definition tras_fase1 (bd : base_datos) : conexion :=
  let t := {| comercios := []; productos := []; productos_staging := [];
              indices := indices (almacenado bd) |} in
  {| confirmado := t; actual := t; abortada := false;
     productos_id_seq := secuencia bd |}.

End InvSepa.

(** ** Sample data *)

Module Ejemplos.
Import Bd Importador Sepa Inv InvSepa.

Definition columnas_productos : list string :=
  ["id_comercio"; "id_bandera"; "id_producto"; "productos_precio_lista";
   "productos_descripcion"; "productos_marca"].

(** A listing row with a negative price. *)
Definition fila_precio_negativo : Csv.fila :=
  Csv.fila_de columnas_productos ["9"; "1"; "7790001"; "-5"; "Pan"; "La Espiga"].

(** A listing file: two prices for one product, a negative price, and a
    row for each rejection reason. *)
Definition csv_productos : Csv.archivo :=
  Csv.Legible
    [ columnas_productos;
      ["9"; "1"; "123"; "100.00"; "Leche"; "La Vaca"];
      ["9"; "1"; "123"; "90.50"; "Leche entera"; ""];
      [];
      ["9"; "1"; "7790001"; "-5"; "Pan"; "La Espiga"];
      ["9"; "1"; ""; "10"; "Sin codigo"; ""];
      ["x"; "1"; "124"; "10"; "Sin comercio"; ""];
      ["11"; "1"; "125"; "10"; "Otro comercio"; ""];
      ["9"; ""; "126"; "10"; "Sin bandera"; ""];
      ["9"; "1"; "127"; "diez"; "Sin precio"; ""];
      ["9"; "1"; "128"; "10"; "  "; ""];
      ["9"; "1"] ].

Definition preparado_ejemplo : preparado :=
  match preparar_csv_para_copy csv_productos with
  | Ok p => p
  | Exc _ => preparado_inicial
  end.

Definition columnas_comercio : list string :=
  ["id_comercio"; "id_bandera"; "comercio_razon_social";
   "comercio_bandera_nombre"; "comercio_bandera_url"].

(** A metadata row without variant id. *)
Definition fila_sin_bandera : Csv.fila :=
  Csv.fila_de columnas_comercio ["9"; " "; "Vea SA"; "Vea"; "http://vea"].

(** The same merchant twice, the second time with another url. *)
Definition csv_comercio : Csv.archivo :=
  Csv.Legible
    [ columnas_comercio;
      ["9"; "1"; "Vea SA"; "Vea"; "http://vea.example/a"];
      ["12"; "1"; "Otro SA"; "Otro"; ""];
      ["9"; "1"; "Vea SA"; "Vea"; "http://vea.example/b"];
      ["9"; ""; "Vea SA"; "Vea"; "http://vea.example/c"];
      ["11"; "1"; "Ajeno SA"; "Ajeno"; ""] ].

(** A connection on a registry that already has merchant 9, variant 1. *)
Definition conexion_con_vea : conexion :=
  connect
    {| almacenado :=
         {| comercios :=
              [{| c_id_comercio := 9; c_id_bandera := 1;
                  comercio_razon_social := Some "Vea SA";
                  comercio_bandera_nombre := Some "Vea";
                  comercio_bandera_url := Some "http://vea.example/vieja" |}];
            productos := []; productos_staging := []; indices := [] |};
       secuencia := 1 |}.

Definition conexion_tras_comercios : conexion :=
  snd (importar_comercios_desde_csv csv_comercio conexion_con_vea).

(** A listing file whose second row has a variant id beyond [INTEGER]. *)
Definition productos_desbordado : Csv.archivo :=
  Csv.Legible
    [ columnas_productos;
      ["9"; "1"; "123"; "100.00"; "Leche"; "La Vaca"];
      ["9"; "3000000000"; "124"; "50"; "Pan"; ""] ].

Definition preparado_desbordado : preparado :=
  match preparar_csv_para_copy productos_desbordado with
  | Ok p => p
  | Exc _ => preparado_inicial
  end.

Definition tablas_vacias : tablas :=
  {| comercios := []; productos := []; productos_staging := []; indices := [] |}.

Definition bd_vacia : base_datos :=
  {| almacenado := tablas_vacias; secuencia := 1 |}.

(** An outer archive: a dated folder with the archive of an allowed
    merchant, the archive of another merchant, a broken archive and a file
    that is not an archive. *)
Definition zip_vea : nodo :=
  Fichero "sepa_1_comercio-sepa-9_2024-01-04_09-05-03.zip"
    (Some {| comercio_csv := Some csv_comercio; productos_csv := Some csv_productos |}).

Definition zip_ajeno : nodo :=
  Fichero "sepa_1_comercio-sepa-11_2024-01-04_09-05-03.zip"
    (Some {| comercio_csv := Some csv_comercio; productos_csv := Some csv_productos |}).

Definition zip_roto : nodo :=
  Fichero "sepa_2_comercio-sepa-12_2024-01-04_09-05-03.zip" None.

Definition carpeta_fecha : list nodo :=
  [zip_vea; zip_ajeno; zip_roto; Fichero "leeme.txt" None].

Definition entorno_ejemplo : entorno :=
  {| servidor_disponible := true;
     ruta_zip_principal := Some (Some [Carpeta "2024-01-04" carpeta_fecha]);
     ruta_alternativa := None |}.

(** The run on that archive when compaction starts. *)
Definition antes_de_compactar : res totales * conexion :=
  bind fase1 (fun _ => fases_2_3 (zips_comercios carpeta_fecha)) (connect bd_vacia).

Definition totales_ejemplo : totales :=
  {| total_productos := 3; total_errores := 7; total_comercios := 1 |}.

End Ejemplos.

(** ** More views of the importer *)

Module InvExtra.
Import Bd Importador Sepa Inv InvSepa.

(** Every row of the registry is of an allowed merchant. *)
Definition registro_permitido (t : list fila_comercio) : Prop :=
  Forall (fun r => permitido (c_id_comercio r) = true) t.

(** The registry satisfies its key and holds allowed merchants only, in
    the open transaction and in what is committed. *)
Definition registro_sano (c : conexion) : Prop :=
  clave_primaria (comercios (actual c))
  /\ registro_permitido (comercios (actual c))
  /\ clave_primaria (comercios (confirmado c))
  /\ registro_permitido (comercios (confirmado c)).

(** The serial ids of the final table are distinct and below the next
    value of the sequence. *)
Definition ids_frescos (l : list fila_producto) (s : Z) : Prop :=
  NoDup (id <$> l) /\ Forall (fun p => id p < s) l.

(** The entries of a folder that are tested against the archive pattern. *)
Definition terminan_en_zip (carpeta_fecha : list nodo) : list nodo :=
  List.filter (fun item => Py.endswith ".zip" (nombre_de item)) carpeta_fecha.

(** An action keeps a property of the connection, however it ends. *)
Definition conserva {A} (I : conexion -> Prop) (m : accion A) : Prop :=
  forall c r c', I c -> m c = (r, c') -> I c'.

(** A registry that satisfies its key and holds allowed merchants only. *)
Definition registro_valido (t : list fila_comercio) : Prop :=
  clave_primaria t /\ registro_permitido t.

(** A text that is not empty and that [strip] leaves as it is: it has no
    blank at either end. *)
Definition recortado (s : string) : Prop :=
  s ≠ EmptyString /\ Py.strip s = s.

(** A listing row as the validator lets it through: product code and
    description are trimmed and not empty, and so is the brand when the
    row has one. *)
Definition fila_recortada (s : fila_staging) : Prop :=
  recortado (id_producto s)
  /\ recortado (productos_descripcion s)
  /\ forall m, productos_marca s = Some m -> recortado m.

End InvExtra.

(** ** More sample data *)

Module EjemplosExtra.
Import Bd Importador Sepa Inv InvSepa.

(** A listing file whose header has no merchant-id column. *)
Definition listado_sin_comercio : list (list string) :=
  [ ["comercio"; "id_bandera"; "id_producto"; "productos_precio_lista";
     "productos_descripcion"; "productos_marca"];
    ["9"; "1"; "123"; "100.00"; "Leche"; "La Vaca"] ].

(** A metadata file whose merchant-id column is written in capitals. *)
Definition cabecera_mayusculas : list string :=
  ["ID_COMERCIO"; "id_bandera"; "comercio_razon_social";
   "comercio_bandera_nombre"; "comercio_bandera_url"].

Definition metadatos_mayusculas : list (list string) :=
  [ ["9"; "1"; "Vea SA"; "Vea"; "http://vea.example/a"] ].


(** A metadata file that stops decoding after its second row. *)
Definition csv_comercio_truncado : Csv.archivo :=
  Csv.Ilegible
    [ Ejemplos.columnas_comercio;
      ["9"; "1"; "Vea SA"; "Vea"; "http://vea.example/a"];
      ["12"; "1"; "Otro SA"; "Otro"; ""] ].

(** A database that holds rows of an earlier import: a merchant, a
    listed product and a staged row that the sample archive does not
    have. *)
Definition bd_con_restos : base_datos :=
  {| almacenado :=
       {| comercios :=
            [{| c_id_comercio := 15; c_id_bandera := 3;
                comercio_razon_social := Some "Viejo SA";
                comercio_bandera_nombre := Some "Viejo";
                comercio_bandera_url := None |}];
          productos :=
            [{| id := 7;
                columnas := {| id_comercio := 15; id_bandera := 3;
                               id_producto := "999";
                               productos_precio_lista := Num 100;
                               productos_descripcion := "Resto";
                               productos_marca := None |} |}];
          productos_staging :=
            [{| id_comercio := 15; id_bandera := 3; id_producto := "998";
                productos_precio_lista := Num 200;
                productos_descripcion := "Resto en staging";
                productos_marca := None |}];
          indices := ["idx_codigo_barras"] |};
     secuencia := 8 |}.

(** The tables after the sample run. *)
Definition tablas_importadas : tablas :=
  almacenado (bd_de (procesar_zip_sepa Ejemplos.entorno_ejemplo Ejemplos.bd_vacia)).

(** The row of the final table for barcode 123 after the sample run. *)
Definition producto_leche : fila_producto :=
  {| id := 1;
     columnas := {| id_comercio := 9; id_bandera := 1; id_producto := "123";
                    productos_precio_lista := Num 9050;
                    productos_descripcion := "Leche entera";
                    productos_marca := None |} |}.

End EjemplosExtra.

(** ** [app/models/buscador.py] *)

Module Buscador.
Import Bd.

(** A row of [productos p INNER JOIN comercios c]. *)
Definition fila_join : Type := fila_staging * fila_comercio.

(** [ON p.id_comercio = c.id_comercio AND p.id_bandera = c.id_bandera] *)
Definition on_comercio (p : fila_staging) (c : fila_comercio) : bool :=
  bool_decide (id_comercio p = c_id_comercio c)
  && bool_decide (id_bandera p = c_id_bandera c).

(** [FROM productos p INNER JOIN comercios c ON ... WHERE p.id_producto = %s] *)
Definition join_where (t : tablas) (codigo_barras : string) : list fila_join :=
  p ← List.filter (fun p => bool_decide (id_producto p = codigo_barras))
                  (columnas <$> productos t);
  c ← List.filter (on_comercio p) (comercios t);
  [(p, c)].

(** The key of [DISTINCT ON (p.id_comercio, p.id_bandera)]. *)
Definition clave_par (f : fila_join) : Z * Z := (id_comercio f.1, id_bandera f.1).

(** [ORDER BY p.id_comercio, p.id_bandera, p.productos_precio_lista ASC] *)
Definition clave_orden_par (f : fila_join) : (Z * Z) * (bool * Z) :=
  (clave_par f, orden_numeric (productos_precio_lista f.1)).

Definition antes_par (a b : fila_join) : Prop :=
  ¬ lexico (clave_orden_par b) (clave_orden_par a).

#[global] Instance antes_par_dec : RelDecision antes_par.
Proof.
  intros a b. unfold antes_par.
  destruct (trichotomyT lexico (clave_orden_par b) (clave_orden_par a)) as [[H|H]|H].
  - right. intros Hn. exact (Hn H).
  - left. rewrite H. apply irreflexivity, _.
  - left. intros Hn. exact (asymmetry H Hn).
Defined.

Definition order_by_par (l : list fila_join) : list fila_join :=
  merge_sort antes_par l.
(* Among rows that tie on the three columns the server leaves the order
   open; here it is the one [merge_sort] gives. *)

(** [DISTINCT ON] over the sorted rows of the join. *)
Fixpoint distinct_on_par (previa : option (Z * Z)) (l : list fila_join)
  : list fila_join :=
  match l with
  | [] => []
  | f :: l' =>
      if bool_decide (previa = Some (clave_par f))
      then distinct_on_par previa l'
      else f :: distinct_on_par (Some (clave_par f)) l'
  end.

(** One dictionary of the list [buscar_por_codigo_barras] returns.  The
    price, [float(fila[3])], is kept as the decimal it was read from. *)
Record resultado : Type := {
  codigo_barras : string;
  descripcion : string;
  marca : option string;
  precio_lista : numeric;
  r_id_comercio : Z;
  r_id_bandera : Z;
  comercio_nombre : option string;
  comercio_url : option string
}.

(** [a or b] on two nullable texts. *)
Definition o_bien (a b : option string) : option string :=
  if Py.verdadero a then a else b.

Definition resultado_de (f : fila_join) : resultado :=
  {| codigo_barras := id_producto f.1;
     descripcion := productos_descripcion f.1;
     marca := productos_marca f.1;
     precio_lista := productos_precio_lista f.1;
     r_id_comercio := id_comercio f.1;
     r_id_bandera := id_bandera f.1;
     comercio_nombre := o_bien (comercio_bandera_nombre f.2) (comercio_razon_social f.2);
     comercio_url := comercio_bandera_url f.2 |}.

Definition buscar_por_codigo_barras (t : tablas) (codigo_barras : string)
  : list resultado :=
  resultado_de <$> distinct_on_par None (order_by_par (join_where t codigo_barras)).

End Buscador.

(** ** [config/settings.py] and the key check of [app/api.py] *)

Module Api.
Import Bd.

(** [s.split(sep)] for a one-character separator: one piece more than
    there are separators, empty pieces included. *)
Fixpoint split (sep : ascii) (s : string) : list string :=
  match s with
  | EmptyString => [EmptyString]
  | String c s' =>
      if bool_decide (c = sep) then EmptyString :: split sep s'
      else
        match split sep s' with
        | w :: ws => String c w :: ws
        | [] => [String c EmptyString]
        end
  end.

(** [s.startswith(prefijo)] *)
Definition startswith (prefijo s : string) : bool := String.prefix prefijo s.

(** [API_KEY] of the settings: the environment variable with the single
    and double quotes at its ends stripped, [None] when it is unset or
    empty. *)
Definition API_KEY (api_key_raw : option string) : option string :=
  if Py.verdadero api_key_raw then
    Some (Py.strip_con
            (fun c => bool_decide (c = "'"%char) || bool_decide (c = ascii_of_N 34))
            (default EmptyString api_key_raw))
  else None.

(** The bodies the key check answers with, and the body of the endpoint
    it protects. *)
Inductive cuerpo (A : Type) : Type :=
  | No_se_proporciono_token
  | Formato_de_token_invalido
  | Token_invalido
  | Del_endpoint (a : A).
Arguments No_se_proporciono_token {A}.
Arguments Formato_de_token_invalido {A}.
Arguments Token_invalido {A}.
Arguments Del_endpoint {A} a.

(** The token read from the header; [None] stands for [IndexError]. *)
Definition token_de (auth_header : string) : option string :=
  if startswith "Bearer " auth_header then split " " auth_header !! 1%nat
  else Some auth_header.

(** [decorador] of [requiere_api_key], around an endpoint that answers
    [f]: the body and the status code. *)
Definition requiere_api_key {A} (clave : option string)
    (auth_header : option string) (f : A * Z) : cuerpo A * Z :=
  if negb (Py.verdadero auth_header) then (No_se_proporciono_token, 401)
  else
    match token_de (default EmptyString auth_header) with
    | None => (Formato_de_token_invalido, 401)
    | Some token =>
        if bool_decide (Some token ≠ clave) then (Token_invalido, 403)
        else (Del_endpoint f.1, f.2)
    end.

(** *** The product endpoint *)

Import Buscador.

(** [str(n)] of an integer. *)
Definition str (n : Z) : string := pretty n.

(** The price after the peso sign: the float of a [NUMERIC(10,2)] value
    printed with no decimals, rounded to the nearest integer and to the
    even one from a half (the only ties are the values that end in [.50],
    which a float holds exactly); the sign is kept when the result is
    zero, and [NaN] prints as [nan]. *)
Definition formato_0f (p : numeric) : string :=
  match p with
  | NaN => "nan"
  | Num c =>
      let q := Z.abs c / 100 in
      let r := Z.abs c mod 100 in
      let n := if r <? 50 then q
               else if 50 <? r then q + 1
               else if Z.even q then q else q + 1 in
      (if c <? 0 then "-" else "") +:+ str n
  end.

(** One entry of [comercios] in the answer; a missing name is [null]. *)
Record comercio_json : Type := {
  j_id_comercio : string;
  j_id_bandera : string;
  nombre_comercio : option string;
  precio_producto : string
}.

Record respuesta : Type := {
  j_id_producto : string;
  nombre_producto : string;
  marca_producto : string;
  j_comercios : list comercio_json
}.

Inductive cuerpo_producto : Type :=
  | Producto_no_encontrado (id_producto : string)
  | Error_al_buscar_producto
  | Producto (r : respuesta).

(** The name shown for a result: the two small formats of merchant 10 get
    the name of the chain in front. *)
Definition nombre_mostrado (r : resultado) : option string :=
  if bool_decide (r_id_comercio r = 10)
     && (bool_decide (comercio_nombre r = Some "Express")
         || bool_decide (comercio_nombre r = Some "Market"))
  then Some ("Carrefour " +:+ default EmptyString (comercio_nombre r))
  else comercio_nombre r.

Definition comercio_de (r : resultado) : comercio_json :=
  {| j_id_comercio := str (r_id_comercio r);
     j_id_bandera := str (r_id_bandera r);
     nombre_comercio := nombre_mostrado r;
     precio_producto := "$" +:+ formato_0f (precio_lista r) |}.

(** [buscar_producto]: the tables the query reads, [None] when the
    connection or the query raises. *)
Definition buscar_producto (bd : option tablas) (codigo_barras : string)
  : cuerpo_producto * Z :=
  match bd with
  | None => (Error_al_buscar_producto, 500)
  | Some t =>
      match buscar_por_codigo_barras t codigo_barras with
      | [] => (Producto_no_encontrado codigo_barras, 404)
      | (primer_resultado :: _) as resultados =>
          (Producto
             {| j_id_producto := Buscador.codigo_barras primer_resultado;
                nombre_producto := descripcion primer_resultado;
                marca_producto :=
                  default EmptyString (o_bien (marca primer_resultado) (Some EmptyString));
                j_comercios := comercio_de <$> resultados |}, 200)
      end
  end.

(** [GET /api/v1/producto/<codigo_barras>]: the endpoint behind the key
    check. *)
Definition get_producto (clave auth_header : option string)
    (bd : option tablas) (codigo_barras : string)
  : cuerpo cuerpo_producto * Z :=
  requiere_api_key clave auth_header (buscar_producto bd codigo_barras).

(** A text without the separator. *)
Fixpoint sin_espacios (s : string) : bool :=
  match s with
  | EmptyString => true
  | String c s' => negb (bool_decide (c = " "%char)) && sin_espacios s'
  end.

End Api.

(** ** Sample data of the search *)

Module EjemplosBusqueda.
Import Bd Buscador.

(** The result of the search for barcode 123 after the sample run. *)
Definition resultado_leche : resultado :=
  {| codigo_barras := "123"; descripcion := "Leche entera"; marca := None;
     precio_lista := Num 9050; r_id_comercio := 9; r_id_bandera := 1;
     comercio_nombre := Some "Vea";
     comercio_url := Some "http://vea.example/b" |}.

End EjemplosBusqueda.

(** * Properties *)

Import Bd Importador Sepa Script Inv InvSepa.

(** ** Python text *)

Example ej_int : Py.int " 1_2 " = Some 12 /\ Py.int "-7" = Some (-7) /\ Py.int "1__2" = None
  /\ Py.int "" = None /\ Py.int "12a" = None /\ Py.int "+" = None /\ Py.int "007" = Some 7.
Proof. vm_compute. auto 10. Qed.

Example ej_float : Py.float "90.50" = Some (Py.Finito 9050 (-2))
  /\ Py.float "-5" = Some (Py.Finito (-5) 0) /\ Py.float "1e3" = Some (Py.Finito 1 3)
  /\ Py.float ".5" = Some (Py.Finito 5 (-1)) /\ Py.float "1." = Some (Py.Finito 1 0)
  /\ Py.float "." = None /\ Py.float "1e" = None /\ Py.float "NaN" = Some Py.NoNumero
  /\ Py.float "-Infinity" = Some (Py.Infinito true) /\ Py.float "1_0.5" = Some (Py.Finito 105 (-1))
  /\ Py.float "1_.5" = None /\ Py.float "12,5" = None /\ Py.float "" = None.
Proof. vm_compute. auto 20. Qed.

Example ej_strip : Py.strip "  ab c  " = "ab c" /\ Py.contiene "id_comercio" "xid_comerciox" = true
  /\ Py.endswith ".zip" "a.zip" = true /\ Py.endswith ".zip" "zip" = false.
Proof. vm_compute. auto. Qed.

Lemma strip_vacio : Py.strip EmptyString = EmptyString.
Proof. reflexivity. Qed.

Lemma get_strip_texto f k : Csv.get_strip f k = Spec.texto f k.
Proof.
  unfold Csv.get_strip, Spec.texto, Csv.get, Csv.get_o.
  destruct (f !! k) as [[s|]|]; simpl; try reflexivity.
  case_bool_decide; subst; reflexivity.
Qed.

(** ** The validator of listing rows *)

Lemma validar_segun_texto key f :
  validar key f =
  if bool_decide (Spec.texto f "id_producto" = EmptyString) then Rechazada "sin_id_producto"
  else if bool_decide (Spec.texto f key = EmptyString) then Rechazada "otros"
  else match Py.int (Spec.texto f key) with
  | None => Rechazada "otros"
  | Some id_comercio =>
    if negb (permitido id_comercio) then Rechazada "id_comercio_no_permitido"
    else if bool_decide (Spec.texto f "id_bandera" = EmptyString)
    then Rechazada "sin_id_bandera"
    else match Py.int (Spec.texto f "id_bandera") with
    | None => Rechazada "sin_id_bandera"
    | Some id_bandera =>
      if bool_decide (Spec.texto f "productos_precio_lista" = EmptyString)
      then Rechazada "sin_precio"
      else match Py.float (Spec.texto f "productos_precio_lista") with
      | None => Rechazada "sin_precio"
      | Some precio =>
        if bool_decide (Spec.texto f "productos_descripcion" = EmptyString)
        then Rechazada "sin_descripcion"
        else Valida {| l_id_comercio := id_comercio; l_id_bandera := id_bandera;
                       l_id_producto := Spec.texto f "id_producto";
                       l_precio_lista := precio;
                       l_descripcion := Spec.texto f "productos_descripcion";
                       l_marca := Spec.texto f "productos_marca" |}
      end
    end
  end.
Proof. unfold validar. rewrite !get_strip_texto. reflexivity. Qed.

Lemma validar_refina key f :
  match Spec.primera_falla key f with
  | Some motivo => validar key f = Rechazada motivo
  | None => exists r, validar key f = Valida r /\ Spec.normalizada key f r
  end.
Proof.
  rewrite validar_segun_texto.
  unfold Spec.primera_falla, Spec.comprobaciones, Spec.en_blanco, Spec.normalizada.
  cbn [List.find fst snd fmap option_fmap option_map].
  repeat (case_bool_decide; cbn [orb negb fmap option_fmap option_map snd]; try reflexivity).
  all: repeat match goal with
       | |- context [Py.int ?s] => destruct (Py.int s) eqn:?
       | |- context [Py.float ?s] => destruct (Py.float s) eqn:?
       | |- context [permitido ?n] => destruct (permitido n) eqn:?
       | |- context [bool_decide ?P] => case_bool_decide
       | _ => progress cbn [orb negb fmap option_fmap option_map snd]
       end; try reflexivity; try congruence; try done.
  all: eexists; split; [reflexivity | cbn; auto 10].
Qed.

(** C3. The validator applies its six checks in the order of the
    specification (blank product code, blank or non-numeric merchant id,
    merchant id outside the allow-list, blank or non-numeric variant id,
    blank or non-numeric price, blank description).  The first failing
    check gives the one reason counted: that counter goes up by one and no
    other changes, and nothing is written.  A row passing the six checks is
    written as its normalized row and counted as valid. *)
Theorem validacion_en_orden key f p :
  match Spec.primera_falla key f with
  | Some motivo =>
      validar key f = Rechazada motivo
      /\ total_filas (paso_preparar key p f) = total_filas p + 1
      /\ filas_validas (paso_preparar key p f) = filas_validas p
      /\ escrito (paso_preparar key p f) = escrito p
      /\ errores (paso_preparar key p f) !! motivo
         = Some (default 0 (errores p !! motivo) + 1)
      /\ (forall k, k ≠ motivo ->
            errores (paso_preparar key p f) !! k = errores p !! k)
  | None =>
      exists r, validar key f = Valida r
      /\ Spec.normalizada key f r
      /\ paso_preparar key p f =
         {| total_filas := total_filas p + 1;
            filas_validas := filas_validas p + 1;
            errores := errores p;
            escrito := escrito p ++ [r] |}
  end.
Proof.
  pose proof (validar_refina key f) as H.
  unfold paso_preparar.
  destruct (Spec.primera_falla key f) as [motivo|].
  - rewrite H. cbn. unfold incrementar.
    repeat split; [apply lookup_insert_eq|].
    intros k Hk. by apply lookup_insert_ne.
  - destruct H as (r & Hr & Hn). exists r. rewrite Hr. auto.
Qed.

(** ** Prices *)

(** C9, as stated: every emitted row would have a non-negative price.  The
    row of the sample with price [-5] is emitted. *)
Lemma precio_negativo_aceptado :
  ¬ (forall key f r, validar key f = Valida r ->
       Spec.no_negativo (l_precio_lista r) = true).
Proof.
  intros H.
  specialize (H "id_comercio" Ejemplos.fila_precio_negativo
    {| l_id_comercio := 9; l_id_bandera := 1; l_id_producto := "7790001";
       l_precio_lista := Py.Finito (-5) 0; l_descripcion := "Pan";
       l_marca := "La Espiga" |}).
  discriminate H. vm_compute. reflexivity.
Qed.

Lemma float_de_vacio : Py.float EmptyString = None.
Proof. reflexivity. Qed.

(** C9, amended.  The sign of the price is not checked: a raw row whose
    price column parses as a number, of either sign, is emitted whenever
    the other five checks pass, and the emitted price is that number. *)
Theorem precio_de_cualquier_signo key f precio :
  Spec.pasan_las_otras key f = true ->
  Py.float (Spec.texto f "productos_precio_lista") = Some precio ->
  exists r, validar key f = Valida r /\ l_precio_lista r = precio.
Proof.
  intros Hotras Hprecio.
  pose proof (validar_refina key f) as H.
  assert (Spec.primera_falla key f = None) as Hn.
  { unfold Spec.pasan_las_otras, Spec.comprobaciones in Hotras.
    cbn [forallb fst snd] in Hotras.
    change (bool_decide ("sin_id_producto" = "sin_precio")) with false in Hotras.
    change (bool_decide ("otros" = "sin_precio")) with false in Hotras.
    change (bool_decide ("id_comercio_no_permitido" = "sin_precio")) with false in Hotras.
    change (bool_decide ("sin_id_bandera" = "sin_precio")) with false in Hotras.
    change (bool_decide ("sin_descripcion" = "sin_precio")) with false in Hotras.
    cbn [orb] in Hotras.
    destruct (andb_prop _ _ Hotras) as [H1 Hr1].
    destruct (andb_prop _ _ Hr1) as [H2 Hr2].
    destruct (andb_prop _ _ Hr2) as [H3 Hr3].
    destruct (andb_prop _ _ Hr3) as [H4 Hr4].
    destruct (andb_prop _ _ Hr4) as [_ Hr5].
    destruct (andb_prop _ _ Hr5) as [H6 _].
    apply negb_true_iff in H1, H2, H3, H4, H6.
    unfold Spec.primera_falla, Spec.comprobaciones. cbn [List.find fst snd].
    rewrite H1, H2, H3, H4, H6, Hprecio.
    clear Hotras Hr1 Hr2 Hr3 Hr4 Hr5.
    unfold Spec.en_blanco.
    destruct (decide (Spec.texto f "productos_precio_lista" = EmptyString)) as [Hb|Hb].
    - rewrite Hb, float_de_vacio in Hprecio. discriminate.
    - rewrite (bool_decide_eq_false_2 _ Hb). reflexivity. }
  rewrite Hn in H. destruct H as (r & Hr & Hnorm).
  exists r. split; [exact Hr|].
  destruct Hnorm as (_ & _ & _ & Hp & _). congruence.
Qed.

Lemma precio_de_cualquier_signo_witness :
  exists r, validar "id_comercio" Ejemplos.fila_precio_negativo = Valida r
            /\ l_precio_lista r = Py.Finito (-5) 0.
Proof.
  apply (precio_de_cualquier_signo "id_comercio" Ejemplos.fila_precio_negativo
           (Py.Finito (-5) 0)); vm_compute; reflexivity.
Defined.

(** ** The counters of [preparar_csv_para_copy] *)

Lemma sum_values_incrementar k e :
  sum_values (incrementar k e) = sum_values e + 1.
Proof.
  unfold sum_values, incrementar.
  assert (forall (j1 j2 : string) (z1 z2 y : Z), z1 + (z2 + y) = z2 + (z1 + y))
    as Hcomm by (intros; lia).
  destruct (e !! k) as [v|] eqn:Hk; cbn [default].
  - rewrite <- insert_delete_eq.
    rewrite map_fold_insert_L; [|intros; apply Hcomm; assumption|apply lookup_delete_eq].
    rewrite (map_fold_delete_L _ _ k v e); [unfold Datatypes.id; lia|intros; apply Hcomm; assumption|exact Hk].
  - rewrite map_fold_insert_L; [lia|intros; apply Hcomm; assumption|exact Hk].
Qed.

Lemma sum_values_iniciales : sum_values errores_iniciales = 0.
Proof. vm_compute. reflexivity. Qed.

Lemma cuenta_exacta_inicial : cuenta_exacta preparado_inicial.
Proof.
  split; [|reflexivity].
  change (0 = 0 + sum_values errores_iniciales).
  rewrite sum_values_iniciales. reflexivity.
Qed.

Lemma cuenta_exacta_paso key p f :
  cuenta_exacta p -> cuenta_exacta (paso_preparar key p f).
Proof.
  intros [Ht Hv]. unfold paso_preparar, cuenta_exacta.
  destruct (validar key f) as [motivo|r]; cbn [total_filas filas_validas errores escrito].
  - rewrite sum_values_incrementar. split; lia.
  - rewrite length_app. cbn [length]. split; lia.
Qed.

Lemma cuenta_exacta_bucle key filas p :
  cuenta_exacta p -> cuenta_exacta (foldl (paso_preparar key) p filas).
Proof.
  revert p. induction filas as [|f filas IH]; intros p Hp; [exact Hp|].
  cbn [foldl]. apply IH, cuenta_exacta_paso, Hp.
Qed.

Lemma total_filas_paso key p f :
  total_filas (paso_preparar key p f) = total_filas p + 1.
Proof. unfold paso_preparar. destruct (validar key f); reflexivity. Qed.

Lemma total_filas_bucle key filas p :
  total_filas (foldl (paso_preparar key) p filas)
  = total_filas p + Z.of_nat (length filas).
Proof.
  revert p. induction filas as [|f filas IH]; intros p; cbn [foldl length].
  - lia.
  - rewrite IH, total_filas_paso. lia.
Qed.

Lemma preparar_cuenta_exacta ruta_csv p :
  preparar_csv_para_copy ruta_csv = Ok p -> cuenta_exacta p.
Proof.
  intros H. unfold preparar_csv_para_copy in H.
  destruct ruta_csv as [leidos|registros]; [discriminate|].
  destruct (Csv.fieldnames registros) as [[|c cs]|];
    try (injection H as <-; apply cuenta_exacta_inicial).
  destruct (buscar_id_comercio_key (c :: cs));
    injection H as <-;
    [apply cuenta_exacta_bucle|]; apply cuenta_exacta_inicial.
Qed.

(** C10. For every listing file that is read, the rows read are the valid
    rows written plus the rows counted under the six rejection reasons: no
    row is counted twice or left out.  When the merchant-id column is found,
    the rows read are all the rows of the file. *)
Theorem preparar_cuenta_cada_fila ruta_csv p :
  preparar_csv_para_copy ruta_csv = Ok p ->
  total_filas p = filas_validas p + sum_values (errores p)
  /\ filas_validas p = Z.of_nat (length (escrito p))
  /\ (forall registros columnas key,
        ruta_csv = Csv.Legible registros ->
        Csv.fieldnames registros = Some columnas ->
        buscar_id_comercio_key columnas = Some key ->
        total_filas p = Z.of_nat (length (Csv.filas registros))).
Proof.
  intros H. destruct (preparar_cuenta_exacta _ _ H) as [H1 H2].
  split; [exact H1|]. split; [exact H2|].
  intros registros columnas key -> Hcols Hkey.
  unfold preparar_csv_para_copy in H. rewrite Hcols in H.
  destruct columnas as [|c cs]; [discriminate Hkey|].
  rewrite Hkey in H. injection H as <-.
  rewrite total_filas_bucle. reflexivity.
Qed.

Lemma preparar_cuenta_cada_fila_witness :
  preparar_csv_para_copy Ejemplos.csv_productos = Ok Ejemplos.preparado_ejemplo
  /\ total_filas Ejemplos.preparado_ejemplo
     = filas_validas Ejemplos.preparado_ejemplo
       + sum_values (errores Ejemplos.preparado_ejemplo)
  /\ total_filas Ejemplos.preparado_ejemplo = 10.
Proof.
  assert (preparar_csv_para_copy Ejemplos.csv_productos
          = Ok Ejemplos.preparado_ejemplo) as H by (vm_compute; reflexivity).
  split; [exact H|].
  destruct (preparar_cuenta_cada_fila _ _ H) as (H1 & _ & H3).
  split; [exact H1|].
  rewrite (H3 _ Ejemplos.columnas_productos "id_comercio" eq_refl);
    vm_compute; reflexivity.
Defined.

(** ** Merchant metadata *)

(** C7. A metadata row whose variant id is blank or not a number, or whose
    merchant id is blank, not a number or outside the allow-list, yields no
    registry row: the loop goes on to the next row without any [INSERT] or
    update, with the counter and the connection as they were. *)
Theorem comercio_rechazado_no_se_inserta f :
  Spec.comercio_rechazado f ->
  registro_de_fila f = None
  /\ forall resto contador c,
       bucle_comercios (f :: resto) contador c = bucle_comercios resto contador c.
Proof.
  intros H.
  assert (registro_de_fila f = None) as Hnone.
  { unfold registro_de_fila.
    unfold Spec.comercio_rechazado, Spec.en_blanco, Spec.texto in H.
    unfold default in *.
    destruct (Csv.get f "id_comercio") as [sc|] eqn:Ec;
      cbn [from_option Datatypes.id Py.verdadero negb orb] in *; [|reflexivity].
    destruct (bool_decide (sc = EmptyString)) eqn:Esc; cbn [negb orb]; [reflexivity|].
    destruct (bool_decide (Py.strip sc = EmptyString)) eqn:Estrip; [reflexivity|].
    destruct (Py.int sc) as [n|] eqn:En; cbn [mbind option_bind]; [|reflexivity].
    destruct (permitido n) eqn:Ep; cbn [negb]; [|reflexivity].
    destruct (Csv.get f "id_bandera") as [sb|] eqn:Eb;
      cbn [from_option Datatypes.id Py.verdadero fmap option_fmap option_map andb
           mbind option_bind] in *; [|reflexivity].
    destruct (bool_decide (sb = EmptyString)) eqn:Esb; cbn [negb andb mbind option_bind];
      [reflexivity|].
    destruct (bool_decide (Py.strip sb = EmptyString)) eqn:Esbs;
      cbn [negb mbind option_bind]; [reflexivity|].
    destruct (Py.int sb) as [m|] eqn:Em; cbn [mbind option_bind]; [|reflexivity].
    exfalso.
    destruct H as [H|[H|[H|[H|(n' & H & Hn')]]]]; try discriminate.
    injection H as <-. unfold permitido in Ep.
    apply bool_decide_eq_true in Ep. contradiction. }
  split; [exact Hnone|].
  intros resto contador c. cbn [bucle_comercios]. rewrite Hnone. reflexivity.
Qed.

Lemma comercio_rechazado_no_se_inserta_witness :
  registro_de_fila Ejemplos.fila_sin_bandera = None
  /\ forall resto contador c,
       bucle_comercios (Ejemplos.fila_sin_bandera :: resto) contador c
       = bucle_comercios resto contador c.
Proof.
  apply (comercio_rechazado_no_se_inserta Ejemplos.fila_sin_bandera).
  left. vm_compute. reflexivity.
Defined.

(** *** The upsert on the registry *)

Section Upsert.
Implicit Types (r x : fila_comercio) (t : list fila_comercio) (k : Z * Z).

Lemma upsert_claves r t :
  clave_comercio <$> upsert r t =
  if bool_decide (clave_comercio r ∈ clave_comercio <$> t)
  then clave_comercio <$> t
  else ((clave_comercio <$> t) ++ [clave_comercio r])%list.
Proof.
  induction t as [|x t IH]; cbn [upsert].
  - rewrite bool_decide_eq_false_2; [reflexivity|]. apply not_elem_of_nil.
  - destruct (decide (clave_comercio x = clave_comercio r)) as [Hx|Hx].
    + rewrite (bool_decide_eq_true_2 _ Hx). rewrite !fmap_cons.
      rewrite bool_decide_eq_true_2; [rewrite Hx; reflexivity|].
      rewrite Hx. apply list_elem_of_here.
    + rewrite (bool_decide_eq_false_2 _ Hx). rewrite !fmap_cons, IH.
      destruct (decide (clave_comercio r ∈ clave_comercio <$> t)) as [Hin|Hin].
      * rewrite (bool_decide_eq_true_2 _ Hin).
        rewrite bool_decide_eq_true_2; [reflexivity|]. by apply list_elem_of_further.
      * rewrite (bool_decide_eq_false_2 _ Hin).
        rewrite bool_decide_eq_false_2; [reflexivity|].
        intros [Heq|Hin']%elem_of_cons; [congruence|contradiction].
Qed.

Lemma upsert_clave_primaria r t :
  clave_primaria t -> clave_primaria (upsert r t).
Proof.
  unfold clave_primaria. intros Hnd. rewrite upsert_claves.
  case_bool_decide as Hin; [exact Hnd|].
  apply NoDup_app. split; [exact Hnd|]. split.
  - intros k Hk ->%list_elem_of_singleton. contradiction.
  - apply NoDup_singleton.
Qed.

Lemma filas_de_clave_ausente k t :
  k ∉ clave_comercio <$> t -> filas_de_clave k t = [].
Proof.
  unfold filas_de_clave. induction t as [|x t IH]; intros Hk; [reflexivity|].
  rewrite filter_cons_False.
  - apply IH. intros Hin. apply Hk. by apply list_elem_of_further.
  - intros Heq. apply Hk. cbn. rewrite Heq. apply list_elem_of_here.
Qed.

(** After an upsert the key of the row has that row and no other; the
    other keys keep their rows. *)
Lemma filas_de_clave_upsert k r t :
  clave_primaria t ->
  filas_de_clave k (upsert r t) =
  if bool_decide (clave_comercio r = k) then [r] else filas_de_clave k t.
Proof.
  unfold clave_primaria, filas_de_clave.
  induction t as [|x t IH]; intros Hnd; cbn [upsert].
  - case_bool_decide as Hk.
    + by rewrite filter_cons_True.
    + by rewrite filter_cons_False.
  - cbn [fmap list_fmap] in Hnd. apply NoDup_cons in Hnd as [Hx Hnd].
    destruct (bool_decide (clave_comercio x = clave_comercio r)) eqn:Hxr.
    + apply bool_decide_eq_true in Hxr.
      case_bool_decide as Hk.
      * rewrite filter_cons_True by exact Hk. f_equal.
        apply filas_de_clave_ausente. congruence.
      * rewrite !filter_cons_False by congruence. reflexivity.
    + apply bool_decide_eq_false in Hxr.
      destruct (decide (clave_comercio x = k)) as [Hxk|Hxk].
      * rewrite !filter_cons_True by exact Hxk. rewrite IH by exact Hnd.
        rewrite bool_decide_eq_false_2 by congruence. reflexivity.
      * rewrite !filter_cons_False by exact Hxk. apply IH, Hnd.
Qed.

(** The registry after a sequence of upserts: last write wins. *)
Lemma filas_de_clave_upserts k rs t :
  clave_primaria t ->
  filas_de_clave k (foldl (flip upsert) t rs) =
  match ultimo_registro k rs with
  | Some r => [r]
  | None => filas_de_clave k t
  end.
Proof.
  unfold ultimo_registro.
  revert t. induction rs as [|r rs IH]; intros t Hpk; [reflexivity|].
  cbn [foldl flip]. rewrite IH by (apply upsert_clave_primaria, Hpk).
  rewrite filas_de_clave_upsert by exact Hpk.
  case_bool_decide as Hk.
  - rewrite filter_cons_True by exact Hk.
    destruct (filter _ rs) as [|y l] eqn:Hf; [reflexivity|].
    change (last (r :: y :: l)) with (last (y :: l)).
    destruct (last (y :: l)) eqn:Hl; [reflexivity|].
    apply last_None in Hl. discriminate.
  - rewrite filter_cons_False by exact Hk. reflexivity.
Qed.

Lemma upserts_clave_primaria rs t :
  clave_primaria t -> clave_primaria (foldl (flip upsert) t rs).
Proof.
  revert t. induction rs as [|r rs IH]; intros t Hpk; [exact Hpk|].
  cbn [foldl flip]. apply IH, upsert_clave_primaria, Hpk.
Qed.

Lemma upserts_claves_presentes rs t :
  (forall r, r ∈ rs -> clave_comercio r ∈ clave_comercio <$> t) ->
  clave_comercio <$> foldl (flip upsert) t rs = clave_comercio <$> t.
Proof.
  revert t. induction rs as [|r rs IH]; intros t Hin; [reflexivity|].
  cbn [foldl flip].
  assert (clave_comercio <$> upsert r t = clave_comercio <$> t) as Hr.
  { rewrite upsert_claves, bool_decide_eq_true_2; [reflexivity|].
    apply Hin, list_elem_of_here. }
  rewrite IH; [exact Hr|].
  intros r' Hr'. rewrite Hr. by apply Hin, list_elem_of_further.
Qed.

Lemma upserts_claves_incluye rs t k :
  k ∈ clave_comercio <$> t \/ (exists r, r ∈ rs /\ clave_comercio r = k) ->
  k ∈ clave_comercio <$> foldl (flip upsert) t rs.
Proof.
  revert t. induction rs as [|r rs IH]; intros t H; cbn [foldl flip].
  - destruct H as [H|(r & Hr & _)]; [exact H|]. by apply elem_of_nil in Hr.
  - apply IH. rewrite upsert_claves.
    destruct H as [H|(r' & [->|Hr']%elem_of_cons & Hk)].
    + left. case_bool_decide; [exact H|]. apply elem_of_app. by left.
    + left. subst k. case_bool_decide as Hin; [exact Hin|].
      apply elem_of_app. right. apply list_elem_of_here.
    + right. eauto.
Qed.

(** Two registries with the same keys in the same order and the same rows
    under every key are the same. *)
Lemma registro_extensional t t' :
  clave_primaria t ->
  clave_comercio <$> t = clave_comercio <$> t' ->
  (forall k, filas_de_clave k t = filas_de_clave k t') ->
  t = t'.
Proof.
  unfold clave_primaria.
  revert t'. induction t as [|x t IH]; intros [|x' t'] Hnd Hk Hf;
    try discriminate; [reflexivity|].
  rewrite !fmap_cons in Hk. rewrite fmap_cons in Hnd.
  assert (clave_comercio x = clave_comercio x') as Hxx
    by (injection Hk; unfold clave_comercio; congruence).
  assert (clave_comercio <$> t = clave_comercio <$> t') as Hk'
    by (injection Hk; intros; assumption).
  clear Hk. rename Hk' into Hk.
  apply NoDup_cons in Hnd as [Hx Hnd].
  assert (x = x') as <-.
  { specialize (Hf (clave_comercio x)). unfold filas_de_clave in Hf.
    rewrite filter_cons_True in Hf by reflexivity.
    rewrite filter_cons_True in Hf by (symmetry; exact Hxx).
    congruence. }
  f_equal. apply IH; [exact Hnd|exact Hk|].
  intros k. destruct (decide (clave_comercio x = k)) as [Hxk|Hxk].
  - rewrite !filas_de_clave_ausente; [reflexivity| |]; subst k; [|exact Hx].
    rewrite <- Hk. exact Hx.
  - specialize (Hf k). unfold filas_de_clave in Hf |- *.
    rewrite !filter_cons_False in Hf by exact Hxk. exact Hf.
Qed.

(** Writing the same rows again changes nothing. *)
Lemma upserts_idempotente rs t :
  clave_primaria t ->
  foldl (flip upsert) (foldl (flip upsert) t rs) rs = foldl (flip upsert) t rs.
Proof.
  intros Hpk.
  pose proof (upserts_clave_primaria rs t Hpk) as Hpk1.
  apply registro_extensional.
  - apply upserts_clave_primaria, Hpk1.
  - apply upserts_claves_presentes. intros r Hr.
    apply upserts_claves_incluye. right. eauto.
  - intros k. rewrite (filas_de_clave_upserts k rs _ Hpk1).
    rewrite (filas_de_clave_upserts k rs t Hpk).
    destruct (ultimo_registro k rs); reflexivity.
Qed.

End Upsert.

(** *** The loop of [importar_comercios_desde_csv] *)

Lemma con_comercios_id c :
  abortada c = false -> con_comercios c (comercios (actual c)) = c.
Proof.
  destruct c as [conf [co pr st ix] ab s]. cbn. intros ->. reflexivity.
Qed.

Lemma execute_abortada q c :
  abortada c = true -> execute q c = (Exc DatabaseError, c).
Proof. intros H. unfold execute. rewrite H. reflexivity. Qed.

Lemma execute_insert_ok r c :
  abortada c = false -> en_rango r = true ->
  execute (insert_comercio r) c
  = (Ok 1, con_comercios c (upsert r (comercios (actual c)))).
Proof.
  intros Ha Hr. unfold execute, insert_comercio. rewrite Ha.
  unfold en_rango in Hr. rewrite Hr. reflexivity.
Qed.

Lemma execute_insert_falla r c :
  abortada c = false -> en_rango r = false ->
  exists c', execute (insert_comercio r) c = (Exc DatabaseError, c')
             /\ abortada c' = true.
Proof.
  intros Ha Hr. unfold execute, insert_comercio. rewrite Ha.
  unfold en_rango in Hr. rewrite Hr. eexists. split; reflexivity.
Qed.

Lemma registros_de_cons f filas :
  registros_de (f :: filas) =
  match registro_de_fila f with
  | Some r => r :: registros_de filas
  | None => registros_de filas
  end.
Proof. reflexivity. Qed.

Lemma bucle_comercios_sin_registros filas contador c :
  registros_de filas = [] -> bucle_comercios filas contador c = (Ok contador, c).
Proof.
  induction filas as [|f filas IH]; intros H; [reflexivity|].
  rewrite registros_de_cons in H. cbn [bucle_comercios].
  destruct (registro_de_fila f); [discriminate|]. apply IH, H.
Qed.

Lemma bucle_comercios_abortada filas contador c :
  abortada c = true -> registros_de filas ≠ [] ->
  bucle_comercios filas contador c = (Exc DatabaseError, c).
Proof.
  intros Ha. induction filas as [|f filas IH]; intros H; [contradiction|].
  rewrite registros_de_cons in H. cbn [bucle_comercios].
  destruct (registro_de_fila f); [|apply IH, H].
  unfold bind. rewrite execute_abortada by exact Ha. reflexivity.
Qed.

Lemma bucle_comercios_ok filas contador c :
  abortada c = false ->
  forallb en_rango (registros_de filas) = true ->
  bucle_comercios filas contador c
  = (Ok (contador + Z.of_nat (length (registros_de filas))),
     con_comercios c (foldl (flip upsert) (comercios (actual c)) (registros_de filas))).
Proof.
  revert contador c. induction filas as [|f filas IH]; intros contador c Ha Hr.
  - change (registros_de []) with (@nil fila_comercio).
    cbn [length foldl bucle_comercios]. rewrite con_comercios_id by exact Ha.
    change (Z.of_nat 0) with 0. rewrite Z.add_0_r. reflexivity.
  - rewrite registros_de_cons in Hr |- *. cbn [bucle_comercios].
    destruct (registro_de_fila f) as [r|]; [|apply IH; assumption].
    cbn [forallb] in Hr. apply andb_prop in Hr as [Hr1 Hr2].
    unfold bind. rewrite execute_insert_ok by assumption.
    rewrite IH by (try reflexivity; exact Hr2).
    cbn [length foldl flip con_comercios actual comercios confirmado productos
         productos_staging indices productos_id_seq].
    rewrite Nat2Z.inj_succ, <- Z.add_1_l, Z.add_assoc. reflexivity.
Qed.

Lemma bucle_comercios_falla filas contador c :
  abortada c = false ->
  forallb en_rango (registros_de filas) = false ->
  exists c', bucle_comercios filas contador c = (Exc DatabaseError, c')
             /\ abortada c' = true /\ confirmado c' = confirmado c
             /\ productos_id_seq c' = productos_id_seq c.
Proof.
  revert contador c. induction filas as [|f filas IH]; intros contador c Ha Hr.
  - discriminate.
  - rewrite registros_de_cons in Hr. cbn [bucle_comercios].
    destruct (registro_de_fila f) as [r|]; [|apply IH; assumption].
    cbn [forallb] in Hr. unfold bind.
    destruct (en_rango r) eqn:Er.
    + rewrite execute_insert_ok by assumption.
      destruct (IH (contador + 1) (con_comercios c (upsert r (comercios (actual c))))
                  eq_refl Hr) as (c' & -> & ? & ? & ?).
      exists c'. auto.
    + unfold execute, insert_comercio. rewrite Ha.
      unfold en_rango in Er. rewrite Er. eexists. repeat split; reflexivity.
Qed.

Lemma commit_limpia c :
  abortada c = false -> actual c = confirmado c -> commit c = (Ok tt, c).
Proof.
  destruct c as [conf act ab s]. cbn. intros -> ->. reflexivity.
Qed.

(** Importing the same metadata file again leaves the connection, hence the
    registry, as the first import left it. *)
Lemma importar_comercios_idempotente ruta_csv c res c1 :
  clave_primaria (comercios (actual c)) ->
  importar_comercios_desde_csv ruta_csv c = (res, c1) ->
  importar_comercios_desde_csv ruta_csv c1 = (res, c1).
Proof.
  intros Hpk H. destruct ruta_csv as [leidos|registros].
  { unfold importar_comercios_desde_csv, try_except, bind, raise, ret in H |- *.
    set (filas := Csv.filas leidos) in *.
    destruct (abortada c) eqn:Ha.
    - destruct (registros_de filas) as [|r0 rs0] eqn:Hrs.
      + rewrite bucle_comercios_sin_registros in H by exact Hrs.
        injection H as <- <-.
        rewrite bucle_comercios_sin_registros by exact Hrs.
        reflexivity.
      + rewrite bucle_comercios_abortada in H by (rewrite ?Hrs; done).
        injection H as <- <-.
        rewrite bucle_comercios_abortada by (rewrite ?Hrs; done). reflexivity.
    - destruct (forallb en_rango (registros_de filas)) eqn:Hr.
      + rewrite bucle_comercios_ok in H by assumption.
        injection H as <- <-.
        rewrite bucle_comercios_ok by (try reflexivity; exact Hr).
        cbn [con_comercios actual comercios confirmado productos
             productos_staging indices productos_id_seq abortada].
        rewrite upserts_idempotente by exact Hpk. reflexivity.
      + destruct (bucle_comercios_falla filas 0 c Ha Hr) as (c' & Hc' & Hab & _).
        rewrite Hc' in H. injection H as <- <-.
        rewrite bucle_comercios_abortada; [reflexivity|exact Hab|].
        intros Hnil. rewrite Hnil in Hr. discriminate. }
  unfold importar_comercios_desde_csv, try_except, bind in H |- *.
  set (filas := Csv.filas registros) in *.
  destruct (abortada c) eqn:Ha.
  - destruct (registros_de filas) as [|r0 rs0] eqn:Hrs.
    + rewrite bucle_comercios_sin_registros in H by exact Hrs.
      injection H as <- <-.
      rewrite bucle_comercios_sin_registros by exact Hrs.
      reflexivity.
    + rewrite bucle_comercios_abortada in H by (rewrite ?Hrs; done).
      injection H as <- <-.
      rewrite bucle_comercios_abortada by (rewrite ?Hrs; done). reflexivity.
  - destruct (forallb en_rango (registros_de filas)) eqn:Hr.
    + rewrite bucle_comercios_ok in H by assumption.
      injection H as <- <-.
      rewrite bucle_comercios_ok by (try reflexivity; exact Hr).
      cbn [commit con_comercios actual comercios confirmado productos
           productos_staging indices productos_id_seq abortada ret].
      rewrite upserts_idempotente by exact Hpk. reflexivity.
    + destruct (bucle_comercios_falla filas 0 c Ha Hr) as (c' & Hc' & Hab & _).
      rewrite Hc' in H. injection H as <- <-.
      rewrite bucle_comercios_abortada; [reflexivity|exact Hab|].
      intros Hnil. rewrite Hnil in Hr. discriminate.
Qed.

(** C8. The merchant upserter is last-write-wins and idempotent.  After a
    metadata file is imported, the registry still has one row per key; under
    every key written by the file there is exactly one row, the last one the
    file has for that key, whether the key existed before or not, and the
    other keys keep their rows; importing the same file again leaves the
    registry unchanged.  For a file that stops decoding part of the way the
    rows are those read before the error: they stay upserted, since the
    handler does not roll back. *)
Theorem upsert_ultimo_gana_e_idempotente ruta_csv c n c1 :
  clave_primaria (comercios (actual c)) ->
  abortada c = false ->
  forallb en_rango (registros_de_archivo ruta_csv) = true ->
  importar_comercios_desde_csv ruta_csv c = (Ok n, c1) ->
  clave_primaria (comercios (actual c1))
  /\ (forall k,
        filas_de_clave k (comercios (actual c1)) =
        match ultimo_registro k (registros_de_archivo ruta_csv) with
        | Some r => [r]
        | None => filas_de_clave k (comercios (actual c))
        end)
  /\ importar_comercios_desde_csv ruta_csv c1 = (Ok n, c1).
Proof.
  intros Hpk Ha Hr H.
  pose proof (importar_comercios_idempotente _ _ _ _ Hpk H) as Hidem.
  destruct ruta_csv as [leidos|registros].
  { unfold importar_comercios_desde_csv, try_except, bind, raise, ret in H.
    cbn [registros_de_archivo] in Hr |- *.
    rewrite bucle_comercios_ok in H by assumption.
    injection H as <- <-.
    cbn [con_comercios actual comercios].
    split; [apply upserts_clave_primaria, Hpk|].
    split; [|exact Hidem].
    intros k. apply filas_de_clave_upserts, Hpk. }
  unfold importar_comercios_desde_csv, try_except, bind in H.
  cbn [registros_de_archivo] in Hr |- *.
  rewrite bucle_comercios_ok in H by assumption.
  injection H as <- <-.
  cbn [commit con_comercios actual comercios confirmado productos
       productos_staging indices productos_id_seq abortada].
  split; [apply upserts_clave_primaria, Hpk|].
  split; [|exact Hidem].
  intros k. apply filas_de_clave_upserts, Hpk.
Qed.

Lemma upsert_ultimo_gana_e_idempotente_witness :
  filas_de_clave (9, 1) (comercios (actual Ejemplos.conexion_tras_comercios))
  = [{| c_id_comercio := 9; c_id_bandera := 1;
        comercio_razon_social := Some "Vea SA";
        comercio_bandera_nombre := Some "Vea";
        comercio_bandera_url := Some "http://vea.example/b" |}]
  /\ importar_comercios_desde_csv Ejemplos.csv_comercio Ejemplos.conexion_tras_comercios
     = (Ok 3, Ejemplos.conexion_tras_comercios).
Proof.
  destruct (upsert_ultimo_gana_e_idempotente Ejemplos.csv_comercio
              Ejemplos.conexion_con_vea 3 Ejemplos.conexion_tras_comercios)
    as (_ & Hk & Hidem).
  - apply NoDup_singleton.
  - reflexivity.
  - vm_compute. reflexivity.
  - vm_compute. reflexivity.
  - split; [|exact Hidem]. rewrite (Hk (9, 1)). vm_compute. reflexivity.
Defined.

(** A metadata file that stops decoding after two rows: the call returns
    0, both rows are in the registry of the open transaction, and the
    commit that ends phase 2 keeps them. *)
Example metadatos_truncados_quedan :
  (importar_comercios_desde_csv EjemplosExtra.csv_comercio_truncado
     (connect Ejemplos.bd_vacia)).1 = Ok 0
  /\ clave_comercio
       <$> comercios (actual (importar_comercios_desde_csv
                                EjemplosExtra.csv_comercio_truncado
                                (connect Ejemplos.bd_vacia)).2)
     = [(9, 1); (12, 1)]
  /\ clave_comercio
       <$> comercios (almacenado (close (commit
             (importar_comercios_desde_csv EjemplosExtra.csv_comercio_truncado
                (connect Ejemplos.bd_vacia)).2).2))
     = [(9, 1); (12, 1)].
Proof. vm_compute. auto. Qed.

(** ** The staging loader *)

Lemma con_staging_id c :
  limpia c -> con_staging c (productos_staging (actual c)) = c.
Proof.
  destruct c as [conf [co pr st ix] ab s]. intros [Ha Hc]. cbn in Ha, Hc.
  subst. reflexivity.
Qed.

Lemma con_staging_limpia c st : limpia (con_staging c st).
Proof. split; reflexivity. Qed.

Lemma rollback_limpia c : limpia c -> rollback c = (Ok tt, c).
Proof.
  destruct c as [conf act ab s]. intros [Ha Hc]. cbn in Ha, Hc. subst. reflexivity.
Qed.

Lemma execute_falla_estado q c e c' :
  execute q c = (Exc e, c') ->
  confirmado c' = confirmado c /\ productos_id_seq c' = productos_id_seq c.
Proof.
  unfold execute. destruct (abortada c).
  - intros H. injection H as _ <-. auto.
  - destruct (q (actual c) (productos_id_seq c)) as [[[t s] n]|e'];
      intros H; [discriminate|]. injection H as _ <-. auto.
Qed.

(** A failed bulk load, whatever the state of the connection: the
    transaction is rolled back to what was committed, and [(0, 0)] is
    returned. *)
Lemma carga_fallida_rollback ruta_csv p e c c' :
  preparar_csv_para_copy ruta_csv = Ok p ->
  filas_validas p ≠ 0 ->
  execute (copy_staging (mapM a_staging (escrito p))) c = (Exc e, c') ->
  importar_productos_desde_csv ruta_csv c
  = (Ok (0, 0),
     {| confirmado := confirmado c; actual := confirmado c; abortada := false;
        productos_id_seq := productos_id_seq c |}).
Proof.
  intros Hp Hv He.
  unfold importar_productos_desde_csv, try_except. rewrite Hp.
  rewrite (proj2 (Z.eqb_neq _ _) Hv).
  unfold bind at 1. rewrite He.
  destruct (execute_falla_estado _ _ _ _ He) as [Hc Hs].
  unfold bind, rollback, ret. rewrite Hc, Hs. reflexivity.
Qed.

(** C5. When the bulk load of one merchant's listing file fails, the
    transaction is rolled back: the connection, and with it the staging
    table, is as it was before that merchant; [(0, 0)] is reported for the
    file; and phase 3 goes on with the next archive, only the count of
    archives processed being incremented. *)
Theorem carga_fallida_no_deja_filas ruta_csv p e c c' zip extraido resto t :
  limpia c ->
  preparar_csv_para_copy ruta_csv = Ok p ->
  filas_validas p ≠ 0 ->
  execute (copy_staging (mapM a_staging (escrito p))) c = (Exc e, c') ->
  zip_de zip = Some extraido ->
  productos_csv extraido = Some ruta_csv ->
  importar_productos_desde_csv ruta_csv c = (Ok (0, 0), c)
  /\ fase3 (zip :: resto) t c
     = fase3 resto {| total_productos := total_productos t;
                      total_errores := total_errores t;
                      total_comercios := total_comercios t + 1 |} c.
Proof.
  intros Hl Hp Hv He Hz Hcsv.
  assert (importar_productos_desde_csv ruta_csv c = (Ok (0, 0), c)) as Himp.
  { rewrite (carga_fallida_rollback _ _ _ _ _ Hp Hv He).
    destruct c as [conf act ab s]. destruct Hl as [Ha Hc]. cbn in Ha, Hc.
    subst. reflexivity. }
  split; [exact Himp|].
  cbn [fase3]. unfold bind at 1. unfold fase3_zip. rewrite Hz, Hcsv.
  unfold bind at 1. rewrite Himp. unfold ret.
  cbn [fst snd]. rewrite !Z.add_0_r. reflexivity.
Qed.

Lemma carga_fallida_no_deja_filas_witness :
  importar_productos_desde_csv Ejemplos.productos_desbordado
    (connect Ejemplos.bd_vacia) = (Ok (0, 0), connect Ejemplos.bd_vacia)
  /\ fase3 [Fichero "comercio-sepa-9.zip"
              (Some {| comercio_csv := None;
                       productos_csv := Some Ejemplos.productos_desbordado |})]
        {| total_productos := 0; total_errores := 0; total_comercios := 0 |}
        (connect Ejemplos.bd_vacia)
     = fase3 [] {| total_productos := 0; total_errores := 0; total_comercios := 0 + 1 |}
         (connect Ejemplos.bd_vacia).
Proof.
  apply (carga_fallida_no_deja_filas Ejemplos.productos_desbordado
           Ejemplos.preparado_desbordado DatabaseError
           (connect Ejemplos.bd_vacia)
           {| confirmado := Ejemplos.tablas_vacias;
              actual := Ejemplos.tablas_vacias;
              abortada := true; productos_id_seq := 1 |}
           (Fichero "comercio-sepa-9.zip"
              (Some {| comercio_csv := None;
                       productos_csv := Some Ejemplos.productos_desbordado |}))
           {| comercio_csv := None;
              productos_csv := Some Ejemplos.productos_desbordado |} []
           {| total_productos := 0; total_errores := 0; total_comercios := 0 |}).
  - split; reflexivity.
  - vm_compute. reflexivity.
  - vm_compute. discriminate.
  - vm_compute. reflexivity.
  - reflexivity.
  - reflexivity.
Defined.

(** On a connection with nothing pending, a listing file either adds its
    rows to staging and commits, or leaves the connection as it was. *)
Lemma importar_productos_limpia ruta_csv c :
  limpia c ->
  exists r,
    importar_productos_desde_csv ruta_csv c
    = (Ok r, con_staging c (productos_staging (actual c) ++ filas_cargadas ruta_csv)).
Proof.
  intros Hl. pose proof Hl as [Ha Hc].
  unfold importar_productos_desde_csv, try_except, filas_cargadas.
  destruct (preparar_csv_para_copy ruta_csv) as [p|e] eqn:Hp.
  - destruct (preparar_cuenta_exacta _ _ Hp) as [_ Hv].
    destruct (filas_validas p =? 0) eqn:H0.
    + apply Z.eqb_eq in H0. rewrite H0 in Hv.
      destruct (escrito p) as [|r l]; [|cbn [length] in Hv; lia].
      eexists. cbn [mapM default from_option]. unfold ret.
      rewrite app_nil_r, con_staging_id by exact Hl. reflexivity.
    + unfold bind at 1. unfold execute at 1. rewrite Ha.
      unfold copy_staging.
      destruct (mapM a_staging (escrito p)) as [fs|] eqn:Hm.
      * eexists. cbn [default from_option]. unfold bind, commit, ret, con_staging.
        cbn [abortada actual comercios productos productos_staging indices
             productos_id_seq]. reflexivity.
      * eexists. unfold bind, rollback, ret.
        cbn [default from_option confirmado productos_id_seq].
        rewrite app_nil_r, con_staging_id by exact Hl.
        destruct c as [conf act ab s]. cbn in Ha, Hc. subst. reflexivity.
  - eexists. unfold raise, bind, ret. rewrite rollback_limpia by exact Hl.
    rewrite app_nil_r, con_staging_id by exact Hl. reflexivity.
Qed.

Lemma con_staging_con_staging c st st' :
  con_staging (con_staging c st) st' = con_staging c st'.
Proof. reflexivity. Qed.

(** Phase 3 from a connection with nothing pending: staging grows by the
    rows of the archives, everything else stays. *)
Lemma fase3_limpia zips t c :
  limpia c ->
  exists t',
    fase3 zips t c
    = (Ok t', con_staging c (productos_staging (actual c) ++ carga_de zips)).
Proof.
  revert t c. induction zips as [|z zips IH]; intros t c Hl.
  - exists t. unfold carga_de. cbn [fase3 fmap list_fmap concat]. unfold ret.
    rewrite app_nil_r, con_staging_id by exact Hl. reflexivity.
  - assert (exists t1, fase3_zip z t c
              = (Ok t1, con_staging c (productos_staging (actual c) ++ filas_de_zip z)))
      as [t1 H1].
    { unfold fase3_zip, filas_de_zip.
      destruct (zip_de z) as [extraido|].
      - destruct (productos_csv extraido) as [ruta|].
        + destruct (importar_productos_limpia ruta c Hl) as [r Hr].
          eexists. unfold bind. rewrite Hr. reflexivity.
        + exists t. unfold ret.
          rewrite app_nil_r, con_staging_id by exact Hl. reflexivity.
      - exists t. unfold ret.
        rewrite app_nil_r, con_staging_id by exact Hl. reflexivity. }
    destruct (IH t1 _ (con_staging_limpia c
                (productos_staging (actual c) ++ filas_de_zip z))) as [t' Ht'].
    exists t'. cbn [fase3]. unfold bind at 1. rewrite H1, Ht'.
    rewrite con_staging_con_staging. unfold carga_de.
    rewrite fmap_cons. cbn [concat con_staging actual productos_staging].
    rewrite app_assoc. reflexivity.
Qed.

(** *** Phase 2 only writes the registry *)

Lemma execute_insert_marco x s r c res c' :
  marco x s c -> execute (insert_comercio r) c = (res, c') -> marco x s c'.
Proof.
  intros (H1 & H2 & H3). unfold execute, insert_comercio.
  destruct (abortada c); [intros H; injection H as _ <-; repeat split; assumption|].
  destruct (en_int4 (c_id_comercio r) && en_int4 (c_id_bandera r));
    intros H; injection H as _ <-; repeat split; assumption.
Qed.

Lemma bucle_comercios_marco x s filas contador c res c' :
  marco x s c -> bucle_comercios filas contador c = (res, c') -> marco x s c'.
Proof.
  revert contador c. induction filas as [|f filas IH]; intros contador c Hm H.
  - injection H as _ <-. exact Hm.
  - cbn [bucle_comercios] in H.
    destruct (registro_de_fila f) as [r|]; [|eapply IH; eassumption].
    unfold bind in H.
    destruct (execute (insert_comercio r) c) as [[n|e] c1] eqn:He.
    + eapply IH; [|exact H]. eapply execute_insert_marco; eassumption.
    + injection H as _ <-. eapply execute_insert_marco; eassumption.
Qed.

Lemma commit_marco x s c : marco x s c -> marco x s (commit c).2.
Proof.
  intros (H1 & H2 & H3). unfold commit. cbn [snd].
  destruct (abortada c); repeat split; assumption.
Qed.

Lemma importar_comercios_marco x s ruta_csv c :
  marco x s c ->
  exists n c', importar_comercios_desde_csv ruta_csv c = (Ok n, c') /\ marco x s c'.
Proof.
  intros Hm. unfold importar_comercios_desde_csv, try_except.
  destruct ruta_csv as [leidos|registros].
  - unfold bind at 1.
    destruct (bucle_comercios (Csv.filas leidos) 0 c) as [[n|e] c1] eqn:Hb;
      (exists 0, c1; split; [reflexivity|];
       eapply bucle_comercios_marco; eassumption).
  - unfold bind at 1.
    destruct (bucle_comercios (Csv.filas registros) 0 c) as [[n|e] c1] eqn:Hb.
    + exists n, (commit c1).2. split; [reflexivity|].
      apply commit_marco. eapply bucle_comercios_marco; eassumption.
    + exists 0, c1. split; [reflexivity|].
      eapply bucle_comercios_marco; eassumption.
Qed.

Lemma fase2_marco x s zips c :
  marco x s c -> exists c', fase2 zips c = (Ok tt, c') /\ marco x s c'.
Proof.
  revert c. induction zips as [|z zips IH]; intros c Hm.
  - exists c. split; [reflexivity|exact Hm].
  - assert (exists c1, fase2_zip z c = (Ok tt, c1) /\ marco x s c1) as (c1 & H1 & Hm1).
    { unfold fase2_zip. destruct (zip_de z) as [extraido|]; [|by exists c].
      destruct (comercio_csv extraido) as [ruta|]; [|by exists c].
      destruct (importar_comercios_marco x s ruta c Hm) as (n & c1 & Hi & Hm1).
      exists c1. unfold bind. rewrite Hi. split; [reflexivity|exact Hm1]. }
    destruct (IH c1 Hm1) as (c' & Hc' & Hm').
    exists c'. cbn [fase2]. unfold bind. rewrite H1. split; assumption.
Qed.

Lemma fase1_connect bd : fase1 (connect bd) = (Ok tt, tras_fase1 bd).
Proof. destruct bd as [[co pr st ix] s]. reflexivity. Qed.

(** Phases 1 to 3 from any database: the run reaches compaction with
    nothing pending, an empty final table, and in staging the rows of the
    archives and no others. *)
Lemma fases_1_a_3 zips bd :
  exists t c3,
    bind fase1 (fun _ => fases_2_3 zips) (connect bd) = (Ok t, c3)
    /\ limpia c3
    /\ productos (actual c3) = []
    /\ productos_staging (actual c3) = carga_de zips
    /\ indices (actual c3) = indices (almacenado bd)
    /\ productos_id_seq c3 = secuencia bd.
Proof.
  unfold bind at 1. rewrite fase1_connect. unfold fases_2_3.
  assert (marco ([], [], indices (almacenado bd)) (secuencia bd) (tras_fase1 bd))
    as Hm by (repeat split).
  destruct (fase2_marco _ _ zips _ Hm) as (c2 & H2 & Hm2).
  unfold bind at 1. rewrite H2. unfold bind at 1.
  pose proof (commit_marco _ _ _ Hm2) as (Ha & Hb & Hs).
  destruct (commit c2) as [r c2'] eqn:Hc. 
  assert (r = Ok tt /\ limpia c2') as [-> Hl].
  { unfold commit in Hc. injection Hc as <- <-. split; [reflexivity|]. split; reflexivity. }
  cbn [snd] in Ha, Hb, Hs.
  destruct (fase3_limpia zips
              {| total_productos := 0; total_errores := 0; total_comercios := 0 |}
              c2' Hl) as [t Ht].
  exists t, (con_staging c2' (productos_staging (actual c2') ++ carga_de zips)).
  split; [exact Ht|].
  unfold sin_comercios in Ha. injection Ha as Hp Hst Hix.
  split; [apply con_staging_limpia|].
  cbn [con_staging actual productos productos_staging indices productos_id_seq].
  rewrite Hst. auto.
Qed.

(** ** The dedup compactor *)

Section Compactacion.
Implicit Types (a b r : fila_staging) (l : list fila_staging) (k : Z * Z * string).

Lemma codigos_inj s s' : codigos s = codigos s' -> s = s'.
Proof.
  unfold codigos. intros H.
  rewrite <- (string_of_list_ascii_of_string s),
          <- (string_of_list_ascii_of_string s').
  f_equal. revert H. generalize (list_ascii_of_string s') as l'.
  induction (list_ascii_of_string s) as [|c l IH]; intros [|c' l'] H;
    try discriminate; [reflexivity|].
  rewrite !fmap_cons in H. injection H as Hc Hl.
  f_equal; [|apply IH, Hl].
  rewrite <- (ascii_N_embedding c), <- (ascii_N_embedding c'). congruence.
Qed.

Lemma orden_clave_inj k k' : orden_clave k = orden_clave k' -> k = k'.
Proof.
  destruct k as [[x y] s], k' as [[x' y'] s']. unfold orden_clave. cbn.
  intros H. injection H as -> -> Hs. apply codigos_inj in Hs. congruence.
Qed.

Lemma clave_orden_fst r : (clave_orden r).1 = orden_clave (clave r).
Proof. reflexivity. Qed.

#[local] Instance antes_total : Total antes.
Proof.
  intros a b. unfold antes.
  destruct (trichotomyT lexico (clave_orden a) (clave_orden b)) as [[H|H]|H].
  - left. intros Hn. exact (asymmetry H Hn).
  - left. rewrite H. apply irreflexivity, _.
  - right. intros Hn. exact (asymmetry H Hn).
Qed.

#[local] Instance antes_trans : Transitive antes.
Proof.
  intros a b c. unfold antes. intros Hab Hbc Hca.
  destruct (trichotomyT lexico (clave_orden a) (clave_orden b)) as [[H|H]|H].
  - apply Hbc. by trans (clave_orden a).
  - apply Hbc. by rewrite <- H.
  - contradiction.
Qed.

Lemma antes_refl a : antes a a.
Proof. unfold antes. apply irreflexivity, _. Qed.

(** Sorted rows have their keys in order. *)
Lemma antes_claves a b :
  antes a b -> ¬ lexico (orden_clave (clave b)) (orden_clave (clave a)).
Proof.
  unfold antes. intros H Hk. apply H. left. exact Hk.
Qed.

Lemma numeric_le_orden p q :
  ¬ lexico (orden_numeric q) (orden_numeric p) -> numeric_le p q.
Proof.
  destruct p as [x|], q as [y|]; cbn; intros H; try exact I.
  - destruct (Z.le_gt_cases x y) as [Hle|Hgt]; [exact Hle|].
    exfalso. apply H. right. split; [reflexivity|]. cbn.
    unfold lexico, Z_lexico. lia.
  - apply H. left. exact I.
Qed.

(** Within a key, sorted rows have their prices in order. *)
Lemma antes_precio a b :
  clave a = clave b -> antes a b ->
  numeric_le (productos_precio_lista a) (productos_precio_lista b).
Proof.
  unfold antes. intros Hk H. apply numeric_le_orden. intros Hp. apply H.
  right. split; [|exact Hp].
  rewrite !clave_orden_fst. by rewrite Hk.
Qed.

Lemma staging_de_clave_vacio k l :
  (forall r, r ∈ l -> clave r ≠ k) -> staging_de_clave k l = [].
Proof.
  unfold staging_de_clave. induction l as [|x l IH]; intros H; [reflexivity|].
  rewrite filter_cons_False by (apply H, list_elem_of_here).
  apply IH. intros r Hr. by apply H, list_elem_of_further.
Qed.

(** What [DISTINCT ON] keeps of a key: the first of its sorted rows. *)
Lemma distinct_on_filtra previa l k :
  StronglySorted antes l ->
  (forall kp, previa = Some kp -> desde_clave kp l) ->
  staging_de_clave k (distinct_on previa l) =
  if bool_decide (previa = Some k) then [] else take 1 (staging_de_clave k l).
Proof.
  unfold staging_de_clave, desde_clave.
  intros Hs. revert previa. induction Hs as [|x l Hs IH Hx]; intros previa Hprev.
  - cbn. by case_bool_decide.
  - cbn [distinct_on].
    destruct (decide (previa = Some (clave x))) as [Hpx|Hpx].
    + rewrite (bool_decide_eq_true_2 _ Hpx).
      rewrite IH by (intros kp Hkp; exact (Forall_inv_tail (Hprev kp Hkp))).
      destruct (decide (previa = Some k)) as [Hpk|Hpk].
      * rewrite (bool_decide_eq_true_2 _ Hpk). reflexivity.
      * rewrite (bool_decide_eq_false_2 _ Hpk).
        rewrite filter_cons_False by congruence. reflexivity.
    + rewrite (bool_decide_eq_false_2 _ Hpx).
      assert (forall kp, Some (clave x) = Some kp ->
                Forall (fun r => ¬ lexico (orden_clave (clave r)) (orden_clave kp)) l)
        as Hprev'.
      { intros kp [= <-]. eapply Forall_impl; [exact Hx|].
        intros r Hr. apply antes_claves, Hr. }
      destruct (decide (clave x = k)) as [Hxk|Hxk].
      * rewrite !filter_cons_True by exact Hxk.
        rewrite IH by exact Hprev'.
        rewrite bool_decide_eq_true_2 by congruence.
        rewrite bool_decide_eq_false_2 by congruence. reflexivity.
      * rewrite !filter_cons_False by exact Hxk.
        rewrite IH by exact Hprev'.
        rewrite bool_decide_eq_false_2 by congruence.
        destruct (decide (previa = Some k)) as [Hpk|Hpk].
        -- rewrite (bool_decide_eq_true_2 _ Hpk).
           fold (staging_de_clave k l).
           rewrite staging_de_clave_vacio; [reflexivity|].
           intros r Hr Hrk.
           pose proof (Forall_inv (Hprev k Hpk)) as Hkx. cbn beta in Hkx.
           rewrite Forall_forall in Hx. apply Hx, antes_claves in Hr.
           rewrite Hrk in Hr.
           destruct (trichotomyT lexico (orden_clave k) (orden_clave (clave x)))
             as [[H|H]|H]; [contradiction| |contradiction].
           apply orden_clave_inj in H. congruence.
        -- rewrite (bool_decide_eq_false_2 _ Hpk). reflexivity.
Qed.

Lemma StronglySorted_filter_cabeza (P : fila_staging -> Prop)
    `{forall r, Decision (P r)} l r resto :
  StronglySorted antes l ->
  filter P l = r :: resto ->
  forall s, s ∈ filter P l -> antes r s.
Proof.
  intros Hs. induction Hs as [|x l Hs IH Hx]; intros Hf s Hin; [discriminate|].
  destruct (decide (P x)) as [Hp|Hp].
  - rewrite filter_cons_True in Hf, Hin by exact Hp.
    injection Hf as <- _.
    apply elem_of_cons in Hin as [->|Hin]; [apply antes_refl|].
    apply list_elem_of_filter in Hin as [_ Hin].
    rewrite Forall_forall in Hx. apply Hx, Hin.
  - rewrite filter_cons_False in Hf, Hin by exact Hp. by apply IH.
Qed.

Lemma numerar_columnas s l : columnas <$> numerar s l = l.
Proof.
  revert s. induction l as [|r l IH]; intros s; [reflexivity|].
  cbn [numerar]. rewrite fmap_cons, IH. reflexivity.
Qed.

Lemma productos_de_clave_numerar k s l :
  columnas <$> productos_de_clave k (numerar s l) = staging_de_clave k l.
Proof.
  unfold productos_de_clave, staging_de_clave.
  revert s. induction l as [|r l IH]; intros s; [reflexivity|].
  cbn [numerar]. destruct (decide (clave r = k)) as [Hk|Hk].
  - rewrite !filter_cons_True by exact Hk. rewrite fmap_cons, IH. reflexivity.
  - rewrite !filter_cons_False by exact Hk. apply IH.
Qed.

(** The rows compaction inserts for a key: none when the key is not
    staged, else one row whose price is the least staged for the key. *)
Lemma compactacion_de_clave k l :
  match staging_de_clave k l with
  | [] => staging_de_clave k (distinct_on None (order_by l)) = []
  | _ :: _ =>
      exists r, staging_de_clave k (distinct_on None (order_by l)) = [r]
                /\ r ∈ staging_de_clave k l
                /\ forall s, s ∈ staging_de_clave k l ->
                     numeric_le (productos_precio_lista r) (productos_precio_lista s)
  end.
Proof.
  pose proof (StronglySorted_merge_sort antes l) as Hs.
  pose proof (merge_sort_Permutation antes l) as Hp.
  fold (order_by l) in Hs, Hp.
  rewrite distinct_on_filtra by (try exact Hs; intros kp [=]).
  rewrite bool_decide_eq_false_2 by discriminate.
  assert (staging_de_clave k (order_by l) ≡ₚ staging_de_clave k l) as Hpf
    by (unfold staging_de_clave; by rewrite Hp).
  destruct (staging_de_clave k l) as [|y l'] eqn:Hl.
  - apply Permutation_nil_r in Hpf. rewrite Hpf. reflexivity.
  - destruct (staging_de_clave k (order_by l)) as [|r resto] eqn:Ho.
    { symmetry in Hpf. apply Permutation_nil_r in Hpf. discriminate. }
    exists r. split; [reflexivity|].
    split; [rewrite <- Hpf; apply list_elem_of_here|].
    intros s Hin. rewrite <- Hpf in Hin.
    assert (clave r = k) as Hrk.
    { assert (r ∈ staging_de_clave k (order_by l)) as Hr
        by (rewrite Ho; apply list_elem_of_here).
      apply list_elem_of_filter in Hr as [Hr _]. exact Hr. }
    assert (clave s = k) as Hsk.
    { rewrite <- Ho in Hin. apply list_elem_of_filter in Hin as [Hin _]. exact Hin. }
    apply antes_precio; [congruence|].
    eapply (StronglySorted_filter_cabeza (fun r => clave r = k));
      [exact Hs|exact Ho|].
    fold (staging_de_clave k (order_by l)). rewrite Ho. exact Hin.
Qed.

End Compactacion.

Lemma mover_no_abortada c :
  abortada c = false ->
  mover_datos_staging_a_final c
  = (Ok (Z.of_nat (length (distinct_on None (order_by (productos_staging (actual c)))))),
     compactada c).
Proof.
  intros Ha. unfold mover_datos_staging_a_final, bind.
  unfold execute at 1. rewrite Ha. reflexivity.
Qed.

Lemma fmap_columnas_uno (l : list fila_producto) r :
  columnas <$> l = [r] -> exists p, l = [p] /\ columnas p = r.
Proof.
  destruct l as [|p [|q l]]; intros H; try discriminate.
  injection H as H. eauto.
Qed.

(** C1. When compaction runs in the pipeline, for every key
    (merchant, variant, product code): if the key occurs in staging, the
    final table gets exactly one row of that key, and its price is the
    least of the prices staged for the key; if it does not occur, the final
    table has no row of that key. *)
Theorem compactacion_minimo_por_clave zips bd t c3 :
  bind fase1 (fun _ => fases_2_3 zips) (connect bd) = (Ok t, c3) ->
  exists n c4,
    mover_datos_staging_a_final c3 = (Ok n, c4)
    /\ forall k,
         match staging_de_clave k (productos_staging (actual c3)) with
         | [] => productos_de_clave k (productos (actual c4)) = []
         | _ :: _ =>
             exists p,
               productos_de_clave k (productos (actual c4)) = [p]
               /\ es_minimo (productos_precio_lista (columnas p))
                    (productos_precio_lista
                       <$> staging_de_clave k (productos_staging (actual c3)))
         end.
Proof.
  intros H.
  destruct (fases_1_a_3 zips bd) as (t' & c3' & H' & Hl & Hp & _).
  rewrite H in H'. injection H' as <- <-.
  destruct Hl as [Ha _].
  eexists _, _. split; [apply mover_no_abortada, Ha|].
  intros k. cbn [compactada actual productos]. rewrite Hp, app_nil_l.
  pose proof (productos_de_clave_numerar k (productos_id_seq c3)
                (distinct_on None (order_by (productos_staging (actual c3)))))
    as Hn.
  pose proof (compactacion_de_clave k (productos_staging (actual c3))) as Hc.
  destruct (staging_de_clave k (productos_staging (actual c3))) as [|y l] eqn:Hs.
  - rewrite Hc in Hn. apply fmap_nil_inv in Hn. exact Hn.
  - destruct Hc as (r & Hr & Hin & Hmin).
    rewrite Hr in Hn. apply fmap_columnas_uno in Hn as (p & Hp' & Hcol).
    exists p. split; [exact Hp'|]. rewrite Hcol. split.
    + apply list_elem_of_fmap. eauto.
    + intros q (s & -> & Hs')%list_elem_of_fmap. apply Hmin, Hs'.
Qed.

Lemma compactacion_minimo_por_clave_witness :
  exists n c4,
    mover_datos_staging_a_final Ejemplos.antes_de_compactar.2 = (Ok n, c4)
    /\ exists p,
         productos_de_clave (9, 1, "123") (productos (actual c4)) = [p]
         /\ es_minimo (productos_precio_lista (columnas p)) [Num 10000; Num 9050].
Proof.
  destruct (compactacion_minimo_por_clave
              (zips_comercios Ejemplos.carpeta_fecha) Ejemplos.bd_vacia
              Ejemplos.totales_ejemplo Ejemplos.antes_de_compactar.2)
    as (n & c4 & Hm & Hk).
  - vm_compute. reflexivity.
  - exists n, c4. split; [exact Hm|].
    specialize (Hk (9, 1, "123")).
    assert (staging_de_clave (9, 1, "123")
              (productos_staging (actual Ejemplos.antes_de_compactar.2))
            = [ {| id_comercio := 9; id_bandera := 1; id_producto := "123";
                   productos_precio_lista := Num 10000;
                   productos_descripcion := "Leche";
                   productos_marca := Some "La Vaca" |};
                {| id_comercio := 9; id_bandera := 1; id_producto := "123";
                   productos_precio_lista := Num 9050;
                   productos_descripcion := "Leche entera";
                   productos_marca := None |} ]) as E
      by (vm_compute; reflexivity).
    rewrite E in Hk. exact Hk.
Defined.

(** ** The whole run *)

(** Phases 4 and 5 from a usable connection: the work is committed
    whether the scratch directories can then be removed or not. *)
Lemma fases_4_5_no_abortada ruta_zip t c :
  abortada c = false ->
  exists r cf,
    fases_4_5 ruta_zip t c = (r, cf)
    /\ confirmado cf = actual cf
    /\ productos (actual cf) = productos (actual (compactada c))
    /\ productos_staging (actual cf) = []
    /\ comercios (actual cf) = comercios (actual c)
    /\ r = (if hay_carpeta_fecha ruta_zip
            then Ok [FASE_1; FASE_2; FASE_3; FASE_4; FASE_5;
                     Importacion_completada
                       {| zips_procesados := total_comercios t;
                          comercios_unicos :=
                            Z.of_nat (length (comercios (actual cf)));
                          productos_totales :=
                            Z.of_nat (length (productos (actual cf)));
                          errores_totales := total_errores t |}]
            else Exc OSError).
Proof.
  intros Ha. unfold fases_4_5. unfold bind at 1.
  rewrite mover_no_abortada by exact Ha. unfold borrar_temporales.
  destruct (hay_carpeta_fecha ruta_zip);
    (eexists _, _; split; [reflexivity|]; repeat split).
Qed.

Lemma importar_connect ruta_zip bd :
  importar ruta_zip (connect bd) =
  match descomprimir_zip_principal ruta_zip with
  | None => (Ok [FASE_1; Error_no_se_pudo_descomprimir], tras_fase1 bd)
  | Some carpeta_fecha =>
      bind (fases_2_3 (zips_comercios carpeta_fecha)) (fases_4_5 ruta_zip)
           (tras_fase1 bd)
  end.
Proof.
  destruct bd as [[co pr st ix] s]. unfold importar.
  destruct (descomprimir_zip_principal ruta_zip); reflexivity.
Qed.

Lemma fases_2_3_tras_fase1 zips bd :
  exists t c3,
    fases_2_3 zips (tras_fase1 bd) = (Ok t, c3)
    /\ limpia c3
    /\ productos (actual c3) = []
    /\ productos_staging (actual c3) = carga_de zips.
Proof.
  destruct (fases_1_a_3 zips bd) as (t & c3 & H & Hl & Hp & Hs & _).
  unfold bind at 1 in H. rewrite fase1_connect in H. eauto 10.
Qed.

(** The final table of a run that extracts the archive: the compacted
    rows of the archives, whatever the database held before; the run
    returns when the archive has a dated folder and raises otherwise, with
    the same tables committed. *)
Lemma importar_completo ruta_zip carpeta_fecha bd :
  descomprimir_zip_principal ruta_zip = Some carpeta_fecha ->
  exists r cf,
    importar ruta_zip (connect bd) = (r, cf)
    /\ columnas <$> productos (confirmado cf)
       = distinct_on None (order_by (carga_de (zips_comercios carpeta_fecha)))
    /\ productos_staging (confirmado cf) = []
    /\ (hay_carpeta_fecha ruta_zip = true -> exists impreso, r = Ok impreso)
    /\ (hay_carpeta_fecha ruta_zip = false -> r = Exc OSError).
Proof.
  intros Hd. rewrite importar_connect, Hd.
  destruct (fases_2_3_tras_fase1 (zips_comercios carpeta_fecha) bd)
    as (t & c3 & H & [Ha _] & Hp & Hs).
  unfold bind. rewrite H.
  destruct (fases_4_5_no_abortada ruta_zip t c3 Ha)
    as (r & cf & Hf & Hc & Hpf & Hsf & _ & Hr).
  exists r, cf. split; [exact Hf|]. rewrite Hc, Hpf, Hsf.
  split; [|split; [reflexivity|]].
  - cbn [compactada actual productos]. rewrite Hp, app_nil_l, Hs.
    apply numerar_columnas.
  - rewrite Hr. split; intros ->; eauto.
Qed.

(** The listing table after a run, without the serial ids. *)
Lemma procesar_productos e bd :
  columnas <$> productos (almacenado (bd_de (procesar_zip_sepa e bd))) =
  match (match ruta_zip_principal e with
         | Some z => Some z
         | None => ruta_alternativa e
         end) with
  | None => columnas <$> productos (almacenado bd)
  | Some ruta_zip =>
      if servidor_disponible e then
        match descomprimir_zip_principal ruta_zip with
        | None => []
        | Some carpeta_fecha =>
            distinct_on None (order_by (carga_de (zips_comercios carpeta_fecha)))
        end
      else columnas <$> productos (almacenado bd)
  end.
Proof.
  unfold procesar_zip_sepa.
  destruct (match ruta_zip_principal e with
            | Some z => Some z
            | None => ruta_alternativa e
            end) as [ruta_zip|]; [|reflexivity].
  destruct (servidor_disponible e); [|reflexivity].
  destruct (descomprimir_zip_principal ruta_zip) as [carpeta_fecha|] eqn:Hd.
  - destruct (importar_completo _ _ bd Hd) as (r & cf & -> & Hp & _).
    destruct r; exact Hp.
  - rewrite importar_connect, Hd. reflexivity.
Qed.

(** C2. A run replaces, it does not accumulate.  When the archive is found
    and the server answers, the run goes on from the state phase 1 commits,
    in which the merchant, listing and staging tables are empty.  So the
    final listing table it leaves is read off the archive alone, whatever
    the database held before: the compacted rows of the selected archives,
    or no row when the archive cannot be extracted; staging ends empty.
    Hence a second run on the same archive leaves the same final listing
    table, row for row, the serial id apart. *)
Theorem procesar_dos_veces e bd ruta_zip :
  (match ruta_zip_principal e with
   | Some z => Some z
   | None => ruta_alternativa e
   end) = Some ruta_zip ->
  servidor_disponible e = true ->
  columnas <$> productos (almacenado (bd_de (procesar_zip_sepa e bd)))
  = match descomprimir_zip_principal ruta_zip with
    | None => []
    | Some carpeta_fecha =>
        distinct_on None (order_by (carga_de (zips_comercios carpeta_fecha)))
    end
  /\ productos_staging (almacenado (bd_de (procesar_zip_sepa e bd))) = []
  /\ columnas <$> productos
       (almacenado (bd_de (procesar_zip_sepa e (bd_de (procesar_zip_sepa e bd)))))
     = columnas <$> productos (almacenado (bd_de (procesar_zip_sepa e bd)))
  /\ procesar_zip_sepa e bd
     = match importar ruta_zip (connect bd) with
       | (Ok impreso, c) => Retorna impreso (close c)
       | (Exc ex, c) => Lanza ex (close c)
       end
  /\ importar ruta_zip (connect bd)
     = match descomprimir_zip_principal ruta_zip with
       | None => (Ok [FASE_1; Error_no_se_pudo_descomprimir], tras_fase1 bd)
       | Some carpeta_fecha =>
           bind (fases_2_3 (zips_comercios carpeta_fecha)) (fases_4_5 ruta_zip)
                (tras_fase1 bd)
       end
  /\ comercios (actual (tras_fase1 bd)) = []
  /\ productos (actual (tras_fase1 bd)) = []
  /\ productos_staging (actual (tras_fase1 bd)) = []
  /\ confirmado (tras_fase1 bd) = actual (tras_fase1 bd).
Proof.
  intros Hruta Hserv.
  assert (forall bd0,
            columnas <$> productos (almacenado (bd_de (procesar_zip_sepa e bd0)))
            = match descomprimir_zip_principal ruta_zip with
              | None => []
              | Some carpeta_fecha =>
                  distinct_on None (order_by (carga_de (zips_comercios carpeta_fecha)))
              end) as Hp.
  { intros bd0. rewrite (procesar_productos e bd0), Hruta, Hserv. reflexivity. }
  split; [apply Hp|]. split.
  { unfold procesar_zip_sepa. rewrite Hruta, Hserv.
    destruct (descomprimir_zip_principal ruta_zip) as [carpeta_fecha|] eqn:Hd.
    - destruct (importar_completo _ _ bd Hd) as (r & cf & -> & _ & Hs & _).
      by destruct r.
    - rewrite importar_connect, Hd. reflexivity. }
  split; [by rewrite !Hp|].
  split; [unfold procesar_zip_sepa; by rewrite Hruta, Hserv|].
  split; [apply importar_connect|]. repeat split.
Qed.

Lemma procesar_dos_veces_witness :
  columnas <$> productos
    (almacenado (bd_de (procesar_zip_sepa Ejemplos.entorno_ejemplo
                          EjemplosExtra.bd_con_restos)))
  = match descomprimir_zip_principal
            (Some [Carpeta "2024-01-04" Ejemplos.carpeta_fecha]) with
    | None => []
    | Some carpeta_fecha =>
        distinct_on None (order_by (carga_de (zips_comercios carpeta_fecha)))
    end
  /\ productos_staging
       (almacenado (bd_de (procesar_zip_sepa Ejemplos.entorno_ejemplo
                             EjemplosExtra.bd_con_restos))) = []
  /\ columnas <$> productos
       (almacenado (bd_de (procesar_zip_sepa Ejemplos.entorno_ejemplo
          (bd_de (procesar_zip_sepa Ejemplos.entorno_ejemplo
                    EjemplosExtra.bd_con_restos)))))
     = columnas <$> productos
         (almacenado (bd_de (procesar_zip_sepa Ejemplos.entorno_ejemplo
                               EjemplosExtra.bd_con_restos))).
Proof.
  destruct (procesar_dos_veces Ejemplos.entorno_ejemplo EjemplosExtra.bd_con_restos
              (Some [Carpeta "2024-01-04" Ejemplos.carpeta_fecha])
              eq_refl eq_refl) as (H1 & H2 & H3 & _).
  auto.
Defined.

(** The rows a database held before a run are gone after it. *)
Example restos_reemplazados :
  columnas <$> productos
    (almacenado (bd_de (procesar_zip_sepa Ejemplos.entorno_ejemplo
                          EjemplosExtra.bd_con_restos)))
  = columnas <$> productos EjemplosExtra.tablas_importadas
  /\ length (productos (almacenado EjemplosExtra.bd_con_restos)) = 1%nat
  /\ length (productos EjemplosExtra.tablas_importadas) = 2%nat.
Proof. vm_compute. auto. Qed.

(** ** The allow-list *)

Lemma validar_permitido key f r :
  validar key f = Valida r -> permitido (l_id_comercio r) = true.
Proof.
  rewrite validar_segun_texto.
  repeat match goal with
  | |- context [bool_decide ?P] => destruct (bool_decide P); [discriminate|]
  | |- context [Py.int ?s] => destruct (Py.int s) eqn:?; [|discriminate]
  | |- context [Py.float ?s] => destruct (Py.float s) eqn:?; [|discriminate]
  | |- context [negb (permitido ?n)] =>
      destruct (permitido n) eqn:?; cbn [negb]; [|discriminate]
  end.
  intros [= <-]. assumption.
Qed.

Lemma escrito_permitidos ruta_csv p :
  preparar_csv_para_copy ruta_csv = Ok p ->
  Forall (fun r => permitido (l_id_comercio r) = true) (escrito p).
Proof.
  assert (forall key filas p0,
            Forall (fun r => permitido (l_id_comercio r) = true) (escrito p0) ->
            Forall (fun r => permitido (l_id_comercio r) = true)
                   (escrito (foldl (paso_preparar key) p0 filas))) as Hbucle.
  { intros key filas. induction filas as [|f filas IH]; intros p0 H0; [exact H0|].
    cbn [foldl]. apply IH. unfold paso_preparar.
    destruct (validar key f) as [motivo|r] eqn:Hv; cbn [escrito]; [exact H0|].
    apply Forall_app. split; [exact H0|].
    apply Forall_singleton. eapply validar_permitido, Hv. }
  unfold preparar_csv_para_copy. destruct ruta_csv as [leidos|registros]; [discriminate|].
  destruct (Csv.fieldnames registros) as [[|c cs]|];
    try (intros [= <-]; apply Forall_nil_2).
  destruct (buscar_id_comercio_key (c :: cs)); intros [= <-];
    [apply Hbucle|]; apply Forall_nil_2.
Qed.

Lemma a_staging_id_comercio r s :
  a_staging r = Some s -> id_comercio s = l_id_comercio r.
Proof.
  unfold a_staging. destruct (_ && _); [|discriminate].
  destruct (a_numeric (l_precio_lista r)); cbn; [|discriminate].
  intros [= <-]. reflexivity.
Qed.

Lemma filas_cargadas_permitidas ruta_csv s :
  s ∈ filas_cargadas ruta_csv -> permitido (id_comercio s) = true.
Proof.
  unfold filas_cargadas.
  destruct (preparar_csv_para_copy ruta_csv) as [p|] eqn:Hp;
    [|intros H; by apply elem_of_nil in H].
  pose proof (escrito_permitidos _ _ Hp) as Hperm.
  destruct (mapM a_staging (escrito p)) as [fs|] eqn:Hm; cbn [default from_option];
    [|intros H; by apply elem_of_nil in H].
  apply mapM_Some in Hm. revert s.
  apply Forall_forall.
  induction Hm as [|r s0 l fs0 Hrs Hm IH]; [apply Forall_nil_2|].
  apply Forall_cons in Hperm as [Hr Hperm].
  apply Forall_cons. split; [|apply IH, Hperm].
  by rewrite (a_staging_id_comercio _ _ Hrs).
Qed.

Lemma carga_de_permitida zips s :
  s ∈ carga_de zips -> permitido (id_comercio s) = true.
Proof.
  unfold carga_de. rewrite list_elem_of_In, in_concat.
  intros (l & Hl & Hs). apply list_elem_of_In in Hl, Hs.
  apply list_elem_of_fmap in Hl as (z & -> & _).
  unfold filas_de_zip in Hs.
  destruct (zip_de z) as [extraido|]; [|by apply elem_of_nil in Hs].
  destruct (productos_csv extraido); [|by apply elem_of_nil in Hs].
  eapply filas_cargadas_permitidas, Hs.
Qed.

Lemma distinct_on_incluido previa (l : list fila_staging) r :
  r ∈ distinct_on previa l -> r ∈ l.
Proof.
  revert previa. induction l as [|x l IH]; intros previa; cbn [distinct_on];
    [done|].
  destruct (bool_decide (previa = Some (clave x))).
  - intros H. apply list_elem_of_further. eapply IH, H.
  - intros [->|H]%elem_of_cons; [apply list_elem_of_here|].
    apply list_elem_of_further. eapply IH, H.
Qed.

Lemma zips_comercios_permitidos carpeta_fecha z :
  z ∈ zips_comercios carpeta_fecha ->
  Py.endswith ".zip" (nombre_de z) = true
  /\ exists n, patron_comercio_search (nombre_de z) = Some n /\ permitido n = true.
Proof.
  unfold zips_comercios. rewrite list_elem_of_In, filter_In, <- list_elem_of_In.
  intros [_ H]. unfold es_zip_permitido in H.
  apply andb_prop in H as [H1 H2]. split; [exact H1|].
  destruct (patron_comercio_search (nombre_de z)) as [n|]; [|discriminate].
  eauto.
Qed.

(** C4. No row of a merchant outside the allow-list reaches staging or
    the final table.  Rows are filtered twice: only archives whose name
    carries an allowed merchant id are opened, and the validator only emits
    rows with an allowed merchant id.  So in a run that finds the archive
    and the server, the rows staged when compaction starts and the rows of
    the final table at the end all have an allowed merchant id, and staging
    ends empty. *)
Theorem comercios_no_permitidos_excluidos e bd ruta_zip :
  (match ruta_zip_principal e with
   | Some z => Some z
   | None => ruta_alternativa e
   end) = Some ruta_zip ->
  servidor_disponible e = true ->
  (forall carpeta_fecha z, z ∈ zips_comercios carpeta_fecha ->
     exists n, patron_comercio_search (nombre_de z) = Some n /\ permitido n = true)
  /\ (forall key f r, validar key f = Valida r -> permitido (l_id_comercio r) = true)
  /\ (forall zips t c3 s,
        bind fase1 (fun _ => fases_2_3 zips) (connect bd) = (Ok t, c3) ->
        s ∈ productos_staging (actual c3) -> permitido (id_comercio s) = true)
  /\ (forall p, p ∈ productos (almacenado (bd_de (procesar_zip_sepa e bd))) ->
        permitido (id_comercio (columnas p)) = true)
  /\ productos_staging (almacenado (bd_de (procesar_zip_sepa e bd))) = [].
Proof.
  intros Hruta Hserv.
  split; [intros carpeta z Hz; apply (zips_comercios_permitidos _ _ Hz)|].
  split; [apply validar_permitido|].
  split.
  { intros zips t c3 s H Hs.
    destruct (fases_1_a_3 zips bd) as (t' & c3' & H' & _ & _ & Hst & _).
    rewrite H in H'. injection H' as <- <-.
    rewrite Hst in Hs. eapply carga_de_permitida, Hs. }
  unfold procesar_zip_sepa. rewrite Hruta, Hserv.
  destruct (descomprimir_zip_principal ruta_zip) as [carpeta_fecha|] eqn:Hd.
  - destruct (importar_completo _ _ bd Hd) as (r & cf & -> & Hp & Hs & _).
    assert (bd_de match r with
                  | Ok impreso => Retorna impreso (close cf)
                  | Exc ex => Lanza ex (close cf)
                  end = close cf) as -> by (by destruct r).
    cbn [close almacenado]. split; [|exact Hs].
    intros p Hin.
    assert (columnas p ∈ columnas <$> productos (confirmado cf)) as Hc
      by (apply list_elem_of_fmap; eauto).
    rewrite Hp in Hc. apply distinct_on_incluido in Hc.
    unfold order_by in Hc. rewrite merge_sort_Permutation in Hc.
    eapply carga_de_permitida, Hc.
  - rewrite importar_connect, Hd. cbn. split; [|reflexivity].
    intros p Hin. by apply elem_of_nil in Hin.
Qed.

Lemma comercios_no_permitidos_excluidos_witness :
  (forall p, p ∈ productos (almacenado
                (bd_de (procesar_zip_sepa Ejemplos.entorno_ejemplo Ejemplos.bd_vacia))) ->
     permitido (id_comercio (columnas p)) = true)
  /\ productos_staging (almacenado
       (bd_de (procesar_zip_sepa Ejemplos.entorno_ejemplo Ejemplos.bd_vacia))) = [].
Proof.
  apply (comercios_no_permitidos_excluidos Ejemplos.entorno_ejemplo Ejemplos.bd_vacia
           (Some [Carpeta "2024-01-04" Ejemplos.carpeta_fecha])); reflexivity.
Defined.

(** ** The entry point *)


(** A missing outer archive: the process ends with status 1, no phase is
    run and the database is not touched. *)
Lemma main_sin_archivo servidor alternativa bd :
  main true {| servidor_disponible := servidor; ruta_zip_principal := None;
               ruta_alternativa := alternativa |} bd
  = {| exit_status := 1; log := [ERROR_el_archivo_descargado_no_existe];
       impreso_importador := []; bd_final := bd |}.
Proof. reflexivity. Qed.

(** C6, at an outer archive that exists and cannot be extracted.  The
    specification asks for a failed run with a nonzero exit status; here
    the importer prints its error after phase 1 has emptied the tables and
    returns, and [main] logs a successful import and exits with status 0.
    No later phase is run. *)
Theorem main_zip_corrupto_sale_con_cero alternativa bd :
  main true {| servidor_disponible := true; ruta_zip_principal := Some None;
               ruta_alternativa := alternativa |} bd
  = {| exit_status := 0;
       log := [OK_importacion_completada_exitosamente;
               PROCESO_COMPLETADO_EXITOSAMENTE];
       impreso_importador := [FASE_1; Error_no_se_pudo_descomprimir];
       bd_final := close (tras_fase1 bd) |}.
Proof.
  unfold main, procesar_zip_sepa.
  cbn [negb ruta_zip_principal servidor_disponible].
  rewrite importar_connect. reflexivity.
Qed.

(** The serial ids of a second run go on from those of the first: the
    tables are equal only up to that column. *)
Example ids_de_la_segunda_corrida :
  id <$> productos (almacenado
           (bd_de (procesar_zip_sepa Ejemplos.entorno_ejemplo Ejemplos.bd_vacia)))
  = [1; 2]
  /\ id <$> productos (almacenado
              (bd_de (procesar_zip_sepa Ejemplos.entorno_ejemplo
                        (bd_de (procesar_zip_sepa Ejemplos.entorno_ejemplo
                                  Ejemplos.bd_vacia)))))
     = [3; 4].
Proof. vm_compute. split; reflexivity. Qed.

(** The scenario of the specification: two staged prices, 100.00 and
    90.50, for product 123 of merchant 9, variant 1, leave one final row
    with price 90.50. *)
Example escenario_dos_precios :
  productos_de_clave (9, 1, "123")
    (productos (almacenado
       (bd_de (procesar_zip_sepa Ejemplos.entorno_ejemplo Ejemplos.bd_vacia))))
  = [{| id := 1;
        columnas := {| id_comercio := 9; id_bandera := 1; id_producto := "123";
                       productos_precio_lista := Num 9050;
                       productos_descripcion := "Leche entera";
                       productos_marca := None |} |}].
Proof. vm_compute. reflexivity. Qed.

(** * Further properties of the importer *)

Import InvExtra.

(** ** Table set-up and indexes *)

(** [crear_tablas] on any connection: refused when the transaction is
    aborted; otherwise the registry, the final table and the indexes are
    kept, staging is emptied and everything pending is committed.  A
    second call changes nothing more. *)
Theorem crear_tablas_conserva c :
  crear_tablas c =
    (if abortada c then (Exc DatabaseError, c) else (Ok tt, con_staging c []))
  /\ crear_tablas (con_staging c []) = (Ok tt, con_staging c []).
Proof.
  split; [|reflexivity].
  unfold crear_tablas, bind. unfold execute at 1.
  destruct (abortada c); reflexivity.
Qed.

(** [crear_indices_productos] on a usable connection: both indexes exist
    afterwards, the indexes that existed are kept, no row of any table
    changes, the work is committed, and calling it again changes nothing. *)
Theorem crear_indices_idempotente c :
  abortada c = false ->
  exists c1,
    crear_indices_productos c = (Ok tt, c1)
    /\ "idx_codigo_barras" ∈ indices (actual c1)
    /\ "idx_comercio_bandera" ∈ indices (actual c1)
    /\ (forall i, i ∈ indices (actual c) -> i ∈ indices (actual c1))
    /\ comercios (actual c1) = comercios (actual c)
    /\ productos (actual c1) = productos (actual c)
    /\ productos_staging (actual c1) = productos_staging (actual c)
    /\ confirmado c1 = actual c1
    /\ crear_indices_productos c1 = (Ok tt, c1).
Proof.
  intros Ha.
  unfold crear_indices_productos, bind. unfold execute at 1. rewrite Ha.
  unfold create_index at 1.
  set (i1 := if bool_decide ("idx_codigo_barras" ∈ indices (actual c))
             then indices (actual c)
             else (indices (actual c) ++ ["idx_codigo_barras"])%list).
  assert ("idx_codigo_barras" ∈ i1) as H1.
  { unfold i1. case_bool_decide as H; [exact H|].
    apply elem_of_app. right. apply list_elem_of_here. }
  assert (forall i, i ∈ indices (actual c) -> i ∈ i1) as H1'.
  { intros i Hi. unfold i1. case_bool_decide; [exact Hi|].
    apply elem_of_app. by left. }
  cbn [execute abortada actual productos_id_seq create_index comercios productos
       productos_staging indices confirmado commit].
  fold i1.
  set (i2 := if bool_decide ("idx_comercio_bandera" ∈ i1) then i1
             else (i1 ++ ["idx_comercio_bandera"])%list).
  assert ("idx_comercio_bandera" ∈ i2) as H2.
  { unfold i2. case_bool_decide as H; [exact H|].
    apply elem_of_app. right. apply list_elem_of_here. }
  assert (forall i, i ∈ i1 -> i ∈ i2) as H2'.
  { intros i Hi. unfold i2. case_bool_decide; [exact Hi|].
    apply elem_of_app. by left. }
  eexists. split; [reflexivity|].
  cbn [actual indices comercios productos productos_staging confirmado
       abortada productos_id_seq].
  repeat split; auto.
  unfold crear_indices_productos, bind, execute, create_index, commit.
  cbn [actual indices comercios productos productos_staging confirmado
       abortada productos_id_seq].
  rewrite (bool_decide_eq_true_2 _ (H2' _ H1)).
  rewrite (bool_decide_eq_true_2 _ H2). reflexivity.
Qed.

Lemma crear_indices_idempotente_witness :
  exists c1,
    crear_indices_productos (connect Ejemplos.bd_vacia) = (Ok tt, c1)
    /\ indices (actual c1) = ["idx_codigo_barras"; "idx_comercio_bandera"]
    /\ crear_indices_productos c1 = (Ok tt, c1).
Proof.
  destruct (crear_indices_idempotente (connect Ejemplos.bd_vacia) eq_refl)
    as (c1 & H & _ & _ & _ & _ & _ & _ & _ & Hidem).
  exists c1. split; [exact H|]. split; [|exact Hidem].
  vm_compute in H. injection H as <-. reflexivity.
Defined.

(** ** Compaction on its own *)

Lemma una_por_clave_NoDup (l : list fila_staging) :
  (forall k, length (staging_de_clave k l) <= 1)%nat -> NoDup (clave <$> l).
Proof.
  unfold staging_de_clave.
  induction l as [|x l IH]; intros H; [apply NoDup_nil_2|].
  rewrite fmap_cons. apply NoDup_cons. split.
  - intros (y & Hy & Hin)%list_elem_of_fmap.
    specialize (H (clave x)). rewrite filter_cons_True in H by reflexivity.
    assert (y ∈ filter (fun r => clave r = clave x) l) as Hf
      by (apply list_elem_of_filter; auto).
    destruct (filter (fun r => clave r = clave x) l); [by apply elem_of_nil in Hf|].
    cbn [length] in H. lia.
  - apply IH. intros k. specialize (H k).
    destruct (decide (clave x = k)) as [Hk|Hk].
    + rewrite filter_cons_True in H by exact Hk. cbn [length] in H. lia.
    + rewrite filter_cons_False in H by exact Hk. exact H.
Qed.

Lemma clave_en_staging k (l : list fila_staging) :
  k ∈ clave <$> l <-> staging_de_clave k l ≠ [].
Proof.
  unfold staging_de_clave. split.
  - intros (y & -> & Hin)%list_elem_of_fmap Hnil.
    assert (y ∈ filter (fun r => clave r = clave y) l) as Hf
      by (apply list_elem_of_filter; auto).
    rewrite Hnil in Hf. by apply elem_of_nil in Hf.
  - intros H. destruct (filter (fun r => clave r = k) l) as [|y l'] eqn:Hf;
      [contradiction|].
    assert (y ∈ filter (fun r => clave r = k) l) as Hy
      by (rewrite Hf; apply list_elem_of_here).
    apply list_elem_of_filter in Hy as [Hk Hy].
    apply list_elem_of_fmap. eauto.
Qed.

(** The rows [DISTINCT ON] selects: one per staged key. *)
Lemma distinct_on_claves (l : list fila_staging) :
  NoDup (clave <$> distinct_on None (order_by l))
  /\ forall k, k ∈ clave <$> distinct_on None (order_by l) <-> k ∈ clave <$> l.
Proof.
  split.
  - apply una_por_clave_NoDup. intros k.
    pose proof (compactacion_de_clave k l) as H.
    destruct (staging_de_clave k l).
    + rewrite H. cbn. lia.
    + destruct H as (r & -> & _). cbn. lia.
  - intros k. rewrite !clave_en_staging.
    pose proof (compactacion_de_clave k l) as H.
    destruct (staging_de_clave k l).
    + rewrite H. tauto.
    + destruct H as (r & -> & _). split; discriminate.
Qed.

Lemma numerar_length s (l : list fila_staging) : length (numerar s l) = length l.
Proof.
  revert s. induction l as [|r l IH]; intros s; [reflexivity|].
  cbn [numerar length]. by rewrite IH.
Qed.

Lemma numerar_ids s (l : list fila_staging) :
  Forall (fun p => s <= id p < s + Z.of_nat (length l)) (numerar s l)
  /\ NoDup (id <$> numerar s l).
Proof.
  revert s. induction l as [|r l IH]; intros s.
  - split; [apply Forall_nil_2|apply NoDup_nil_2].
  - destruct (IH (s + 1)) as [Hf Hn]. cbn [numerar length]. split.
    + apply Forall_cons. split; [cbn [id]; lia|].
      eapply Forall_impl; [exact Hf|]. intros p Hp. cbn beta in Hp. lia.
    + rewrite fmap_cons. apply NoDup_cons. split; [|exact Hn].
      intros (p & Hp & Hin)%list_elem_of_fmap.
      rewrite Forall_forall in Hf. specialize (Hf p Hin).
      cbn [id] in Hp. lia.
Qed.

(** [mover_datos_staging_a_final] on a usable connection, whatever the
    final table holds: the rows it held stay in place; one row is appended
    for each key that occurs in staging, and the number returned is the
    number of those rows; staging is emptied and the result committed. *)
Theorem compactacion_agrega_una_por_clave c :
  abortada c = false ->
  exists nuevas c1,
    mover_datos_staging_a_final c = (Ok (Z.of_nat (length nuevas)), c1)
    /\ productos (actual c1) = (productos (actual c) ++ nuevas)%list
    /\ NoDup ((fun p => clave (columnas p)) <$> nuevas)
    /\ (forall k, k ∈ (fun p => clave (columnas p)) <$> nuevas
                  <-> k ∈ clave <$> productos_staging (actual c))
    /\ productos_staging (actual c1) = []
    /\ comercios (actual c1) = comercios (actual c)
    /\ confirmado c1 = actual c1.
Proof.
  intros Ha.
  set (l := distinct_on None (order_by (productos_staging (actual c)))).
  exists (numerar (productos_id_seq c) l), (compactada c).
  rewrite numerar_length. split; [apply mover_no_abortada, Ha|].
  split; [reflexivity|].
  assert ((fun p => clave (columnas p)) <$> numerar (productos_id_seq c) l
          = clave <$> l) as Hk.
  { rewrite <- (numerar_columnas (productos_id_seq c) l) at 2.
    rewrite <- list_fmap_compose. reflexivity. }
  rewrite Hk.
  destruct (distinct_on_claves (productos_staging (actual c))) as [Hn Hm].
  repeat split; try assumption; apply Hm.
Qed.

Lemma compactacion_agrega_una_por_clave_witness :
  exists (nuevas : list fila_producto) c1,
    mover_datos_staging_a_final Ejemplos.antes_de_compactar.2
    = (Ok (Z.of_nat (length nuevas)), c1)
    /\ length nuevas = 2%nat
    /\ productos_staging (actual c1) = [].
Proof.
  destruct (compactacion_agrega_una_por_clave Ejemplos.antes_de_compactar.2 eq_refl)
    as (nuevas & c1 & H & Hp & _ & _ & Hs & _).
  exists nuevas, c1. split; [exact H|]. split; [|exact Hs].
  assert (mover_datos_staging_a_final Ejemplos.antes_de_compactar.2
          = (Ok 2, compactada Ejemplos.antes_de_compactar.2)) as H'
    by (vm_compute; reflexivity).
  rewrite H' in H. injection H as Hn _. lia.
Defined.

(** Compacting twice in a row: the second call finds staging empty,
    inserts nothing, returns 0 and leaves the connection as it is. *)
Theorem compactacion_repetida c n c1 :
  abortada c = false ->
  mover_datos_staging_a_final c = (Ok n, c1) ->
  mover_datos_staging_a_final c1 = (Ok 0, c1).
Proof.
  intros Ha H. rewrite mover_no_abortada in H by exact Ha.
  injection H as _ <-. rewrite mover_no_abortada by reflexivity.
  unfold compactada at 1 2 3.
  cbn [actual productos_staging productos comercios indices productos_id_seq].
  change (order_by []) with (@nil fila_staging).
  cbn [distinct_on numerar]. rewrite app_nil_r.
  change (Z.of_nat (length (@nil fila_staging))) with 0.
  rewrite Z.add_0_r. reflexivity.
Qed.

Lemma compactacion_repetida_witness :
  mover_datos_staging_a_final (compactada Ejemplos.antes_de_compactar.2)
  = (Ok 0, compactada Ejemplos.antes_de_compactar.2).
Proof.
  apply (compactacion_repetida Ejemplos.antes_de_compactar.2 2); vm_compute; reflexivity.
Defined.

(** The serial ids stay distinct: if the ids of the final table are
    distinct and below the sequence before compaction, they are after it,
    the new rows taking consecutive values from the sequence. *)
Theorem compactacion_ids_distintos c n c1 :
  abortada c = false ->
  ids_frescos (productos (actual c)) (productos_id_seq c) ->
  mover_datos_staging_a_final c = (Ok n, c1) ->
  ids_frescos (productos (actual c1)) (productos_id_seq c1)
  /\ productos_id_seq c1 = productos_id_seq c + n
  /\ 0 <= n.
Proof.
  intros Ha [Hnd Hlt] H. rewrite mover_no_abortada in H by exact Ha.
  injection H as <- <-.
  cbn [compactada actual productos productos_id_seq].
  set (l := distinct_on None (order_by (productos_staging (actual c)))).
  destruct (numerar_ids (productos_id_seq c) l) as [Hf Hn].
  split; [|split; [reflexivity|lia]]. split.
  - rewrite fmap_app. apply NoDup_app. split; [exact Hnd|]. split; [|exact Hn].
    intros i (p & -> & Hp)%list_elem_of_fmap (q & Hq & Hin)%list_elem_of_fmap.
    rewrite Forall_forall in Hlt, Hf. specialize (Hlt p Hp). specialize (Hf q Hin).
    cbn beta in Hlt, Hf. lia.
  - apply Forall_app. split.
    + eapply Forall_impl; [exact Hlt|]. intros p Hp. cbn beta in Hp. lia.
    + eapply Forall_impl; [exact Hf|]. intros p Hp. cbn beta in Hp. lia.
Qed.

Lemma compactacion_ids_distintos_witness :
  ids_frescos (productos (actual (compactada Ejemplos.antes_de_compactar.2)))
              (productos_id_seq (compactada Ejemplos.antes_de_compactar.2))
  /\ productos_id_seq (compactada Ejemplos.antes_de_compactar.2) = 1 + 2
  /\ 0 <= 2.
Proof.
  apply (compactacion_ids_distintos Ejemplos.antes_de_compactar.2 2).
  - reflexivity.
  - vm_compute. split; [apply NoDup_nil_2|apply Forall_nil_2].
  - vm_compute. reflexivity.
Defined.

(** ** Files without the expected columns *)

(** A listing file that is empty, or whose header has no column named
    after [id_comercio]: no row is read, every counter stays at zero, and
    [importar_productos_desde_csv] returns [(0, 0)] without using the
    connection at all, not even to roll back. *)
Theorem listado_sin_columna_de_comercio registros c :
  (forall columnas, Csv.fieldnames registros = Some columnas ->
     buscar_id_comercio_key columnas = None) ->
  preparar_csv_para_copy (Csv.Legible registros) = Ok preparado_inicial
  /\ importar_productos_desde_csv (Csv.Legible registros) c = (Ok (0, 0), c).
Proof.
  intros H.
  assert (preparar_csv_para_copy (Csv.Legible registros) = Ok preparado_inicial) as Hp.
  { unfold preparar_csv_para_copy.
    destruct (Csv.fieldnames registros) as [[|col cols]|]; try reflexivity.
    rewrite (H _ eq_refl). reflexivity. }
  split; [exact Hp|].
  unfold importar_productos_desde_csv, try_except. rewrite Hp.
  cbn [filas_validas preparado_inicial Z.eqb errores]. unfold ret.
  rewrite sum_values_iniciales. reflexivity.
Qed.

Lemma listado_sin_columna_de_comercio_witness :
  preparar_csv_para_copy (Csv.Legible EjemplosExtra.listado_sin_comercio)
  = Ok preparado_inicial
  /\ importar_productos_desde_csv (Csv.Legible EjemplosExtra.listado_sin_comercio)
       (connect Ejemplos.bd_vacia) = (Ok (0, 0), connect Ejemplos.bd_vacia).
Proof.
  apply (listado_sin_columna_de_comercio EjemplosExtra.listado_sin_comercio).
  intros columnas H. vm_compute in H. injection H as <-. vm_compute. reflexivity.
Defined.

Lemma dict_zip_lookup_ajeno columnas celdas (d : Csv.fila) k :
  k ∉ columnas -> Csv.dict_zip columnas celdas d !! k = d !! k.
Proof.
  revert celdas d. induction columnas as [|col columnas IH]; intros celdas d Hk.
  - destruct celdas; reflexivity.
  - destruct celdas as [|v celdas]; [reflexivity|]. cbn [Csv.dict_zip].
    rewrite IH by (intros Hin; apply Hk; by apply list_elem_of_further).
    apply lookup_insert_ne. intros ->. apply Hk, list_elem_of_here.
Qed.

(** The keys of a row of the reader are column names of the header. *)
Lemma fila_de_lookup_ajeno columnas celdas k :
  k ∉ columnas -> Csv.fila_de columnas celdas !! k = None.
Proof.
  intros Hk. unfold Csv.fila_de.
  assert (forall (l : list string) (d : Csv.fila),
            k ∉ l -> foldl (fun d k' => <[k' := None]> d) d l !! k = d !! k) as Hf.
  { induction l as [|x l IH]; intros d Hl; [reflexivity|].
    cbn [foldl]. rewrite IH by (intros Hin; apply Hl; by apply list_elem_of_further).
    apply lookup_insert_ne. intros ->. apply Hl, list_elem_of_here. }
  rewrite Hf.
  - rewrite dict_zip_lookup_ajeno by exact Hk. apply lookup_empty.
  - intros Hin. apply Hk. exact (subseteq_drop _ _ _ Hin).
Qed.

Lemma registro_de_fila_sin_id f :
  f !! "id_comercio" = None -> registro_de_fila f = None.
Proof.
  intros H. unfold registro_de_fila, Csv.get. rewrite H. reflexivity.
Qed.

(** A metadata file whose header has no column named exactly
    [id_comercio]: the merchant upserter takes that literal name, with no
    allowance for case or spaces, so every row is skipped, nothing is
    written to the registry and 0 is returned. *)
Theorem metadatos_sin_columna_exacta columnas resto c :
  "id_comercio" ∉ columnas ->
  registros_de_archivo (Csv.Legible (columnas :: resto)) = []
  /\ importar_comercios_desde_csv (Csv.Legible (columnas :: resto)) c
     = (Ok 0, (commit c).2).
Proof.
  intros Hk.
  assert (registros_de (Csv.filas (columnas :: resto)) = []) as Hr.
  { cbn [Csv.filas]. generalize (filter (fun r : list string => r ≠ []) resto).
    intros l. induction l as [|celdas l IH]; [reflexivity|].
    rewrite fmap_cons, registros_de_cons.
    rewrite registro_de_fila_sin_id by (apply fila_de_lookup_ajeno, Hk).
    exact IH. }
  split; [exact Hr|].
  unfold importar_comercios_desde_csv, try_except, bind.
  rewrite bucle_comercios_sin_registros by exact Hr. reflexivity.
Qed.

Lemma metadatos_sin_columna_exacta_witness :
  registros_de_archivo
    (Csv.Legible (EjemplosExtra.cabecera_mayusculas
                  :: EjemplosExtra.metadatos_mayusculas)) = []
  /\ importar_comercios_desde_csv
       (Csv.Legible (EjemplosExtra.cabecera_mayusculas
                     :: EjemplosExtra.metadatos_mayusculas))
       (connect Ejemplos.bd_vacia)
     = (Ok 0, (commit (connect Ejemplos.bd_vacia)).2).
Proof.
  apply (metadatos_sin_columna_exacta EjemplosExtra.cabecera_mayusculas
           EjemplosExtra.metadatos_mayusculas).
  vm_compute. intros H. repeat (inversion H as [|? ? ? H']; clear H; rename H' into H).
Defined.

(** The listing validator does find that column. *)
Example listado_con_cabecera_mayusculas :
  buscar_id_comercio_key EjemplosExtra.cabecera_mayusculas = Some "ID_COMERCIO".
Proof. vm_compute. reflexivity. Qed.

(** ** What the phases keep *)

Section Conserva.
Context {A B : Type} (I : conexion -> Prop).

Lemma conserva_ret (a : A) : conserva I (ret a).
Proof. intros c r c' Hc [= _ <-]. exact Hc. Qed.

Lemma conserva_raise e : conserva I (@raise A e).
Proof. intros c r c' Hc [= _ <-]. exact Hc. Qed.

Lemma conserva_bind (m : accion A) (k : A -> accion B) :
  conserva I m -> (forall a, conserva I (k a)) -> conserva I (bind m k).
Proof.
  intros Hm Hk c r c' Hc. unfold bind.
  destruct (m c) as [[a|e] c1] eqn:E.
  - apply Hk. eapply Hm; eassumption.
  - intros [= _ <-]. eapply Hm; eassumption.
Qed.

Lemma conserva_try (m : accion A) (h : excepcion -> accion A) :
  conserva I m -> (forall e, conserva I (h e)) -> conserva I (try_except m h).
Proof.
  intros Hm Hh c r c' Hc. unfold try_except.
  destruct (m c) as [[a|e] c1] eqn:E.
  - intros [= _ <-]. eapply Hm; eassumption.
  - apply Hh. eapply Hm; eassumption.
Qed.

End Conserva.

Lemma registro_sano_commit : conserva registro_sano commit.
Proof.
  intros c r c' (H1 & H2 & H3 & H4) [= _ <-].
  destruct (abortada c); repeat split; assumption.
Qed.

Lemma registro_sano_rollback : conserva registro_sano rollback.
Proof.
  intros c r c' (H1 & H2 & H3 & H4) [= _ <-]. repeat split; assumption.
Qed.

Lemma registro_sano_execute (q : sentencia) :
  (forall t s t' s' n, q t s = Ok (t', s', n) ->
     registro_valido (comercios t) -> registro_valido (comercios t')) ->
  conserva registro_sano (execute q).
Proof.
  intros Hq c r c' (H1 & H2 & H3 & H4). unfold execute.
  destruct (abortada c); [intros [= _ <-]; repeat split; assumption|].
  destruct (q (actual c) (productos_id_seq c)) as [[[t s] n]|e] eqn:E;
    intros [= _ <-]; [|repeat split; assumption].
  destruct (Hq _ _ _ _ _ E (conj H1 H2)) as [H1' H2'].
  repeat split; assumption.
Qed.

(** A statement that leaves the registry alone. *)
Lemma registro_sano_execute_ajeno (q : sentencia) :
  (forall t s t' s' n, q t s = Ok (t', s', n) -> comercios t' = comercios t) ->
  conserva registro_sano (execute q).
Proof.
  intros Hq. apply registro_sano_execute.
  intros t s t' s' n E. by rewrite (Hq _ _ _ _ _ E).
Qed.

Lemma registro_de_fila_permitido f r :
  registro_de_fila f = Some r -> permitido (c_id_comercio r) = true.
Proof.
  unfold registro_de_fila.
  destruct (_ || _); [discriminate|].
  destruct (Py.int (default EmptyString (Csv.get f "id_comercio"))) as [n|];
    simpl; [|discriminate].
  destruct (permitido n) eqn:Hp; simpl; [|discriminate].
  match goal with
  | |- context [mbind _ ?o] => destruct o as [m|]; simpl; [|discriminate]
  end.
  intros [= <-]. exact Hp.
Qed.

Lemma upsert_permitido r t :
  permitido (c_id_comercio r) = true ->
  registro_permitido t -> registro_permitido (upsert r t).
Proof.
  intros Hr. unfold registro_permitido.
  induction t as [|x t IH]; intros Ht; cbn [upsert].
  - by apply Forall_singleton.
  - apply Forall_cons in Ht as [Hx Ht]. case_bool_decide.
    + apply Forall_cons. auto.
    + apply Forall_cons. auto.
Qed.

Lemma registro_sano_insert r :
  permitido (c_id_comercio r) = true ->
  conserva registro_sano (execute (insert_comercio r)).
Proof.
  intros Hr. apply registro_sano_execute.
  intros t s t' s' n. unfold insert_comercio.
  destruct (_ && _); [|discriminate]. intros [= <- _ _] [Hpk Hp].
  split; [apply upsert_clave_primaria, Hpk|apply upsert_permitido; assumption].
Qed.

Lemma registro_sano_bucle filas contador :
  conserva registro_sano (bucle_comercios filas contador).
Proof.
  revert contador. induction filas as [|f filas IH]; intros contador.
  - apply conserva_ret.
  - cbn [bucle_comercios].
    destruct (registro_de_fila f) as [r|] eqn:Hr; [|apply IH].
    apply conserva_bind; [|intros _; apply IH].
    eapply registro_sano_insert, registro_de_fila_permitido, Hr.
Qed.

Lemma registro_sano_importar_comercios ruta_csv :
  conserva registro_sano (importar_comercios_desde_csv ruta_csv).
Proof.
  unfold importar_comercios_desde_csv.
  apply conserva_try; [|intros e; apply conserva_ret].
  destruct ruta_csv as [leidos|registros].
  { apply conserva_bind; [apply registro_sano_bucle|]. intros n.
    apply conserva_raise. }
  apply conserva_bind; [apply registro_sano_bucle|]. intros n.
  apply conserva_bind; [apply registro_sano_commit|]. intros _. apply conserva_ret.
Qed.

Lemma registro_sano_fase2 zips : conserva registro_sano (fase2 zips).
Proof.
  induction zips as [|z zips IH]; [apply conserva_ret|].
  cbn [fase2]. apply conserva_bind; [|intros _; exact IH].
  unfold fase2_zip. destruct (zip_de z) as [extraido|]; [|apply conserva_ret].
  destruct (comercio_csv extraido); [|apply conserva_ret].
  apply conserva_bind; [apply registro_sano_importar_comercios|].
  intros _. apply conserva_ret.
Qed.

Lemma registro_sano_importar_productos ruta_csv :
  conserva registro_sano (importar_productos_desde_csv ruta_csv).
Proof.
  unfold importar_productos_desde_csv. apply conserva_try.
  - destruct (preparar_csv_para_copy ruta_csv) as [p|e]; [|apply conserva_raise].
    destruct (filas_validas p =? 0); [apply conserva_ret|].
    apply conserva_bind.
    + apply registro_sano_execute_ajeno. intros t s t' s' n. unfold copy_staging.
      destruct (mapM a_staging (escrito p)); [|discriminate].
      intros [= <- _ _]. reflexivity.
    + intros _. apply conserva_bind; [apply registro_sano_commit|].
      intros _. apply conserva_ret.
  - intros e. apply conserva_bind; [apply registro_sano_rollback|].
    intros _. apply conserva_ret.
Qed.

Lemma registro_sano_fase3 zips t : conserva registro_sano (fase3 zips t).
Proof.
  revert t. induction zips as [|z zips IH]; intros t; [apply conserva_ret|].
  cbn [fase3]. apply conserva_bind; [|intros t'; apply IH].
  unfold fase3_zip. destruct (zip_de z) as [extraido|]; [|apply conserva_ret].
  destruct (productos_csv extraido); [|apply conserva_ret].
  apply conserva_bind; [apply registro_sano_importar_productos|].
  intros r. apply conserva_ret.
Qed.

Lemma registro_sano_contar : conserva registro_sano contar.
Proof.
  intros c r c' Hc. unfold contar. destruct (abortada c); intros [= _ <-]; exact Hc.
Qed.

Lemma registro_sano_resto ruta_zip zips :
  conserva registro_sano (bind (fases_2_3 zips) (fases_4_5 ruta_zip)).
Proof.
  apply conserva_bind.
  - unfold fases_2_3.
    apply conserva_bind; [apply registro_sano_fase2|]. intros _.
    apply conserva_bind; [apply registro_sano_commit|]. intros _.
    apply registro_sano_fase3.
  - intros t. unfold fases_4_5.
    apply conserva_bind.
    { unfold mover_datos_staging_a_final.
      repeat (apply conserva_bind;
              [first [ apply registro_sano_commit
                     | apply registro_sano_execute_ajeno;
                       intros ? ? ? ? ? [= <- _ _]; reflexivity ]
              | intros ?]).
      apply conserva_ret. }
    intros _. apply conserva_bind.
    { unfold crear_indices_productos.
      repeat (apply conserva_bind;
              [apply registro_sano_execute_ajeno;
               intros ? ? ? ? ? [= <- _ _]; reflexivity
              | intros ?]).
      apply registro_sano_commit. }
    intros _. apply conserva_bind.
    { unfold borrar_temporales.
      destruct (hay_carpeta_fecha ruta_zip); [apply conserva_ret|apply conserva_raise]. }
    intros _. apply conserva_bind; [apply registro_sano_contar|].
    intros n. apply conserva_ret.
Qed.

Lemma registro_sano_tras_fase1 bd : registro_sano (tras_fase1 bd).
Proof.
  repeat split; first [apply NoDup_nil_2 | apply Forall_nil_2].
Qed.

(** After a run that finds the archive and the server, the committed
    registry has one row per (merchant, variant) and only rows of allowed
    merchants, whatever it held before. *)
Theorem registro_tras_la_corrida e bd ruta_zip :
  (match ruta_zip_principal e with
   | Some z => Some z
   | None => ruta_alternativa e
   end) = Some ruta_zip ->
  servidor_disponible e = true ->
  registro_valido (comercios (almacenado (bd_de (procesar_zip_sepa e bd)))).
Proof.
  intros Hruta Hserv. unfold procesar_zip_sepa. rewrite Hruta, Hserv.
  rewrite importar_connect.
  destruct (descomprimir_zip_principal ruta_zip) as [carpeta_fecha|].
  - destruct (bind (fases_2_3 (zips_comercios carpeta_fecha)) (fases_4_5 ruta_zip)
                (tras_fase1 bd)) as [r cf] eqn:E.
    pose proof (registro_sano_resto _ _ _ _ _ (registro_sano_tras_fase1 bd) E)
      as (_ & _ & H3 & H4).
    destruct r; cbn [bd_de close almacenado]; split; assumption.
  - split; [apply NoDup_nil_2|apply Forall_nil_2].
Qed.

Lemma registro_tras_la_corrida_witness :
  registro_valido
    (comercios (almacenado
       (bd_de (procesar_zip_sepa Ejemplos.entorno_ejemplo Ejemplos.bd_vacia)))).
Proof.
  apply (registro_tras_la_corrida Ejemplos.entorno_ejemplo Ejemplos.bd_vacia
           (Some [Carpeta "2024-01-04" Ejemplos.carpeta_fecha])); reflexivity.
Defined.

(** ** What the run reports *)

Lemma importar_productos_cuenta ruta_csv c r c' :
  limpia c ->
  importar_productos_desde_csv ruta_csv c = (Ok r, c') ->
  r.1 = Z.of_nat (length (filas_cargadas ruta_csv)).
Proof.
  intros [Ha Hc].
  unfold importar_productos_desde_csv, try_except, filas_cargadas.
  destruct (preparar_csv_para_copy ruta_csv) as [p|e] eqn:Hp.
  - destruct (preparar_cuenta_exacta _ _ Hp) as [_ Hv].
    destruct (filas_validas p =? 0) eqn:H0.
    + apply Z.eqb_eq in H0. rewrite H0 in Hv.
      destruct (escrito p) as [|x l]; [|cbn [length] in Hv; lia].
      unfold ret. intros [= <- _]. reflexivity.
    + unfold bind at 1. unfold execute at 1. rewrite Ha. unfold copy_staging.
      destruct (mapM a_staging (escrito p)) as [fs|] eqn:Hm.
      * unfold bind, commit, ret. cbn [abortada]. intros [= <- _].
        cbn [fst default from_option].
        apply length_mapM in Hm. unfold Datatypes.id. rewrite <- Hm. exact Hv.
      * unfold bind, rollback, ret. intros [= <- _]. reflexivity.
  - unfold raise, bind, rollback, ret. intros [= <- _]. reflexivity.
Qed.

Lemma fase3_zip_totales z t c :
  limpia c ->
  exists t1,
    fase3_zip z t c
    = (Ok t1, con_staging c (productos_staging (actual c) ++ filas_de_zip z))
    /\ total_productos t1 = total_productos t + Z.of_nat (length (filas_de_zip z))
    /\ total_comercios t <= total_comercios t1 <= total_comercios t + 1.
Proof.
  intros Hl. unfold fase3_zip, filas_de_zip.
  destruct (zip_de z) as [extraido|].
  - destruct (productos_csv extraido) as [ruta|].
    + destruct (importar_productos_limpia ruta c Hl) as [r Hr].
      pose proof (importar_productos_cuenta _ _ _ _ Hl Hr) as Hn.
      eexists. unfold bind. rewrite Hr. split; [reflexivity|].
      cbn [total_productos total_comercios]. rewrite Hn.
      split; [reflexivity|lia].
    + exists t. unfold ret.
      rewrite app_nil_r, con_staging_id by exact Hl.
      split; [reflexivity|]. cbn [length]. lia.
  - exists t. unfold ret.
    rewrite app_nil_r, con_staging_id by exact Hl.
    split; [reflexivity|]. cbn [length]. lia.
Qed.

Lemma fase3_totales zips t c t' c' :
  limpia c ->
  fase3 zips t c = (Ok t', c') ->
  total_productos t' = total_productos t + Z.of_nat (length (carga_de zips))
  /\ total_comercios t <= total_comercios t'
     <= total_comercios t + Z.of_nat (length zips).
Proof.
  revert t c. induction zips as [|z zips IH]; intros t c Hl H.
  - injection H as <- _. unfold carga_de. cbn [fmap list_fmap concat length]. lia.
  - cbn [fase3] in H. unfold bind at 1 in H.
    destruct (fase3_zip_totales z t c Hl) as (t1 & H1 & Hp & Hc).
    rewrite H1 in H.
    destruct (IH _ _ (con_staging_limpia c _) H) as [Hp' Hc'].
    unfold carga_de in *. rewrite fmap_cons. cbn [concat].
    rewrite length_app. cbn [length]. lia.
Qed.

(** The number of products reported for phase 3 is the number of rows in
    staging when compaction starts, and the number of archives reported
    as processed is at most the number of archives selected. *)
Theorem total_productos_es_lo_cargado zips bd t c3 :
  bind fase1 (fun _ => fases_2_3 zips) (connect bd) = (Ok t, c3) ->
  total_productos t = Z.of_nat (length (productos_staging (actual c3)))
  /\ 0 <= total_comercios t <= Z.of_nat (length zips).
Proof.
  intros H. unfold bind at 1 in H. rewrite fase1_connect in H.
  unfold fases_2_3 in H.
  assert (marco ([], [], indices (almacenado bd)) (secuencia bd) (tras_fase1 bd))
    as Hm by (repeat split).
  destruct (fase2_marco _ _ zips _ Hm) as (c2 & H2 & Hm2).
  unfold bind at 1 in H. rewrite H2 in H. unfold bind at 1 in H.
  pose proof (commit_marco _ _ _ Hm2) as (Ha & _ & _).
  destruct (commit c2) as [r c2'] eqn:Hc.
  assert (r = Ok tt /\ limpia c2') as [-> Hl].
  { unfold commit in Hc. injection Hc as <- <-. split; [reflexivity|]. split; reflexivity. }
  cbn [snd] in Ha. unfold sin_comercios in Ha. injection Ha as _ Hst _.
  destruct (fase3_limpia zips
              {| total_productos := 0; total_errores := 0; total_comercios := 0 |}
              c2' Hl) as [t' Ht'].
  rewrite Ht' in H. injection H as -> <-.
  destruct (fase3_totales _ _ _ _ _ Hl Ht') as [Hp Hcm].
  cbn [total_productos total_comercios] in Hp, Hcm.
  cbn [con_staging actual productos_staging]. rewrite Hst, app_nil_l.
  split; [exact Hp|lia].
Qed.

Lemma total_productos_es_lo_cargado_witness :
  total_productos Ejemplos.totales_ejemplo
  = Z.of_nat (length (productos_staging (actual Ejemplos.antes_de_compactar.2)))
  /\ 0 <= total_comercios Ejemplos.totales_ejemplo
       <= Z.of_nat (length (zips_comercios Ejemplos.carpeta_fecha)).
Proof.
  apply (total_productos_es_lo_cargado (zips_comercios Ejemplos.carpeta_fecha)
           Ejemplos.bd_vacia).
  vm_compute. reflexivity.
Defined.

(** The closing summary tells the truth about the database: the numbers
    of products and of merchants it prints are the numbers of rows of the
    two tables as committed when the run ends. *)
Theorem resumen_cuenta_lo_confirmado e bd impreso bd' r :
  procesar_zip_sepa e bd = Retorna impreso bd' ->
  Importacion_completada r ∈ impreso ->
  productos_totales r = Z.of_nat (length (productos (almacenado bd')))
  /\ comercios_unicos r = Z.of_nat (length (comercios (almacenado bd'))).
Proof.
  unfold procesar_zip_sepa.
  destruct (match ruta_zip_principal e with
            | Some z => Some z
            | None => ruta_alternativa e
            end) as [ruta_zip|].
  2:{ intros [= <- _] Hin. apply list_elem_of_singleton in Hin. discriminate. }
  destruct (servidor_disponible e); [|discriminate].
  rewrite importar_connect.
  destruct (descomprimir_zip_principal ruta_zip) as [carpeta_fecha|].
  - destruct (fases_2_3_tras_fase1 (zips_comercios carpeta_fecha) bd)
      as (t & c3 & H & [Ha _] & _).
    unfold bind. rewrite H.
    destruct (fases_4_5_no_abortada ruta_zip t c3 Ha)
      as (r0 & cf & -> & Hc & _ & _ & _ & ->).
    destruct (hay_carpeta_fecha ruta_zip); [|discriminate].
    intros [= <- <-] Hin. cbn [close almacenado]. rewrite Hc.
    repeat (apply elem_of_cons in Hin as [Hin|Hin]; [try discriminate|]).
    + injection Hin as ->. split; reflexivity.
    + by apply elem_of_nil in Hin.
  - intros [= <- _] Hin.
    repeat (apply elem_of_cons in Hin as [Hin|Hin]; [discriminate|]).
    by apply elem_of_nil in Hin.
Qed.

Lemma resumen_cuenta_lo_confirmado_witness :
  productos_totales
    {| zips_procesados := 1; comercios_unicos := 2;
       productos_totales := 2; errores_totales := 7 |}
  = Z.of_nat (length (productos (almacenado
      (bd_de (procesar_zip_sepa Ejemplos.entorno_ejemplo Ejemplos.bd_vacia)))))
  /\ comercios_unicos
       {| zips_procesados := 1; comercios_unicos := 2;
          productos_totales := 2; errores_totales := 7 |}
     = Z.of_nat (length (comercios (almacenado
         (bd_de (procesar_zip_sepa Ejemplos.entorno_ejemplo Ejemplos.bd_vacia))))).
Proof.
  apply (resumen_cuenta_lo_confirmado Ejemplos.entorno_ejemplo Ejemplos.bd_vacia
           [FASE_1; FASE_2; FASE_3; FASE_4; FASE_5;
            Importacion_completada
              {| zips_procesados := 1; comercios_unicos := 2;
                 productos_totales := 2; errores_totales := 7 |}]).
  - vm_compute. reflexivity.
  - repeat constructor.
Defined.

(** ** An archive without a dated folder *)





(** ** The exit status of the script *)


(** When the download failed, or the downloaded file is missing, or the
    connection cannot be opened, [main] ends with status 1 and the
    database is as it was. *)
Theorem main_fallo_sin_tocar_la_bd descarga e bd :
  descarga = false \/ ruta_zip_principal e = None
  \/ servidor_disponible e = false ->
  exit_status (main descarga e bd) = 1
  /\ bd_final (main descarga e bd) = bd.
Proof.
  intros H. unfold main. destruct descarga; cbn [negb]; [|by split].
  destruct (ruta_zip_principal e) as [z|] eqn:Hz; [|by split].
  destruct H as [H|[H|Hs]]; [discriminate..|].
  unfold procesar_zip_sepa. rewrite Hz, Hs. by split.
Qed.

Lemma main_fallo_sin_tocar_la_bd_witness :
  exit_status (main true {| servidor_disponible := false;
                            ruta_zip_principal := Some None;
                            ruta_alternativa := None |} Ejemplos.bd_vacia) = 1
  /\ bd_final (main true {| servidor_disponible := false;
                            ruta_zip_principal := Some None;
                            ruta_alternativa := None |} Ejemplos.bd_vacia)
     = Ejemplos.bd_vacia.
Proof.
  apply (main_fallo_sin_tocar_la_bd true
           {| servidor_disponible := false; ruta_zip_principal := Some None;
              ruta_alternativa := None |} Ejemplos.bd_vacia).
  right. right. reflexivity.
Defined.

(** ** Trimmed fields *)

Section Strip.
Variable p : ascii -> bool.

Lemma append_cons a (x y : string) : String a x +:+ y = String a (x +:+ y).
Proof. reflexivity. Qed.

Lemma append_nil_l (x : string) : EmptyString +:+ x = x.
Proof. reflexivity. Qed.

Lemma append_assoc (x y z : string) : (x +:+ y) +:+ z = x +:+ (y +:+ z).
Proof.
  induction x as [|a x IH]; [reflexivity|]. rewrite !append_cons. by rewrite IH.
Qed.

Lemma append_nil_r (x : string) : x +:+ EmptyString = x.
Proof.
  induction x as [|a x IH]; [reflexivity|]. rewrite append_cons. by rewrite IH.
Qed.

Lemma rev_app_append s acc : String.rev_app s acc = String.rev s +:+ acc.
Proof.
  unfold String.rev. revert acc. induction s as [|a s IH]; intros acc; [reflexivity|].
  cbn [String.rev_app]. rewrite (IH (String a acc)), (IH (String a EmptyString)).
  rewrite append_assoc. reflexivity.
Qed.

Lemma rev_append x y : String.rev (x +:+ y) = String.rev y +:+ String.rev x.
Proof.
  induction x as [|a x IH].
  - rewrite append_nil_l. change (String.rev EmptyString) with EmptyString.
    by rewrite append_nil_r.
  - rewrite append_cons. unfold String.rev at 1 3. cbn [String.rev_app].
    rewrite !rev_app_append, IH, append_assoc. reflexivity.
Qed.

Lemma rev_rev s : String.rev (String.rev s) = s.
Proof.
  induction s as [|a s IH]; [reflexivity|].
  unfold String.rev at 2. cbn [String.rev_app].
  rewrite rev_app_append, rev_append, IH. reflexivity.
Qed.

Lemma lstrip_con_idem s : Py.lstrip_con p (Py.lstrip_con p s) = Py.lstrip_con p s.
Proof.
  induction s as [|c s IH]; [reflexivity|]. cbn [Py.lstrip_con].
  destruct (p c) eqn:Hc; [exact IH|]. cbn [Py.lstrip_con]. by rewrite Hc.
Qed.

Lemma lstrip_con_length s :
  (String.length (Py.lstrip_con p s) <= String.length s)%nat.
Proof.
  induction s as [|c s IH]; [reflexivity|]. cbn [Py.lstrip_con].
  destruct (p c); cbn [String.length]; lia.
Qed.

Lemma lstrip_con_cabeza c w :
  Py.lstrip_con p (String c w) = String c w -> p c = false.
Proof.
  cbn [Py.lstrip_con]. destruct (p c); [|reflexivity].
  intros H. pose proof (lstrip_con_length w) as Hl. rewrite H in Hl.
  cbn [String.length] in Hl. lia.
Qed.

Lemma lstrip_con_prefijo s : exists pre, s = pre +:+ Py.lstrip_con p s.
Proof.
  induction s as [|c s [pre IH]]; [by exists EmptyString|].
  cbn [Py.lstrip_con]. destruct (p c).
  - exists (String c pre). rewrite append_cons. by rewrite <- IH.
  - by exists EmptyString.
Qed.

(** What [lstrip] leaves at the end of a text that has no blank in front
    has no blank at its end either. *)
Lemma lstrip_con_rev t :
  Py.lstrip_con p t = t ->
  Py.lstrip_con p (String.rev (Py.lstrip_con p (String.rev t)))
  = String.rev (Py.lstrip_con p (String.rev t)).
Proof.
  intros Ht. destruct (lstrip_con_prefijo (String.rev t)) as [pre Hpre].
  apply (f_equal String.rev) in Hpre. rewrite rev_rev, rev_append in Hpre.
  destruct (String.rev (Py.lstrip_con p (String.rev t))) as [|c w]; [reflexivity|].
  rewrite append_cons in Hpre. rewrite Hpre in Ht. apply lstrip_con_cabeza in Ht.
  cbn [Py.lstrip_con]. by rewrite Ht.
Qed.

Lemma strip_con_idem s : Py.strip_con p (Py.strip_con p s) = Py.strip_con p s.
Proof.
  unfold Py.strip_con.
  rewrite (lstrip_con_rev (Py.lstrip_con p s)) by apply lstrip_con_idem.
  rewrite rev_rev, lstrip_con_idem. reflexivity.
Qed.

End Strip.

Lemma texto_recortado f col :
  Spec.texto f col ≠ EmptyString -> recortado (Spec.texto f col).
Proof.
  intros H. split; [exact H|]. unfold Spec.texto, Py.strip. apply strip_con_idem.
Qed.

Lemma validar_recortada key f r :
  validar key f = Valida r ->
  recortado (l_id_producto r) /\ recortado (l_descripcion r)
  /\ (l_marca r ≠ EmptyString -> recortado (l_marca r)).
Proof.
  rewrite validar_segun_texto.
  destruct (decide (Spec.texto f "id_producto" = EmptyString)) as [H1|H1];
    [by rewrite (bool_decide_eq_true_2 _ H1)|rewrite (bool_decide_eq_false_2 _ H1)].
  destruct (bool_decide (Spec.texto f key = EmptyString)); [discriminate|].
  destruct (Py.int (Spec.texto f key)) as [n|]; [|discriminate].
  destruct (negb (permitido n)); [discriminate|].
  destruct (bool_decide (Spec.texto f "id_bandera" = EmptyString)); [discriminate|].
  destruct (Py.int (Spec.texto f "id_bandera")) as [b|]; [|discriminate].
  destruct (bool_decide (Spec.texto f "productos_precio_lista" = EmptyString));
    [discriminate|].
  destruct (Py.float (Spec.texto f "productos_precio_lista")) as [x|]; [|discriminate].
  destruct (decide (Spec.texto f "productos_descripcion" = EmptyString)) as [H2|H2];
    [by rewrite (bool_decide_eq_true_2 _ H2)|rewrite (bool_decide_eq_false_2 _ H2)].
  intros [= <-]. cbn [l_id_producto l_descripcion l_marca].
  auto using texto_recortado.
Qed.

Lemma a_staging_recortada r s :
  recortado (l_id_producto r) /\ recortado (l_descripcion r)
  /\ (l_marca r ≠ EmptyString -> recortado (l_marca r)) ->
  a_staging r = Some s -> fila_recortada s.
Proof.
  intros (H1 & H2 & H3). unfold a_staging. destruct (_ && _); [|discriminate].
  destruct (a_numeric (l_precio_lista r)); cbn; [|discriminate].
  intros [= <-]. unfold fila_recortada.
  cbn [id_producto productos_descripcion productos_marca].
  split; [exact H1|]. split; [exact H2|].
  intros m. destruct (decide (l_marca r = EmptyString)) as [He|He].
  - rewrite (bool_decide_eq_true_2 _ He). discriminate.
  - rewrite (bool_decide_eq_false_2 _ He). intros [= <-]. exact (H3 He).
Qed.

Lemma escrito_recortado ruta_csv q :
  preparar_csv_para_copy ruta_csv = Ok q ->
  Forall (fun r => recortado (l_id_producto r) /\ recortado (l_descripcion r)
                   /\ (l_marca r ≠ EmptyString -> recortado (l_marca r)))
         (escrito q).
Proof.
  set (P := fun r => recortado (l_id_producto r) /\ recortado (l_descripcion r)
                     /\ (l_marca r ≠ EmptyString -> recortado (l_marca r))).
  assert (forall key filas p0,
            Forall P (escrito p0) ->
            Forall P (escrito (foldl (paso_preparar key) p0 filas))) as Hbucle.
  { intros key filas. induction filas as [|f filas IH]; intros p0 H0; [exact H0|].
    cbn [foldl]. apply IH. unfold paso_preparar.
    destruct (validar key f) as [motivo|r] eqn:Hv; cbn [escrito]; [exact H0|].
    apply Forall_app. split; [exact H0|].
    apply Forall_singleton. eapply validar_recortada, Hv. }
  unfold preparar_csv_para_copy. destruct ruta_csv as [leidos|registros]; [discriminate|].
  destruct (Csv.fieldnames registros) as [[|c cs]|];
    try (intros [= <-]; apply Forall_nil_2).
  destruct (buscar_id_comercio_key (c :: cs)); intros [= <-];
    [apply Hbucle|]; apply Forall_nil_2.
Qed.

Lemma filas_cargadas_recortadas ruta_csv s :
  s ∈ filas_cargadas ruta_csv -> fila_recortada s.
Proof.
  unfold filas_cargadas.
  destruct (preparar_csv_para_copy ruta_csv) as [q|] eqn:Hq;
    [|intros H; by apply elem_of_nil in H].
  pose proof (escrito_recortado _ _ Hq) as Hrec.
  destruct (mapM a_staging (escrito q)) as [fs|] eqn:Hm; cbn [default from_option];
    [|intros H; by apply elem_of_nil in H].
  apply mapM_Some in Hm. revert s.
  apply Forall_forall.
  induction Hm as [|r s0 l fs0 Hrs Hm IH]; [apply Forall_nil_2|].
  apply Forall_cons in Hrec as [Hr Hrec].
  apply Forall_cons. split; [|apply IH, Hrec].
  eapply a_staging_recortada; [exact Hr|exact Hrs].
Qed.

Lemma carga_de_recortada zips s :
  s ∈ carga_de zips -> fila_recortada s.
Proof.
  unfold carga_de. rewrite list_elem_of_In, in_concat.
  intros (l & Hl & Hs). apply list_elem_of_In in Hl, Hs.
  apply list_elem_of_fmap in Hl as (z & -> & _).
  unfold filas_de_zip in Hs.
  destruct (zip_de z) as [extraido|]; [|by apply elem_of_nil in Hs].
  destruct (productos_csv extraido); [|by apply elem_of_nil in Hs].
  eapply filas_cargadas_recortadas, Hs.
Qed.

(** After a run, whatever the archive held, every row of the listing
    table has a product code and a description that are not empty and
    have no blank at either end, and a brand that is either NULL or
    trimmed and not empty. *)
Theorem productos_recortados e bd p :
  p ∈ productos (almacenado (bd_de (procesar_zip_sepa e bd))) ->
  (match ruta_zip_principal e with
   | Some z => Some z
   | None => ruta_alternativa e
   end) ≠ None ->
  servidor_disponible e = true ->
  fila_recortada (columnas p).
Proof.
  intros Hin Hruta Hserv.
  assert (columnas p
          ∈ columnas <$> productos (almacenado (bd_de (procesar_zip_sepa e bd))))
    as Hc by (apply list_elem_of_fmap; eauto).
  rewrite procesar_productos in Hc.
  destruct (match ruta_zip_principal e with
            | Some z => Some z
            | None => ruta_alternativa e
            end) as [ruta_zip|]; [|contradiction].
  rewrite Hserv in Hc.
  destruct (descomprimir_zip_principal ruta_zip) as [carpeta_fecha|];
    [|by apply elem_of_nil in Hc].
  apply distinct_on_incluido in Hc.
  unfold order_by in Hc. rewrite merge_sort_Permutation in Hc.
  eapply carga_de_recortada, Hc.
Qed.

Lemma productos_recortados_witness :
  Forall (fun p => fila_recortada (columnas p))
    (productos (almacenado
       (bd_de (procesar_zip_sepa Ejemplos.entorno_ejemplo Ejemplos.bd_vacia)))).
Proof.
  apply Forall_forall. intros p Hp.
  apply (productos_recortados Ejemplos.entorno_ejemplo Ejemplos.bd_vacia p Hp).
  - discriminate.
  - reflexivity.
Defined.

(** ** The archives of the dated folder *)

(** Of the entries of the folder, those whose name ends in [.zip] are
    each either opened or counted as skipped, never both, and the other
    entries are neither. *)
Theorem zips_se_abren_o_se_omiten carpeta_fecha :
  Z.of_nat (length (zips_comercios carpeta_fecha)) + zips_omitidos carpeta_fecha
  = Z.of_nat (length (terminan_en_zip carpeta_fecha))
  /\ (forall z, z ∈ zips_comercios carpeta_fecha ->
        z ∈ terminan_en_zip carpeta_fecha)
  /\ 0 <= zips_omitidos carpeta_fecha.
Proof.
  split; [|split].
  - unfold zips_comercios, zips_omitidos, terminan_en_zip.
    induction carpeta_fecha as [|z l IH]; [reflexivity|].
    cbn [List.filter].
    destruct (Py.endswith ".zip" (nombre_de z)) eqn:He;
      destruct (es_zip_permitido z) eqn:Hp; cbn [andb negb length];
      try (unfold es_zip_permitido in Hp; rewrite He in Hp; discriminate); lia.
  - intros z. unfold zips_comercios, terminan_en_zip.
    rewrite !list_elem_of_In, !filter_In. intros [H1 H2]. split; [exact H1|].
    unfold es_zip_permitido in H2. by apply andb_prop in H2 as [H2 _].
  - unfold zips_omitidos. lia.
Qed.

(** * The key check of the HTTP interface *)

Import Api.

Lemma split_no_vacio sep s : split sep s ≠ [].
Proof.
  destruct s as [|c s]; cbn [split]; [discriminate|].
  destruct (bool_decide (c = sep)); [discriminate|].
  destruct (split sep s); discriminate.
Qed.

Lemma split_sin_espacios w : sin_espacios w = true -> split " " w = [w].
Proof.
  induction w as [|c w IH]; [reflexivity|]. cbn [sin_espacios split].
  intros [Hc Hw]%andb_prop. destruct (bool_decide (c = " "%char)); [discriminate|].
  by rewrite (IH Hw).
Qed.

Lemma split_hasta_el_espacio w resto :
  sin_espacios w = true ->
  split " " (w +:+ String " " resto) = w :: split " " resto.
Proof.
  induction w as [|c w IH]; [reflexivity|]. cbn [sin_espacios].
  intros [Hc Hw]%andb_prop. rewrite append_cons. cbn [split].
  destruct (bool_decide (c = " "%char)); [discriminate|].
  by rewrite (IH Hw).
Qed.

Lemma split_piezas_sin_espacios s w :
  w ∈ split " " s -> sin_espacios w = true.
Proof.
  revert w. induction s as [|c s IH]; intros w; cbn [split].
  - intros ->%list_elem_of_singleton. reflexivity.
  - destruct (decide (c = " "%char)) as [Hc|Hc].
    + rewrite (bool_decide_eq_true_2 _ Hc).
      intros [->|H]%elem_of_cons; [reflexivity|by apply IH].
    + rewrite (bool_decide_eq_false_2 _ Hc).
      destruct (split " " s) as [|x xs].
      * intros ->%list_elem_of_singleton. cbn [sin_espacios].
        by rewrite (bool_decide_eq_false_2 _ Hc).
      * intros [->|H]%elem_of_cons.
        -- cbn [sin_espacios]. rewrite (bool_decide_eq_false_2 _ Hc).
           cbn [negb andb]. apply IH, list_elem_of_here.
        -- by apply IH, list_elem_of_further.
Qed.

Lemma startswith_append p s :
  startswith p s = true <-> exists resto, s = p +:+ resto.
Proof.
  unfold startswith. revert s. induction p as [|a p IH]; intros s.
  - split; [intros _; by exists s|]. intros _. by destruct s.
  - destruct s as [|b s]; cbn [String.prefix].
    + split; [discriminate|]. intros [resto H]. discriminate.
    + destruct (Ascii.ascii_dec a b) as [->|Hab].
      * rewrite IH. split; intros [resto H]; exists resto.
        -- rewrite append_cons. by rewrite H.
        -- rewrite append_cons in H. congruence.
      * split; [discriminate|]. intros [resto H].
        rewrite append_cons in H. congruence.
Qed.

Lemma startswith_Bearer h :
  startswith "Bearer " h = true -> exists resto, h = "Bearer " +:+ resto.
Proof. apply startswith_append. Qed.

Lemma startswith_Bearer_append resto : startswith "Bearer " ("Bearer " +:+ resto) = true.
Proof. apply startswith_append. by exists resto. Qed.

(** The token of a header that starts with the scheme: the text between
    the first space and the next one. *)
Lemma token_de_Bearer resto :
  exists token ws,
    split " " resto = token :: ws
    /\ token_de ("Bearer " +:+ resto) = Some token.
Proof.
  unfold token_de. rewrite startswith_Bearer_append.
  change ("Bearer " +:+ resto) with ("Bearer" +:+ String " " resto).
  rewrite split_hasta_el_espacio by reflexivity.
  destruct (split " " resto) as [|token ws] eqn:Hs; [by apply split_no_vacio in Hs|].
  by exists token, ws.
Qed.

(** The key check answers in one of three ways: 401 with the missing-token
    body, exactly when the header is absent or empty; 403 with the
    invalid-token body; or what the endpoint answers.  The 401 answer for
    a badly formed token is never given. *)
Theorem respuestas_de_la_verificacion {A} (clave auth_header : option string)
    (f : A * Z) :
  (requiere_api_key clave auth_header f = (No_se_proporciono_token, 401)
   \/ requiere_api_key clave auth_header f = (Token_invalido, 403)
   \/ requiere_api_key clave auth_header f = (Del_endpoint f.1, f.2))
  /\ (requiere_api_key clave auth_header f = (No_se_proporciono_token, 401)
      <-> Py.verdadero auth_header = false)
  /\ requiere_api_key clave auth_header f ≠ (Formato_de_token_invalido, 401).
Proof.
  unfold requiere_api_key.
  destruct (Py.verdadero auth_header) eqn:Hv; cbn [negb].
  2:{ split; [by left|]. split; [done|discriminate]. }
  assert (exists token, token_de (default EmptyString auth_header) = Some token)
    as [token ->].
  { destruct (startswith "Bearer " (default EmptyString auth_header)) eqn:Hs.
    - apply startswith_Bearer in Hs as [resto ->].
      destruct (token_de_Bearer resto) as (token & ws & _ & Ht). eauto.
    - unfold token_de. rewrite Hs. eauto. }
  destruct (bool_decide (Some token ≠ clave)).
  - split; [right; by left|]. split; [|discriminate]. split; discriminate.
  - split; [right; by right|]. split; [|discriminate]. split; discriminate.
Qed.

(** The configured key after the scheme opens the endpoint, also when
    more text follows it after a space; the key must have no space. *)
Theorem bearer_con_la_clave {A} (k cola : string) (f : A * Z) :
  sin_espacios k = true ->
  cola = EmptyString \/ (exists r, cola = String " " r) ->
  requiere_api_key (Some k) (Some ("Bearer " +:+ k +:+ cola)) f
  = (Del_endpoint f.1, f.2).
Proof.
  intros Hk Hcola. unfold requiere_api_key.
  change (Py.verdadero (Some ("Bearer " +:+ k +:+ cola))) with true.
  cbn [negb default from_option Datatypes.id].
  destruct (token_de_Bearer (k +:+ cola)) as (token & ws & Hs & ->).
  assert (token = k) as ->.
  { destruct Hcola as [->|[r ->]].
    - rewrite append_nil_r, (split_sin_espacios _ Hk) in Hs. congruence.
    - rewrite (split_hasta_el_espacio _ _ Hk) in Hs. congruence. }
  rewrite bool_decide_eq_false_2 by (intros H; by apply H). reflexivity.
Qed.

Lemma bearer_con_la_clave_witness :
  requiere_api_key (Some "s3cr3t") (Some ("Bearer " +:+ "s3cr3t" +:+ " y algo mas"))
    ("ok", 200)
  = (Del_endpoint "ok", 200).
Proof.
  apply (bearer_con_la_clave "s3cr3t" " y algo mas" ("ok", 200)).
  - reflexivity.
  - right. by exists "y algo mas".
Defined.

(** The configured key sent alone, without the scheme, opens the
    endpoint as well. *)
Theorem clave_sin_esquema {A} (k : string) (f : A * Z) :
  k ≠ EmptyString ->
  startswith "Bearer " k = false ->
  requiere_api_key (Some k) (Some k) f = (Del_endpoint f.1, f.2).
Proof.
  intros Hk Hs. unfold requiere_api_key, Py.verdadero, token_de.
  rewrite (bool_decide_eq_false_2 _ Hk). cbn [negb default from_option Datatypes.id].
  rewrite Hs. rewrite bool_decide_eq_false_2 by (intros H; by apply H).
  reflexivity.
Qed.

Lemma clave_sin_esquema_witness :
  requiere_api_key (Some "s3cr3t") (Some "s3cr3t") ("ok", 200)
  = (Del_endpoint "ok", 200).
Proof.
  apply (clave_sin_esquema "s3cr3t" ("ok", 200)).
  - discriminate.
  - reflexivity.
Defined.

(** A configured key that contains a space cannot be presented with the
    scheme: every header that starts with it is answered with 403. *)
Theorem clave_con_espacio_no_sirve {A} (k resto : string) (f : A * Z) :
  sin_espacios k = false ->
  requiere_api_key (Some k) (Some ("Bearer " +:+ resto)) f = (Token_invalido, 403).
Proof.
  intros Hk. unfold requiere_api_key.
  change (Py.verdadero (Some ("Bearer " +:+ resto))) with true.
  cbn [negb default from_option Datatypes.id].
  destruct (token_de_Bearer resto) as (token & ws & Hs & ->).
  assert (sin_espacios token = true) as Ht
    by (apply (split_piezas_sin_espacios resto); rewrite Hs; apply list_elem_of_here).
  rewrite bool_decide_eq_true_2; [reflexivity|].
  intros [= ->]. congruence.
Qed.

Lemma clave_con_espacio_no_sirve_witness :
  requiere_api_key (Some "dos palabras") (Some ("Bearer " +:+ "dos palabras"))
    ("ok", 200)
  = (Token_invalido, 403).
Proof.
  apply (clave_con_espacio_no_sirve "dos palabras" "dos palabras" ("ok", 200)).
  reflexivity.
Defined.

(** When the environment variable of the key is unset or empty, no
    request reaches the endpoint: every one is answered 401 or 403. *)
Theorem sin_clave_nadie_entra {A} (api_key_raw auth_header : option string)
    (f : A * Z) :
  Py.verdadero api_key_raw = false ->
  requiere_api_key (API_KEY api_key_raw) auth_header f
    = (No_se_proporciono_token, 401)
  \/ requiere_api_key (API_KEY api_key_raw) auth_header f = (Token_invalido, 403).
Proof.
  intros Hr. unfold API_KEY. rewrite Hr. unfold requiere_api_key.
  destruct (Py.verdadero auth_header); cbn [negb]; [|by left].
  destruct (token_de (default EmptyString auth_header)) as [token|] eqn:Ht.
  - right. rewrite bool_decide_eq_true_2 by discriminate. reflexivity.
  - exfalso. unfold token_de in Ht.
    destruct (startswith "Bearer " (default EmptyString auth_header)) eqn:Hs;
      [|discriminate].
    apply startswith_Bearer in Hs as [resto Hresto].
    destruct (token_de_Bearer resto) as (token & ws & _ & Ht').
    unfold token_de in Ht'. rewrite startswith_Bearer_append, <- Hresto in Ht'.
    congruence.
Qed.

Lemma sin_clave_nadie_entra_witness :
  requiere_api_key (API_KEY (Some EmptyString)) (Some "Bearer s3cr3t") ("ok", 200)
    = (No_se_proporciono_token, 401)
  \/ requiere_api_key (API_KEY (Some EmptyString)) (Some "Bearer s3cr3t") ("ok", 200)
     = (Token_invalido, 403).
Proof.
  apply (sin_clave_nadie_entra (Some EmptyString) (Some "Bearer s3cr3t") ("ok", 200)).
  reflexivity.
Defined.

(** * The search by barcode *)

Import Buscador.

Section Busqueda.
Implicit Types (a b f g : fila_join) (l : list fila_join) (k : Z * Z).

#[local] Instance antes_par_total : Total antes_par.
Proof.
  intros a b. unfold antes_par.
  destruct (trichotomyT lexico (clave_orden_par a) (clave_orden_par b)) as [[H|H]|H].
  - left. intros Hn. exact (asymmetry H Hn).
  - left. rewrite H. apply irreflexivity, _.
  - right. intros Hn. exact (asymmetry H Hn).
Qed.

#[local] Instance antes_par_trans : Transitive antes_par.
Proof.
  intros a b c. unfold antes_par. intros Hab Hbc Hca.
  destruct (trichotomyT lexico (clave_orden_par a) (clave_orden_par b)) as [[H|H]|H].
  - apply Hbc. by trans (clave_orden_par a).
  - apply Hbc. by rewrite <- H.
  - contradiction.
Qed.

Lemma antes_par_refl a : antes_par a a.
Proof. unfold antes_par. apply irreflexivity, _. Qed.

Lemma antes_par_claves a b :
  antes_par a b -> ¬ lexico (clave_par b) (clave_par a).
Proof. unfold antes_par. intros H Hk. apply H. left. exact Hk. Qed.

Lemma antes_par_precio a b :
  clave_par a = clave_par b -> antes_par a b ->
  numeric_le (productos_precio_lista a.1) (productos_precio_lista b.1).
Proof.
  unfold antes_par. intros Hk H. apply numeric_le_orden. intros Hp. apply H.
  right. split; [|exact Hp]. unfold clave_orden_par. cbn [fst]. by rewrite Hk.
Qed.

Lemma claves_iguales k k' : ¬ lexico k k' -> ¬ lexico k' k -> k = k'.
Proof.
  intros H1 H2. by destruct (trichotomyT lexico k k') as [[H|H]|H].
Qed.

Lemma distinct_on_par_incluido previa l f :
  f ∈ distinct_on_par previa l -> f ∈ l.
Proof.
  revert previa. induction l as [|x l IH]; intros previa; cbn [distinct_on_par];
    [done|].
  destruct (bool_decide (previa = Some (clave_par x))).
  - intros H. apply list_elem_of_further. eapply IH, H.
  - intros [->|H]%elem_of_cons; [apply list_elem_of_here|].
    apply list_elem_of_further. eapply IH, H.
Qed.

(** After a row of key [k], [DISTINCT ON] lets no other row of [k]
    through, when no later key sorts before [k]. *)
Lemma distinct_on_par_previa k l f :
  StronglySorted antes_par l ->
  Forall (fun x => ¬ lexico (clave_par x) k) l ->
  f ∈ distinct_on_par (Some k) l -> clave_par f ≠ k.
Proof.
  intros Hs. revert k. induction Hs as [|x l Hs IH Hx]; intros k Hk;
    cbn [distinct_on_par]; [by intros ?%elem_of_nil|].
  apply Forall_cons in Hk as [Hkx Hkl].
  destruct (decide (Some k = Some (clave_par x))) as [He|He].
  - rewrite (bool_decide_eq_true_2 _ He). by apply IH.
  - rewrite (bool_decide_eq_false_2 _ He).
    intros [->|Hf]%elem_of_cons; [congruence|].
    assert (Forall (fun y => ¬ lexico (clave_par y) (clave_par x)) l) as Hxl.
    { eapply Forall_impl; [exact Hx|]. intros y Hy. by apply antes_par_claves. }
    pose proof (IH _ Hxl Hf) as Hfx. intros Hfk.
    apply distinct_on_par_incluido in Hf.
    rewrite Forall_forall in Hxl. specialize (Hxl f Hf). rewrite Hfk in Hxl.
    apply He. f_equal. by apply claves_iguales.
Qed.

Lemma StronglySorted_claves x l :
  Forall (antes_par x) l ->
  Forall (fun y => ¬ lexico (clave_par y) (clave_par x)) l.
Proof.
  intros Hx. eapply Forall_impl; [exact Hx|]. intros y Hy. by apply antes_par_claves.
Qed.

Lemma distinct_on_par_NoDup previa l :
  StronglySorted antes_par l ->
  NoDup (clave_par <$> distinct_on_par previa l).
Proof.
  intros Hs. revert previa. induction Hs as [|x l Hs IH Hx]; intros previa;
    cbn [distinct_on_par]; [apply NoDup_nil_2|].
  destruct (bool_decide (previa = Some (clave_par x))); [apply IH|].
  rewrite fmap_cons. apply NoDup_cons. split; [|apply IH].
  intros (f & Hk & Hf)%list_elem_of_fmap.
  eapply distinct_on_par_previa; [exact Hs| |exact Hf|by symmetry].
  by apply StronglySorted_claves.
Qed.

Lemma distinct_on_par_completo previa l g :
  g ∈ l -> previa ≠ Some (clave_par g) ->
  exists f, f ∈ distinct_on_par previa l /\ clave_par f = clave_par g.
Proof.
  revert previa. induction l as [|x l IH]; intros previa Hg Hp;
    [by apply elem_of_nil in Hg|].
  cbn [distinct_on_par].
  destruct (decide (previa = Some (clave_par x))) as [He|He].
  - rewrite (bool_decide_eq_true_2 _ He).
    apply elem_of_cons in Hg as [->|Hg]; [contradiction|]. by apply IH.
  - rewrite (bool_decide_eq_false_2 _ He).
    apply elem_of_cons in Hg as [->|Hg].
    + exists x. split; [apply list_elem_of_here|reflexivity].
    + destruct (decide (clave_par x = clave_par g)) as [Hxg|Hxg].
      * exists x. split; [apply list_elem_of_here|exact Hxg].
      * destruct (IH (Some (clave_par x)) Hg) as (f & Hf & Hk); [congruence|].
        exists f. split; [by apply list_elem_of_further|exact Hk].
Qed.

(** The row [DISTINCT ON] keeps of a key comes before every row of that
    key in the sorted rows. *)
Lemma distinct_on_par_primero previa l f g :
  StronglySorted antes_par l ->
  (forall k, previa = Some k -> Forall (fun x => ¬ lexico (clave_par x) k) l) ->
  f ∈ distinct_on_par previa l -> g ∈ l -> clave_par g = clave_par f ->
  antes_par f g.
Proof.
  intros Hs. revert previa. induction Hs as [|x l Hs IH Hx]; intros previa Hp Hf Hg Hk;
    [by apply elem_of_nil in Hg|].
  pose proof (StronglySorted_claves _ _ Hx) as Hxl.
  cbn [distinct_on_par] in Hf.
  destruct (decide (previa = Some (clave_par x))) as [He|He].
  - rewrite (bool_decide_eq_true_2 _ He) in Hf.
    assert (clave_par f ≠ clave_par x) as Hfx.
    { rewrite He in Hf. eapply distinct_on_par_previa; [exact Hs|exact Hxl|exact Hf]. }
    apply elem_of_cons in Hg as [->|Hg]; [congruence|].
    eapply IH; [|exact Hf|exact Hg|exact Hk].
    intros k Hpk. exact (Forall_inv_tail (Hp k Hpk)).
  - rewrite (bool_decide_eq_false_2 _ He) in Hf.
    apply elem_of_cons in Hf as [->|Hf].
    + apply elem_of_cons in Hg as [->|Hg]; [apply antes_par_refl|].
      rewrite Forall_forall in Hx. by apply Hx.
    + assert (clave_par f ≠ clave_par x) as Hfx
        by (eapply distinct_on_par_previa; [exact Hs|exact Hxl|exact Hf]).
      apply elem_of_cons in Hg as [->|Hg]; [congruence|].
      eapply IH; [|exact Hf|exact Hg|exact Hk].
      intros k [= <-]. exact Hxl.
Qed.

Lemma join_where_elem t codigo p c :
  (p, c) ∈ join_where t codigo
  <-> p ∈ columnas <$> productos t /\ id_producto p = codigo
      /\ c ∈ comercios t
      /\ id_comercio p = c_id_comercio c /\ id_bandera p = c_id_bandera c.
Proof.
  unfold join_where. rewrite list_elem_of_bind. split.
  - intros (p' & Hc & Hp). apply list_elem_of_bind in Hc as (c' & Hpc & Hc).
    apply list_elem_of_singleton in Hpc as [= -> ->].
    apply list_elem_of_In, filter_In in Hp as [Hp Hcod].
    apply list_elem_of_In, filter_In in Hc as [Hc Hon].
    apply list_elem_of_In in Hp, Hc. apply bool_decide_eq_true_1 in Hcod.
    unfold on_comercio in Hon. apply andb_prop in Hon as [H1 H2].
    apply bool_decide_eq_true_1 in H1, H2. auto.
  - intros (Hp & Hcod & Hc & H1 & H2). exists p. split.
    + apply list_elem_of_bind. exists c. split; [apply list_elem_of_here|].
      apply list_elem_of_In, filter_In. split; [by apply list_elem_of_In|].
      unfold on_comercio. by rewrite !bool_decide_eq_true_2.
    + apply list_elem_of_In, filter_In. split; [by apply list_elem_of_In|].
      by rewrite bool_decide_eq_true_2.
Qed.

(** The rows behind the results of a search. *)
Lemma buscar_filas t codigo :
  exists l,
    buscar_por_codigo_barras t codigo = resultado_de <$> l
    /\ NoDup (clave_par <$> l)
    /\ (forall f, f ∈ l -> f ∈ join_where t codigo)
    /\ (forall g, g ∈ join_where t codigo ->
          exists f, f ∈ l /\ clave_par f = clave_par g)
    /\ (forall f g, f ∈ l -> g ∈ join_where t codigo ->
          clave_par g = clave_par f -> antes_par f g).
Proof.
  pose proof (StronglySorted_merge_sort antes_par (join_where t codigo)) as Hs.
  pose proof (merge_sort_Permutation antes_par (join_where t codigo)) as Hp.
  fold (order_by_par (join_where t codigo)) in Hs, Hp.
  exists (distinct_on_par None (order_by_par (join_where t codigo))).
  split; [reflexivity|]. split; [by apply distinct_on_par_NoDup|].
  split; [|split].
  - intros f Hf. apply distinct_on_par_incluido in Hf. by rewrite Hp in Hf.
  - intros g Hg. rewrite <- Hp in Hg.
    by apply distinct_on_par_completo.
  - intros f g Hf Hg Hk. rewrite <- Hp in Hg.
    eapply distinct_on_par_primero; [exact Hs| |exact Hf|exact Hg|exact Hk].
    intros k [=].
Qed.

End Busqueda.

(** A search returns at most one result for each pair of merchant and
    banner, and every result carries the barcode that was asked for. *)
Theorem busqueda_un_resultado_por_comercio t codigo :
  NoDup ((fun r => (r_id_comercio r, r_id_bandera r))
           <$> buscar_por_codigo_barras t codigo)
  /\ Forall (fun r => codigo_barras r = codigo) (buscar_por_codigo_barras t codigo).
Proof.
  destruct (buscar_filas t codigo) as (l & -> & Hnd & Hin & _).
  split.
  - rewrite <- list_fmap_compose.
    replace ((fun r => (r_id_comercio r, r_id_bandera r)) ∘ resultado_de)
      with clave_par by reflexivity.
    exact Hnd.
  - apply Forall_fmap, Forall_forall. intros [p c] Hf.
    apply Hin, join_where_elem in Hf as (_ & Hcod & _). exact Hcod.
Qed.

(** The price of a result is the lowest that the final table lists for
    that barcode at that merchant and banner. *)
Theorem busqueda_precio_minimo t codigo r p :
  r ∈ buscar_por_codigo_barras t codigo ->
  p ∈ productos t ->
  id_producto (columnas p) = codigo ->
  id_comercio (columnas p) = r_id_comercio r ->
  id_bandera (columnas p) = r_id_bandera r ->
  numeric_le (precio_lista r) (productos_precio_lista (columnas p))
  /\ exists q, q ∈ productos t
       /\ id_producto (columnas q) = codigo
       /\ id_comercio (columnas q) = r_id_comercio r
       /\ id_bandera (columnas q) = r_id_bandera r
       /\ productos_precio_lista (columnas q) = precio_lista r.
Proof.
  intros Hr Hp Hcod Hm Hb.
  destruct (buscar_filas t codigo) as (l & Hl & _ & Hin & _ & Hmin).
  rewrite Hl in Hr. apply list_elem_of_fmap in Hr as ([q c] & -> & Hf).
  cbn [resultado_de r_id_comercio r_id_bandera precio_lista fst snd] in *.
  pose proof (Hin _ Hf) as Hj.
  apply join_where_elem in Hj as (Hq & Hqcod & Hc & H1 & H2).
  split.
  - assert ((columnas p, c) ∈ join_where t codigo) as Hg.
    { apply join_where_elem. split; [apply list_elem_of_fmap; eauto|].
      split; [exact Hcod|]. split; [exact Hc|]. split; congruence. }
    apply (antes_par_precio (q, c) (columnas p, c)).
    + unfold clave_par. cbn [fst]. congruence.
    + apply (Hmin _ _ Hf Hg). unfold clave_par. cbn [fst]. congruence.
  - apply list_elem_of_fmap in Hq as (q' & -> & Hq'). exists q'. auto.
Qed.

(** A merchant and banner appear in the results exactly when the final
    table lists the barcode for them and the registry has a row for them:
    a listed product whose merchant is missing from the registry is not
    returned. *)
Theorem busqueda_exige_comercio_registrado t codigo m b :
  (exists r, r ∈ buscar_por_codigo_barras t codigo
             /\ r_id_comercio r = m /\ r_id_bandera r = b)
  <-> (exists p, p ∈ productos t /\ id_producto (columnas p) = codigo
                 /\ id_comercio (columnas p) = m /\ id_bandera (columnas p) = b)
      /\ (exists c, c ∈ comercios t /\ c_id_comercio c = m /\ c_id_bandera c = b).
Proof.
  destruct (buscar_filas t codigo) as (l & -> & _ & Hin & Hcomp & _). split.
  - intros (r & Hr & <- & <-).
    apply list_elem_of_fmap in Hr as ([p c] & -> & Hf).
    apply Hin, join_where_elem in Hf as (Hp & Hcod & Hc & H1 & H2).
    apply list_elem_of_fmap in Hp as (p' & -> & Hp').
    cbn [resultado_de r_id_comercio r_id_bandera fst].
    split; [exists p'; auto|exists c; auto].
  - intros [(p & Hp & Hcod & <- & <-) (c & Hc & H1 & H2)].
    assert ((columnas p, c) ∈ join_where t codigo) as Hg.
    { apply join_where_elem. split; [apply list_elem_of_fmap; eauto|]. auto. }
    destruct (Hcomp _ Hg) as ([q c'] & Hf & Hk).
    exists (resultado_de (q, c')). split; [apply list_elem_of_fmap; eauto|].
    unfold clave_par in Hk. cbn [fst resultado_de r_id_comercio r_id_bandera] in *.
    by injection Hk.
Qed.

Lemma busqueda_precio_minimo_witness :
  numeric_le (precio_lista EjemplosBusqueda.resultado_leche)
             (productos_precio_lista (columnas EjemplosExtra.producto_leche))
  /\ exists q, q ∈ productos EjemplosExtra.tablas_importadas
       /\ id_producto (columnas q) = "123"
       /\ id_comercio (columnas q) = r_id_comercio EjemplosBusqueda.resultado_leche
       /\ id_bandera (columnas q) = r_id_bandera EjemplosBusqueda.resultado_leche
       /\ productos_precio_lista (columnas q)
          = precio_lista EjemplosBusqueda.resultado_leche.
Proof.
  apply (busqueda_precio_minimo EjemplosExtra.tablas_importadas "123"
           EjemplosBusqueda.resultado_leche EjemplosExtra.producto_leche).
  - vm_compute. apply list_elem_of_here.
  - vm_compute. apply list_elem_of_here.
  - reflexivity.
  - reflexivity.
  - reflexivity.
Defined.

(** ** The product endpoint *)

#[local] Instance str_par_inj : Inj (=) (=) (fun k : Z * Z => (str k.1, str k.2)).
Proof.
  intros [a b] [a' b'] [= H1 H2]. unfold str in *.
  apply (inj pretty) in H1, H2. congruence.
Qed.

(** The answer of the product endpoint: 500 when the query raises; 404
    with the barcode when no listed row of that barcode has its merchant
    and banner in the registry; otherwise 200 with that barcode and a
    list of merchants that is not empty and has no merchant and banner
    twice. *)
Theorem buscar_producto_respuesta codigo :
  buscar_producto None codigo = (Error_al_buscar_producto, 500)
  /\ forall t,
       ((¬ exists p c, p ∈ productos t /\ c ∈ comercios t
                      /\ id_producto (columnas p) = codigo
                      /\ id_comercio (columnas p) = c_id_comercio c
                      /\ id_bandera (columnas p) = c_id_bandera c) ->
        buscar_producto (Some t) codigo = (Producto_no_encontrado codigo, 404))
       /\ ((exists p c, p ∈ productos t /\ c ∈ comercios t
                       /\ id_producto (columnas p) = codigo
                       /\ id_comercio (columnas p) = c_id_comercio c
                       /\ id_bandera (columnas p) = c_id_bandera c) ->
           exists r, buscar_producto (Some t) codigo = (Producto r, 200)
                     /\ j_id_producto r = codigo
                     /\ j_comercios r ≠ []
                     /\ NoDup ((fun c => (j_id_comercio c, j_id_bandera c))
                                 <$> j_comercios r)).
Proof.
  split; [reflexivity|]. intros t.
  destruct (buscar_filas t codigo) as (l & Hl & Hnd & Hin & Hcomp & _).
  unfold buscar_producto. rewrite Hl.
  destruct l as [|f l].
  - split; [reflexivity|]. intros (p & c & Hp & Hc & Hcod & H1 & H2).
    assert ((columnas p, c) ∈ join_where t codigo) as Hg.
    { apply join_where_elem. split; [apply list_elem_of_fmap; eauto|]. auto. }
    destruct (Hcomp _ Hg) as (f & Hf & _). by apply elem_of_nil in Hf.
  - assert (f ∈ join_where t codigo) as Hf by apply Hin, list_elem_of_here.
    destruct f as [p c]. apply join_where_elem in Hf as (Hp & Hcod & Hc & H1 & H2).
    apply list_elem_of_fmap in Hp as (p' & -> & Hp').
    split.
    + intros Hno. exfalso. apply Hno. exists p', c. auto.
    + intros _. rewrite fmap_cons. eexists. split; [reflexivity|].
      cbn [j_id_producto j_comercios resultado_de codigo_barras fst].
      split; [exact Hcod|]. split; [discriminate|].
      rewrite <- fmap_cons, <- !list_fmap_compose.
      replace ((fun c0 => (j_id_comercio c0, j_id_bandera c0)) ∘ comercio_de ∘ resultado_de)
        with ((fun k : Z * Z => (str k.1, str k.2)) ∘ clave_par) by reflexivity.
      rewrite list_fmap_compose. apply (NoDup_fmap_2 _), Hnd.
Qed.

(** ** The search after an import *)

Lemma productos_de_la_corrida e bd p :
  (match ruta_zip_principal e with
   | Some z => Some z
   | None => ruta_alternativa e
   end) ≠ None ->
  servidor_disponible e = true ->
  p ∈ columnas <$> productos (almacenado (bd_de (procesar_zip_sepa e bd))) ->
  exists zips, p ∈ carga_de zips.
Proof.
  intros Hruta Hserv Hc. rewrite procesar_productos in Hc.
  destruct (match ruta_zip_principal e with
            | Some z => Some z
            | None => ruta_alternativa e
            end) as [ruta_zip|]; [|contradiction].
  rewrite Hserv in Hc.
  destruct (descomprimir_zip_principal ruta_zip) as [carpeta_fecha|];
    [|by apply elem_of_nil in Hc].
  apply distinct_on_incluido in Hc.
  unfold order_by in Hc. rewrite merge_sort_Permutation in Hc. eauto.
Qed.

(** On the tables a run leaves, a search only returns allowed merchants,
    and a barcode that is empty or has a blank at either end is answered
    with 404: the stored codes are trimmed and the query compares them as
    they are. *)
Theorem busqueda_tras_importar e bd codigo :
  (match ruta_zip_principal e with
   | Some z => Some z
   | None => ruta_alternativa e
   end) ≠ None ->
  servidor_disponible e = true ->
  Forall (fun r => permitido (r_id_comercio r) = true)
         (buscar_por_codigo_barras
            (almacenado (bd_de (procesar_zip_sepa e bd))) codigo)
  /\ (¬ recortado codigo ->
      buscar_producto (Some (almacenado (bd_de (procesar_zip_sepa e bd)))) codigo
      = (Producto_no_encontrado codigo, 404)).
Proof.
  intros Hruta Hserv.
  destruct (buscar_filas (almacenado (bd_de (procesar_zip_sepa e bd))) codigo)
    as (l & Hl & _ & Hin & _).
  split.
  - rewrite Hl. apply Forall_fmap, Forall_forall. intros [p c] Hf.
    apply Hin, join_where_elem in Hf as (Hp & _).
    destruct (productos_de_la_corrida e bd p Hruta Hserv Hp) as [zips Hz].
    exact (carga_de_permitida _ _ Hz).
  - intros Hno. unfold buscar_producto. rewrite Hl.
    destruct l as [|[p c] l]; [reflexivity|]. exfalso. apply Hno.
    assert ((p, c) ∈ join_where (almacenado (bd_de (procesar_zip_sepa e bd))) codigo)
      as Hf by apply Hin, list_elem_of_here.
    apply join_where_elem in Hf as (Hp & <- & _).
    destruct (productos_de_la_corrida e bd p Hruta Hserv Hp) as [zips Hz].
    by destruct (carga_de_recortada _ _ Hz) as [Hrec _].
Qed.

Lemma busqueda_tras_importar_witness :
  Forall (fun r => permitido (r_id_comercio r) = true)
         (buscar_por_codigo_barras
            (almacenado (bd_de (procesar_zip_sepa Ejemplos.entorno_ejemplo
                                  Ejemplos.bd_vacia))) " 123")
  /\ (¬ recortado " 123" ->
      buscar_producto
        (Some (almacenado (bd_de (procesar_zip_sepa Ejemplos.entorno_ejemplo
                                    Ejemplos.bd_vacia)))) " 123"
      = (Producto_no_encontrado " 123", 404)).
Proof.
  apply (busqueda_tras_importar Ejemplos.entorno_ejemplo Ejemplos.bd_vacia " 123").
  - discriminate.
  - reflexivity.
Defined.
